(** * Attendance analytics aggregation ([processAnalytics], index.js)

    A shallow embedding of the aggregation function of the group-training
    analytics server, and the properties of its report.

    Modelling conventions.
    - Counts and capacities are non-negative integers ([N]).  A quotient, a
      product or a sum of the function is an IEEE 754 binary64 value
      ([number]): a finite one is kept as the rational it denotes, every
      operation being followed by [round64], the rounding to the nearest
      such value; a division by zero gives [Infinity] or [NaN].  [toFixed1]
      rounds the value so obtained to tenths.
    - A string is a sequence of 8-bit code units; ordering is by code unit.
    - An object literal used as a dictionary is an association list of its
      own properties, in creation order; reading [d[k]] also finds the
      properties every object inherits ([inherited]).
    - [new Date(s)] is a parameter of the development: the local-time weekday
      and hour of a parsed timestamp, or an invalid date. *)

From Stdlib Require Import ZArith NArith QArith Qround Lqa.
From Stdlib Require Import Ascii String DecimalString DecimalN DecimalFacts OrderedTypeEx.
From Stdlib Require SpecFloat.
From stdpp Require Import base option list gmap sets strings sorting.

Local Open Scope string_scope.
Local Open Scope list_scope.
Local Open Scope N_scope.

#[local] Set Warnings "-clear-no-such-hyp".

(** ** Strings and numbers as the JavaScript runtime treats them *)

Module Js.

(** The one exception the function can raise. *)
Inductive exn := TypeError.

Inductive result (A : Type) :=
| Return (a : A)
| Throw (e : exn).
Arguments Return {A} a.
Arguments Throw {A} e.

Definition bind {A B} (m : result A) (k : A -> result B) : result B :=
  match m with
  | Return a => k a
  | Throw e => Throw e
  end.

(** [a || b] on strings: the empty string and undefined are falsy. *)
Definition str_or (a : option string) (b : string) : string :=
  match a with
  | Some s => if String.eqb s EmptyString then b else s
  | None => b
  end.

(** [a || 0] on numbers: undefined (and 0 itself) give 0. *)
Definition num_or0 (a : option N) : N :=
  match a with
  | Some n => n
  | None => 0
  end.

(** Truthiness of an optional numeric identifier: undefined and 0 are falsy. *)
Definition truthy_id (a : option Z) : bool :=
  match a with
  | Some z => negb (Z.eqb z 0)
  | None => false
  end.

Definition id_or (a b : option Z) : option Z :=
  if truthy_id a then a else b.

(** White space removed by [String.prototype.trim] (8-bit code units). *)
Definition is_space (c : ascii) : bool :=
  let n := N_of_ascii c in
  (n =? 32) || ((9 <=? n) && (n <=? 13)) || (n =? 160).

Fixpoint trimStart (s : string) : string :=
  match s with
  | EmptyString => EmptyString
  | String c s' => if is_space c then trimStart s' else s
  end.

Fixpoint trimEnd (s : string) : string :=
  match s with
  | EmptyString => EmptyString
  | String c s' =>
      match trimEnd s' with
      | EmptyString => if is_space c then EmptyString else String c EmptyString
      | t => String c t
      end
  end.

Definition trim (s : string) : string := trimEnd (trimStart s).

(** [s.split(' ')[0]]: the text before the first space. *)
Fixpoint split_head (s : string) : string :=
  match s with
  | EmptyString => EmptyString
  | String c s' => if Ascii.eqb c " " then EmptyString else String c (split_head s')
  end.

(** Decimal text of a non-negative integer. *)
Definition show (n : N) : string := NilZero.string_of_uint (N.to_uint n).

(** Property keys that are array indices are enumerated first, in
    ascending numeric order: the canonical decimal strings below 2^32-1. *)
Definition array_index (k : string) : option N :=
  match NilEmpty.uint_of_string k with
  | Some u =>
      let n := N.of_uint u in
      if String.eqb (show n) k && (n <? 4294967295) then Some n else None
  | None => None
  end.

(** A statistic of the report: the number literal [0], or the text
    produced by [toFixed(1)]: for a finite number its decimal expansion
    with one decimal, kept as the count of tenths it denotes, else one of
    the texts "Infinity" and "NaN". *)
Inductive stat :=
| Lit0
| Fixed1 (tenths : N)
| InfinityText
| NaNText.

Definition render (v : stat) : string :=
  match v with
  | Lit0 => "0"
  | Fixed1 t => (show (t / 10) ++ "." ++ show (t mod 10))%string
  | InfinityText => "Infinity"
  | NaNText => "NaN"
  end.

(** [parseFloat], in tenths, of a statistic that denotes a finite number
    (the two other texts parse to Infinity and NaN: see [ranksAfter]). *)
Definition parseFloat10 (v : stat) : N :=
  match v with
  | Fixed1 t => t
  | _ => 0
  end.

(** [parseFloat(y) - parseFloat(x) > 0]: a comparator returning this
    difference puts [x] after [y].  Infinity less Infinity and every
    difference with NaN are NaN, which is not positive. *)
Definition ranksAfter (x y : stat) : bool :=
  match x, y with
  | NaNText, _ | _, NaNText | InfinityText, _ => false
  | _, InfinityText => true
  | _, _ => parseFloat10 x <? parseFloat10 y
  end.

Definition num (n : N) : Q := inject_Z (Z.of_N n).

(** *** Numbers

    A number of the program that is not a count is a non-negative binary64
    value (53 significant bits): a finite one, represented by the rational
    it denotes, or one of the two values a division by zero produces.  The
    finite values met here are quotients of counts, their products by 100
    and sums of those: they stay inside the range of normal numbers, so the
    exponent is not bounded below or above. *)
Inductive number :=
| Finite (q : Q)
| Infinity
| NaN.

(** 2^e. *)
Definition pow2 (e : Z) : Q :=
  if (0 <=? e)%Z then inject_Z (2 ^ e) else 1 # Z.to_pos (2 ^ (- e)).

(** The integer part of the binary logarithm of q > 0. *)
Definition ilog2 (q : Q) : Z :=
  let d := (Z.log2 (Qnum q) - Z.log2 (Zpos (Qden q)))%Z in
  if Qle_bool (pow2 d) q then d else (d - 1)%Z.

(** The nearest integer, the even one on a tie. *)
Definition nearestEven (x : Q) : Z :=
  let f := Qfloor x in
  match (x - inject_Z f ?= 1 # 2)%Q with
  | Lt => f
  | Gt => (f + 1)%Z
  | Eq => if Z.even f then f else (f + 1)%Z
  end.

(** The binary64 value nearest to q >= 0 (ties to even): what the result of
    an arithmetic operation is stored as. *)
Definition round64 (q : Q) : Q :=
  if Qle_bool q 0 then 0%Q
  else let e := (ilog2 q - 52)%Z in
       (inject_Z (nearestEven (q / pow2 e)) * pow2 e)%Q.

(** [a / b], [a * b] and [a + b] on numbers that are not negative. *)
Definition divide (a b : number) : number :=
  match a, b with
  | Finite x, Finite y =>
      if Qeq_bool y 0 then (if Qeq_bool x 0 then NaN else Infinity)
      else Finite (round64 (x / y))
  | Finite _, Infinity => Finite 0
  | Infinity, Finite _ => Infinity
  | _, _ => NaN
  end.

Definition multiply (a b : number) : number :=
  match a, b with
  | Finite x, Finite y => Finite (round64 (x * y))
  | Finite x, Infinity | Infinity, Finite x => if Qeq_bool x 0 then NaN else Infinity
  | Infinity, Infinity => Infinity
  | _, _ => NaN
  end.

Definition add (a b : number) : number :=
  match a, b with
  | Finite x, Finite y => Finite (round64 (x + y))
  | NaN, _ | _, NaN => NaN
  | _, _ => Infinity
  end.

(** The tenths nearest to the exact value of x >= 0, the larger count on a
    tie. *)
Definition tenthsOf (x : Q) : N := Z.to_N (Qfloor (x * 10 + (1 # 2))).

(** [x.toFixed(1)] for a number x >= 0: the multiple of a tenth nearest to
    the exact value of a finite x, the larger one on a tie. *)
Definition toFixed1 (x : number) : stat :=
  match x with
  | Finite q => Fixed1 (tenthsOf q)
  | Infinity => InfinityText
  | NaN => NaNText
  end.

(** The names every object inherits from [Object.prototype]; the inherited
    values are functions or objects, hence truthy. *)
Definition inherited (k : string) : bool :=
  existsb (String.eqb k)
    ["constructor"; "__proto__"; "hasOwnProperty"; "isPrototypeOf";
     "propertyIsEnumerable"; "toLocaleString"; "toString"; "valueOf";
     "__defineGetter__"; "__defineSetter__"; "__lookupGetter__"; "__lookupSetter__"].

(** Stable sort; [after x y] says the comparator puts [x] strictly after [y]. *)
Section Sort.
Context {A : Type} (after : A -> A -> bool).

Fixpoint insert (x : A) (l : list A) : list A :=
  match l with
  | [] => [x]
  | y :: l' => if after x y then y :: insert x l' else x :: l
  end.

Fixpoint sort (l : list A) : list A :=
  match l with
  | [] => []
  | x :: l' => insert x (sort l')
  end.

End Sort.

Fixpoint forEach {S A} (f : S -> A -> result S) (l : list A) (s : S) : result S :=
  match l with
  | [] => Return s
  | x :: l' => bind (f s x) (forEach f l')
  end.

(** Evaluate the elements of a list left to right, up to the first throw. *)
Fixpoint collect {A} (l : list (result A)) : result (list A) :=
  match l with
  | [] => Return []
  | m :: l' => bind m (fun a => bind (collect l') (fun r => Return (a :: r)))
  end.

End Js.

(** ** Objects used as dictionaries *)

Module Obj.

Section Dict.
Context {K V : Type} `{EqDecision K}.

(** The own property [k] of [d], if there is one. *)
Fixpoint get (k : K) (d : list (K * V)) : option V :=
  match d with
  | [] => None
  | (k', v) :: d' => if decide (k = k') then Some v else get k d'
  end.

(** [d[k] = v]: an existing property keeps its place, a new one is created last. *)
Fixpoint set (k : K) (v : V) (d : list (K * V)) : list (K * V) :=
  match d with
  | [] => [(k, v)]
  | (k', v') :: d' => if decide (k = k') then (k, v) :: d' else (k', v') :: set k v d'
  end.

(** What reading [d[k]] finds: the own property, else the property of that
    name every object inherits, else nothing (undefined).  [inherits] tells
    the inherited names ([Js.inherited] for names; none for a key that is
    always a numeral). *)
Inductive slot :=
| Own (v : V)
| Inherited
| Missing.

Definition lookup (inherits : K -> bool) (k : K) (d : list (K * V)) : slot :=
  match get k d with
  | Some v => Own v
  | None => if inherits k then Inherited else Missing
  end.

End Dict.
Arguments slot : clear implicits.

Definition index_of {V} (e : string * V) : N :=
  match Js.array_index e.1 with
  | Some n => n
  | None => 0
  end.

(** Own-property enumeration order: array indices ascending, then the
    other keys in creation order. *)
Definition entries {V} (d : list (string * V)) : list (string * V) :=
  Js.sort (fun x y => index_of y <? index_of x)
          (filter (fun e => is_Some (Js.array_index e.1)) d)
  ++ filter (fun e => ¬ is_Some (Js.array_index e.1)) d.

Definition values {V} (d : list (string * V)) : list V := (entries d).*2.

Definition keys {V} (d : list (string * V)) : list string := (entries d).*1.

End Obj.

(** ** Input records *)

Module WorkoutType.
Record t := mk { name : option string; color : option string }.
End WorkoutType.

Module Staff.
Record t := mk { firstname : option string; lastname : option string; imagekey : option string }.
End Staff.

Module User.
Record t := mk { id : option Z }.
End User.

Module Booking.
Record t := mk { user_id : option Z; userId : option Z; user : option User.t }.
End Booking.

Module Workout.
Record t := mk {
  workoutType : option WorkoutType.t;
  space : option N;
  numBooked : option N;
  startTime : option string;
  staffs : option (list Staff.t);
  bookings : option (list Booking.t)
}.
End Workout.

(** The local-time fields [new Date(s)] exposes. *)
Module Date.
Record t := mk { getDay : nat; getHours : nat }.
End Date.

(** ** Accumulators of the pass *)

Module TypeBucket.
Record t := mk {
  name : string;
  color : string;
  classes : N;
  totalBooked : N;
  totalCapacity : N;
  bookings : list Js.number
}.
End TypeBucket.

Module DayEntry.
Record t := mk { booked : N; capacity : N; rate : Js.number }.
End DayEntry.

Module Bucket.
Record t := mk { classes : N; totalBooked : N; totalCapacity : N }.
End Bucket.

Module InstructorBucket.
Record t := mk {
  name : string;
  classes : N;
  totalBooked : N;
  totalCapacity : N;
  imagekey : option string
}.
End InstructorBucket.

Module Acc.
Record t := mk {
  byType : list (string * TypeBucket.t);
  byDayOfWeek : list (list DayEntry.t);
  byHour : list (nat * Bucket.t);
  byInstructor : list (string * InstructorBucket.t);
  byDate : list (string * Bucket.t);
  totalClasses : N;
  totalBooked : N;
  totalCapacity : N;
  fullyBookedClasses : N;
  emptyClasses : N;
  allUniqueUsers : gset Z;
  uniqueUsersByType : list (string * gset Z)
}.
End Acc.

(** ** The report *)

Module Summary.
Record t := mk {
  totalClasses : N;
  totalBooked : N;
  totalCapacity : N;
  overallAttendanceRate : Js.stat;
  avgPerClass : Js.stat;
  fullyBookedClasses : N;
  fullyBookedRate : Js.stat;
  emptyClasses : N;
  emptyRate : Js.stat;
  uniqueParticipants : N
}.
End Summary.

Module TypeStat.
Record t := mk {
  name : string;
  color : string;
  classes : N;
  totalBooked : N;
  totalCapacity : N;
  bookings : list Js.number;
  avgAttendance : Js.stat;
  attendanceRate : Js.stat;
  avgBookingRate : Js.stat;
  uniqueParticipants : N
}.
End TypeStat.

Module DayStat.
Record t := mk {
  day : string;
  dayIndex : nat;
  classes : N;
  avgAttendance : Js.stat;
  attendanceRate : Js.stat
}.
End DayStat.

Module HourStat.
Record t := mk {
  hour : nat;
  label : string;
  classes : N;
  avgAttendance : Js.stat;
  attendanceRate : Js.stat
}.
End HourStat.

Module InstructorStat.
Record t := mk {
  name : string;
  classes : N;
  totalBooked : N;
  totalCapacity : N;
  imagekey : option string;
  avgAttendance : Js.stat;
  attendanceRate : Js.stat
}.
End InstructorStat.

Module TrendPoint.
Record t := mk {
  date : string;
  classes : N;
  totalBooked : N;
  totalCapacity : N;
  attendanceRate : Js.stat
}.
End TrendPoint.

Module Report.
Record t := mk {
  summary : Summary.t;
  byType : list TypeStat.t;
  byDay : list DayStat.t;
  byHour : list HourStat.t;
  byInstructor : list InstructorStat.t;
  dailyTrend : list TrendPoint.t
}.
End Report.

(** ** processAnalytics *)

Import Js.

(** [x / y * 100]: a division, then a multiplication. *)
Definition percent (x y : N) : number :=
  multiply (divide (Finite (num x)) (Finite (num y))) (Finite 100).

(** [den > 0 ? (x / den * 100).toFixed(1) : 0]. *)
Definition rateOf (x den : N) : stat :=
  if 0 <? den then toFixed1 (percent x den) else Lit0.

(** [den > 0 ? (x / den).toFixed(1) : 0]. *)
Definition avgOf (x den : N) : stat :=
  if 0 <? den then toFixed1 (divide (Finite (num x)) (Finite (num den))) else Lit0.

(** [space > 0 ? (booked / space * 100) : 0]. *)
Definition bookingRate (booked space : N) : number :=
  if 0 <? space then percent booked space else Finite 0.

Definition typeNameOf (w : Workout.t) : string :=
  str_or (Workout.workoutType w ≫= WorkoutType.name) "Unknown".

Definition colorOf (w : Workout.t) : string :=
  str_or (Workout.workoutType w ≫= WorkoutType.color) "#667eea".

Definition spaceOf (w : Workout.t) : N := num_or0 (Workout.space w).

Definition bookedOf (w : Workout.t) : N := num_or0 (Workout.numBooked w).

(** [booking.user_id || booking.userId || booking.user?.id]. *)
Definition userIdOf (b : Booking.t) : option Z :=
  id_or (id_or (Booking.user_id b) (Booking.userId b))
        (Booking.user b ≫= User.id).

(** The display name of an instructor. *)
Definition staffName (s : Staff.t) : string :=
  let full := (str_or (Staff.firstname s) EmptyString ++ " "
               ++ str_or (Staff.lastname s) EmptyString)%string in
  str_or (Some (trim full)) "Unknown".

Definition dayNames : list string :=
  ["Sunday"; "Monday"; "Tuesday"; "Wednesday"; "Thursday"; "Friday"; "Saturday"].

(** The bucket a type is given when first met, and a session counted into
    a bucket. *)
Definition freshType (w : Workout.t) : TypeBucket.t :=
  TypeBucket.mk (typeNameOf w) (colorOf w) 0 0 0 [].

Definition countType (t : TypeBucket.t) (w : Workout.t) : TypeBucket.t :=
  TypeBucket.mk (TypeBucket.name t) (TypeBucket.color t)
    (TypeBucket.classes t + 1)
    (TypeBucket.totalBooked t + bookedOf w)
    (TypeBucket.totalCapacity t + spaceOf w)
    (TypeBucket.bookings t ++ [bookingRate (bookedOf w) (spaceOf w)]).

(** "By workout type".  When the type name is an inherited one,
    [byType[typeName]] is the inherited value: no bucket is made, the
    counters are written onto that value, and its [bookings] is undefined,
    so [push] raises. *)
Definition addType (w : Workout.t) (byType : list (string * TypeBucket.t)) :
    result (list (string * TypeBucket.t)) :=
  let typeName := typeNameOf w in
  match Obj.lookup inherited typeName byType with
  | Obj.Missing => Return (Obj.set typeName (countType (freshType w) w) byType)
  | Obj.Own t => Return (Obj.set typeName (countType t w) byType)
  | Obj.Inherited => Throw TypeError
  end.

(** One iteration of the inner loop over [w.bookings]. *)
Definition addUser (typeName : string) (st : gset Z * list (string * gset Z))
    (b : Booking.t) : result (gset Z * list (string * gset Z)) :=
  match userIdOf b with
  | Some userId =>
      if Z.eqb userId 0 then Return st
      else match Obj.get typeName st.2 with
           | Some users => Return ({[userId]} ∪ st.1, Obj.set typeName ({[userId]} ∪ users) st.2)
           | None => Throw TypeError
           end
  | None => Return st
  end.

Definition countBucket (b : Bucket.t) (booked space : N) : Bucket.t :=
  Bucket.mk (Bucket.classes b + 1) (Bucket.totalBooked b + booked)
    (Bucket.totalCapacity b + space).

(** "By hour" and "By date".  Under an inherited key no bucket is made and
    the counters are written onto the inherited value: the dictionary is
    left as it is. *)
Definition addBucket {K} `{EqDecision K} (inherits : K -> bool) (k : K) (booked space : N)
    (d : list (K * Bucket.t)) : list (K * Bucket.t) :=
  match Obj.lookup inherits k d with
  | Obj.Missing => Obj.set k (countBucket (Bucket.mk 0 0 0) booked space) d
  | Obj.Own b => Obj.set k (countBucket b booked space) d
  | Obj.Inherited => d
  end.

Definition countStaff (i : InstructorBucket.t) (booked space : N) : InstructorBucket.t :=
  InstructorBucket.mk (InstructorBucket.name i) (InstructorBucket.classes i + 1)
    (InstructorBucket.totalBooked i + booked)
    (InstructorBucket.totalCapacity i + space)
    (InstructorBucket.imagekey i).

(** One iteration of the inner loop over [w.staffs]; an inherited display
    name gets no entry. *)
Definition addStaff (booked space : N) (byInstructor : list (string * InstructorBucket.t))
    (staff : Staff.t) : list (string * InstructorBucket.t) :=
  let name := staffName staff in
  match Obj.lookup inherited name byInstructor with
  | Obj.Missing =>
      Obj.set name
        (countStaff (InstructorBucket.mk name 0 0 0 (Staff.imagekey staff)) booked space)
        byInstructor
  | Obj.Own i => Obj.set name (countStaff i booked space) byInstructor
  | Obj.Inherited => byInstructor
  end.

Section Aggregate.

(** [new Date(s)] followed by [getDay()] and [getHours()]; [None] is an
    invalid date, whose fields are NaN. *)
Context (parseDate : string -> option Date.t).

(** The body of [workouts.forEach]. *)
Definition step (a : Acc.t) (w : Workout.t) : result Acc.t :=
  let typeName := typeNameOf w in
  let space := spaceOf w in
  let booked := bookedOf w in
  let startTime := Workout.startTime w ≫= parseDate in
  let dayOfWeek := Date.getDay <$> startTime in
  let hour := Date.getHours <$> startTime in
  match Workout.startTime w with
  | None => Throw TypeError
  | Some text =>
      let dateStr := split_head text in
      let totalClasses := Acc.totalClasses a + 1 in
      let totalBooked := Acc.totalBooked a + booked in
      let totalCapacity := Acc.totalCapacity a + space in
      let fullyBookedClasses :=
        if (0 <? space) && (space <=? booked) then Acc.fullyBookedClasses a + 1
        else Acc.fullyBookedClasses a in
      let emptyClasses :=
        if booked =? 0 then Acc.emptyClasses a + 1 else Acc.emptyClasses a in
      let uniqueUsersByType :=
        match Obj.lookup inherited typeName (Acc.byType a) with
        | Obj.Missing => Obj.set typeName ∅ (Acc.uniqueUsersByType a)
        | _ => Acc.uniqueUsersByType a
        end in
      bind (addType w (Acc.byType a)) (fun byType =>
      bind (match Workout.bookings w with
            | Some bs => forEach (addUser typeName) bs (Acc.allUniqueUsers a, uniqueUsersByType)
            | None => Return (Acc.allUniqueUsers a, uniqueUsersByType)
            end) (fun users =>
      match dayOfWeek, hour with
      | Some d, Some h =>
          match Acc.byDayOfWeek a !! d with
          | None => Throw TypeError
          | Some data =>
              let byDayOfWeek :=
                <[d := data ++ [DayEntry.mk booked space (bookingRate booked space)]]>
                  (Acc.byDayOfWeek a) in
              let byHour := addBucket (fun _ => false) h booked space (Acc.byHour a) in
              let byInstructor :=
                match Workout.staffs w with
                | Some (s :: ss) => foldl (addStaff booked space) (Acc.byInstructor a) (s :: ss)
                | _ => Acc.byInstructor a
                end in
              let byDate := addBucket inherited dateStr booked space (Acc.byDate a) in
              Return (Acc.mk byType byDayOfWeek byHour byInstructor byDate
                        totalClasses totalBooked totalCapacity
                        fullyBookedClasses emptyClasses users.1 users.2)
          end
      | _, _ => Throw TypeError
      end))
  end.

Definition init : Acc.t :=
  Acc.mk [] (replicate 7 []) [] [] [] 0 0 0 0 0 ∅ [].

Definition sumN (l : list N) : N := foldl N.add 0 l.

(** [l.reduce((a, b) => a + b, 0)] on numbers: every sum is stored. *)
Definition reduceSum (l : list number) : number := foldl add (Finite 0) l.

Definition typeStat (uniqueUsersByType : list (string * gset Z)) (t : TypeBucket.t) :
    TypeStat.t :=
  TypeStat.mk (TypeBucket.name t) (TypeBucket.color t) (TypeBucket.classes t)
    (TypeBucket.totalBooked t) (TypeBucket.totalCapacity t) (TypeBucket.bookings t)
    (avgOf (TypeBucket.totalBooked t) (TypeBucket.classes t))
    (rateOf (TypeBucket.totalBooked t) (TypeBucket.totalCapacity t))
    (match TypeBucket.bookings t with
     | [] => Lit0
     | _ => toFixed1 (divide (reduceSum (TypeBucket.bookings t))
                               (Finite (num (N.of_nat (length (TypeBucket.bookings t))))))
     end)
    (match Obj.get (TypeBucket.name t) uniqueUsersByType with
     | Some users => N.of_nat (size users)
     | None => 0
     end).

Definition typeStats (a : Acc.t) : list TypeStat.t :=
  sort (fun x y => ranksAfter (TypeStat.attendanceRate x) (TypeStat.attendanceRate y))
       (typeStat (Acc.uniqueUsersByType a) <$> Obj.values (Acc.byType a)).

Definition dayStat (byDayOfWeek : list (list DayEntry.t)) (i : nat) (name : string) :
    result DayStat.t :=
  match byDayOfWeek !! i with
  | None => Throw TypeError
  | Some data =>
      let totalBooked := sumN (DayEntry.booked <$> data) in
      let totalCapacity := sumN (DayEntry.capacity <$> data) in
      let len := N.of_nat (length data) in
      Return (DayStat.mk name i len (avgOf totalBooked len) (rateOf totalBooked totalCapacity))
  end.

Definition dayStats (a : Acc.t) : result (list DayStat.t) :=
  collect (imap (dayStat (Acc.byDayOfWeek a)) dayNames).

Definition hourStat (byHour : list (nat * Bucket.t)) (h : nat) : HourStat.t :=
  let data := match Obj.get h byHour with
              | Some data => data
              | None => Bucket.mk 0 0 0
              end in
  HourStat.mk h (show (N.of_nat h) ++ ":00")%string (Bucket.classes data)
    (avgOf (Bucket.totalBooked data) (Bucket.classes data))
    (rateOf (Bucket.totalBooked data) (Bucket.totalCapacity data)).

Definition hourStats (a : Acc.t) : list HourStat.t :=
  hourStat (Acc.byHour a) <$> seq 5 18.

Definition instructorStat (i : InstructorBucket.t) : InstructorStat.t :=
  InstructorStat.mk (InstructorBucket.name i) (InstructorBucket.classes i)
    (InstructorBucket.totalBooked i) (InstructorBucket.totalCapacity i)
    (InstructorBucket.imagekey i)
    (avgOf (InstructorBucket.totalBooked i) (InstructorBucket.classes i))
    (rateOf (InstructorBucket.totalBooked i) (InstructorBucket.totalCapacity i)).

Definition instructorStats (a : Acc.t) : list InstructorStat.t :=
  sort (fun x y => ranksAfter (InstructorStat.attendanceRate x)
                              (InstructorStat.attendanceRate y))
       (instructorStat <$> Obj.values (Acc.byInstructor a)).

Definition trendPoint (byDate : list (string * Bucket.t)) (date : string) :
    result TrendPoint.t :=
  match Obj.get date byDate with
  | None => Throw TypeError
  | Some data =>
      Return (TrendPoint.mk date (Bucket.classes data) (Bucket.totalBooked data)
                (Bucket.totalCapacity data)
                (rateOf (Bucket.totalBooked data) (Bucket.totalCapacity data)))
  end.

Definition dailyTrendOf (a : Acc.t) : result (list TrendPoint.t) :=
  let dates := sort (fun x y => String.ltb y x) (Obj.keys (Acc.byDate a)) in
  collect (trendPoint (Acc.byDate a) <$> dates).

Definition summaryOf (a : Acc.t) : Summary.t :=
  Summary.mk (Acc.totalClasses a) (Acc.totalBooked a) (Acc.totalCapacity a)
    (rateOf (Acc.totalBooked a) (Acc.totalCapacity a))
    (avgOf (Acc.totalBooked a) (Acc.totalClasses a))
    (Acc.fullyBookedClasses a)
    (rateOf (Acc.fullyBookedClasses a) (Acc.totalClasses a))
    (Acc.emptyClasses a)
    (rateOf (Acc.emptyClasses a) (Acc.totalClasses a))
    (N.of_nat (size (Acc.allUniqueUsers a))).

Definition processAnalytics (workouts : list Workout.t) : result Report.t :=
  bind (forEach step workouts init) (fun a =>
  let typeStats := typeStats a in
  bind (dayStats a) (fun dayStats =>
  let hourStats := hourStats a in
  let instructorStats := instructorStats a in
  bind (dailyTrendOf a) (fun dailyTrend =>
  Return (Report.mk (summaryOf a) typeStats dayStats hourStats instructorStats dailyTrend)))).

End Aggregate.

(** ** A reference date parser

    The timestamps the scheduling service sends have the fixed-width form
    [YYYY-MM-DD HH:MM:SS] and are read as local time, as is the same text
    with a [T] between date and time.  [localDate] parses these two forms
    only and is used to run the aggregation on concrete inputs; the theorems
    hold for every parser. *)

Definition digit (c : ascii) : option Z :=
  let n := Z.of_N (N_of_ascii c) in
  if ((48 <=? n) && (n <=? 57))%Z then Some (n - 48)%Z else None.

Fixpoint digitsOf (acc : Z) (l : list ascii) : option Z :=
  match l with
  | [] => Some acc
  | c :: l' => d ← digit c; digitsOf (10 * acc + d)%Z l'
  end.

(** Days since 1970-01-01 of a proleptic Gregorian date. *)
Definition daysFromCivil (y m d : Z) : Z :=
  let y' := (if m <=? 2 then y - 1 else y)%Z in
  let era := (y' / 400)%Z in
  let yoe := (y' - era * 400)%Z in
  let mp := ((m + 9) mod 12)%Z in
  let doy := ((153 * mp + 2) / 5 + d - 1)%Z in
  let doe := (yoe * 365 + yoe / 4 - yoe / 100 + doy)%Z in
  (era * 146097 + doe - 719468)%Z.

Definition localDate (s : string) : option Date.t :=
  match list_ascii_of_string s with
  | [ya; yb; yc; yd; "-"; ma; mb; "-"; da; db; sep; ha; hb; ":"; na; nb; ":"; sa; sb]%char =>
      _ ← (if Ascii.eqb sep " " || Ascii.eqb sep "T" then Some tt else None);
      y ← digitsOf 0 [ya; yb; yc; yd];
      m ← digitsOf 0 [ma; mb];
      d ← digitsOf 0 [da; db];
      h ← digitsOf 0 [ha; hb];
      n ← digitsOf 0 [na; nb];
      sec ← digitsOf 0 [sa; sb];
      if ((1 <=? m) && (m <=? 12) && (1 <=? d) && (d <=? 31) && (h <=? 23)
          && (n <=? 59) && (sec <=? 59))%Z
      then Some (Date.mk (Z.to_nat ((daysFromCivil y m d + 4) mod 7)) (Z.to_nat h))
      else None
  | _ => None
  end.

(** Sample sessions. *)
Definition session (type : string) (space booked : N) (start : string)
    (staffs : list Staff.t) (bookings : list Booking.t) : Workout.t :=
  Workout.mk (Some (WorkoutType.mk (Some type) None)) (Some space) (Some booked)
    (Some start) (Some staffs) (Some bookings).

Definition staff (first last : string) : Staff.t :=
  Staff.mk (Some first) (Some last) None.

Definition bookingOf (uid : Z) : Booking.t :=
  Booking.mk (Some uid) None None.

Definition spinFull : Workout.t :=
  session "Spin" 10 10 "2024-01-15 18:00:00" [staff "Ann" "Lee"; staff "Bo" "Ek"]
    [bookingOf 7; bookingOf 8].

Definition spinEmpty : Workout.t :=
  session "Spin" 5 0 "2024-01-16 07:30:00" [] [].

Definition yogaClass : Workout.t :=
  session "Yoga" 12 8 "2024-01-15 09:00:00" [staff "Ann" "Lee"]
    [bookingOf 7; Booking.mk None None None].

Definition demo : list Workout.t := [spinFull; spinEmpty; yogaClass].

(** ** Vocabulary of the statements *)

(** The update pattern of every dictionary of the pass: create the entry of
    [key w] on first use, then fold [w] into it. *)
Definition groupStep {K V W} `{EqDecision K} (key : W -> K) (new : W -> V)
    (upd : V -> W -> V) (d : list (K * V)) (w : W) : list (K * V) :=
  Obj.set (key w) (upd (default (new w) (Obj.get (key w) d)) w) d.

(** The elements with a given key, in encounter order. *)
Definition groupOf {K W} `{EqDecision K} (key : W -> K) (k : K) (ws : list W) : list W :=
  filter (fun w => key w = k) ws.

Definition dateOf (parseDate : string -> option Date.t) (w : Workout.t) : option Date.t :=
  Workout.startTime w ≫= parseDate.

Definition dayOf (parseDate : string -> option Date.t) (w : Workout.t) : option nat :=
  Date.getDay <$> dateOf parseDate w.

Definition hourOf (parseDate : string -> option Date.t) (w : Workout.t) : option nat :=
  Date.getHours <$> dateOf parseDate w.

Definition dateStrOf (w : Workout.t) : option string :=
  split_head <$> Workout.startTime w.

(** A session whose start time is present and parses to a date whose
    weekday is one of the seven. *)
Definition dated (parseDate : string -> option Date.t) (w : Workout.t) : Prop :=
  match dateOf parseDate w with
  | Some dt => (Date.getDay dt < 7)%nat
  | None => False
  end.

(** A session the pass can process: it is dated and its type name is not
    an inherited property name. *)
Definition valid (parseDate : string -> option Date.t) (w : Workout.t) : Prop :=
  dated parseDate w /\ inherited (typeNameOf w) = false.

(** A session whose date key gets a bucket, and an instructor who gets an
    entry. *)
Definition dateListed (w : Workout.t) : Prop :=
  from_option inherited true (dateStrOf w) = false.

Definition listed (s : Staff.t) : Prop := inherited (staffName s) = false.

#[global] Instance dateListed_dec (w : Workout.t) : Decision (dateListed w) :=
  decide (from_option inherited true (dateStrOf w) = false).

#[global] Instance listed_dec (s : Staff.t) : Decision (listed s) :=
  decide (inherited (staffName s) = false).

(** A parser that takes every text for a Monday, 18 o'clock. *)
Definition anyDate (s : string) : option Date.t := Some (Date.mk 1 18).

Definition staffsOf (w : Workout.t) : list Staff.t := default [] (Workout.staffs w).

Definition bookingsOf (w : Workout.t) : list Booking.t := default [] (Workout.bookings w).

(** The participant identifiers a session contributes. *)
Definition userIdsOf (w : Workout.t) : list Z :=
  omap (fun b => match userIdOf b with
                 | Some u => if Z.eqb u 0 then None else Some u
                 | None => None
                 end) (bookingsOf w).

(** A value that [||] passes over: absent or 0. *)
Definition falsy (a : option Z) : Prop := a = None \/ a = Some 0%Z.

(** The participant a booking stands for: the first of its [user_id], its
    [userId] and the [id] of its [user] that is present and not 0. *)
Definition participantOf (b : Booking.t) (u : Z) : Prop :=
  u <> 0%Z /\
  (Booking.user_id b = Some u \/
   (falsy (Booking.user_id b) /\ Booking.userId b = Some u) \/
   (falsy (Booking.user_id b) /\ falsy (Booking.userId b) /\
    exists usr, Booking.user b = Some usr /\ User.id usr = Some u)).

(** The participants of a list of sessions: those some booking of some
    session stands for. *)
Definition participates (ws : list Workout.t) (u : Z) : Prop :=
  exists w bs b, w ∈ ws /\ Workout.bookings w = Some bs /\ b ∈ bs /\ participantOf b u.

Definition fullyBooked (w : Workout.t) : Prop := 0 < spaceOf w /\ spaceOf w <= bookedOf w.

Definition isEmpty (w : Workout.t) : Prop := bookedOf w = 0.

(** *** The accumulators in closed form *)

Section Closed.
Context (parseDate : string -> option Date.t).

Definition theDay (w : Workout.t) : nat := default 0%nat (dayOf parseDate w).

Definition theHour (w : Workout.t) : nat := default 0%nat (hourOf parseDate w).

Definition theDate (w : Workout.t) : string := default EmptyString (dateStrOf w).

Definition dayEntryOf (w : Workout.t) : DayEntry.t :=
  DayEntry.mk (bookedOf w) (spaceOf w) (bookingRate (bookedOf w) (spaceOf w)).

Definition pushDay (byDayOfWeek : list (list DayEntry.t)) (w : Workout.t) :
    list (list DayEntry.t) :=
  <[theDay w := default [] (byDayOfWeek !! theDay w) ++ [dayEntryOf w]]> byDayOfWeek.

Definition addStaffs (d : list (string * InstructorBucket.t)) (w : Workout.t) :
    list (string * InstructorBucket.t) :=
  foldl (addStaff (bookedOf w) (spaceOf w)) d (staffsOf w).

Definition addUsers (users : gset Z) (w : Workout.t) : gset Z :=
  list_to_set (userIdsOf w) ∪ users.

Definition countN {A} (P : A -> Prop) `{forall x, Decision (P x)} (l : list A) : N :=
  N.of_nat (length (filter P l)).

Definition accOf (ws : list Workout.t) : Acc.t :=
  Acc.mk
    (foldl (groupStep typeNameOf freshType countType) [] ws)
    (foldl pushDay (replicate 7 []) ws)
    (foldl (fun d w => addBucket (fun _ => false) (theHour w) (bookedOf w) (spaceOf w) d)
           [] ws)
    (foldl addStaffs [] ws)
    (foldl (fun d w => addBucket inherited (theDate w) (bookedOf w) (spaceOf w) d) [] ws)
    (N.of_nat (length ws))
    (sumN (bookedOf <$> ws))
    (sumN (spaceOf <$> ws))
    (countN fullyBooked ws)
    (countN isEmpty ws)
    (list_to_set (ws ≫= userIdsOf))
    (foldl (groupStep typeNameOf (fun _ => ∅) addUsers) [] ws).

Definition dayStatOf (data : list DayEntry.t) (i : nat) (name : string) : DayStat.t :=
  let totalBooked := sumN (DayEntry.booked <$> data) in
  let totalCapacity := sumN (DayEntry.capacity <$> data) in
  let len := N.of_nat (length data) in
  DayStat.mk name i len (avgOf totalBooked len) (rateOf totalBooked totalCapacity).

Definition trendPointOf (data : Bucket.t) (date : string) : TrendPoint.t :=
  TrendPoint.mk date (Bucket.classes data) (Bucket.totalBooked data)
    (Bucket.totalCapacity data)
    (rateOf (Bucket.totalBooked data) (Bucket.totalCapacity data)).

Definition reportOf (ws : list Workout.t) : Report.t :=
  let a := accOf ws in
  Report.mk (summaryOf a) (typeStats a)
    (imap (fun i name => dayStatOf (default [] (Acc.byDayOfWeek a !! i)) i name) dayNames)
    (hourStats a) (instructorStats a)
    ((fun date => trendPointOf (default (Bucket.mk 0 0 0) (Obj.get date (Acc.byDate a))) date)
       <$> sort (fun x y => String.ltb y x) (Obj.keys (Acc.byDate a))).

End Closed.






(** How many instructors of a session go by a display name. *)
Definition staffCount (n : string) (w : Workout.t) : N :=
  N.of_nat (length (filter (fun s => staffName s = n) (staffsOf w))).

(** How many instructors of a session get an entry. *)
Definition listedStaff (w : Workout.t) : N :=
  N.of_nat (length (filter listed (staffsOf w))).

(** The sum of the [classes] figures of the instructor entries. *)
Definition instructorClassesTotal (r : Report.t) : N :=
  sumN (InstructorStat.classes <$> Report.byInstructor r).

(** *** The arithmetic against the specification of IEEE 754

    The standard library specifies the operations of IEEE 754; at
    precision 53 and maximal exponent 1024 they are those of binary64. *)
Definition ieee (n : N) : SpecFloat.spec_float :=
  SpecFloat.binary_normalize 53 1024 (Z.of_N n) 0 false.

Definition ieeePercent (x y : N) : SpecFloat.spec_float :=
  SpecFloat.SFmul 53 1024 (SpecFloat.SFdiv 53 1024 (ieee x) (ieee y)) (ieee 100).

Definition ieeeMean (l : list (N * N)) : SpecFloat.spec_float :=
  SpecFloat.SFdiv 53 1024
    (foldl (fun a p => SpecFloat.SFadd 53 1024 a (ieeePercent p.1 p.2)) (ieee 0) l)
    (ieee (N.of_nat (length l))).

(** A number of the embedding and a value of the specification that
    denote the same. *)
Definition agrees (a : number) (f : SpecFloat.spec_float) : bool :=
  match a, f with
  | Finite q, SpecFloat.S754_zero _ => Qeq_bool q 0
  | Finite q, SpecFloat.S754_finite false m e => Qeq_bool q (inject_Z (Z.pos m) * pow2 e)
  | Infinity, SpecFloat.S754_infinity false => true
  | NaN, SpecFloat.S754_nan => true
  | _, _ => false
  end.

(** The pairs of counts up to 40. *)
Definition grid : list (N * N) :=
  x ← N.of_nat <$> seq 0 41; (fun y => (x, y)) <$> (N.of_nat <$> seq 0 41).

(** The unit roundoff of binary64, and the finite value of a percentage. *)
Definition unitRoundoff : Q := 1 # 9007199254740992.

Definition percentQ (x den : N) : Q := round64 (round64 (num x / num den) * 100).

(** The finite value of the booking ratio of a session, its exact value
    (in percent), and the exact mean of the ratios of a list of sessions. *)
Definition ratioQ (w : Workout.t) : Q :=
  if 0 <? spaceOf w then percentQ (bookedOf w) (spaceOf w) else 0%Q.

Definition exactRatio (w : Workout.t) : Q :=
  if 0 <? spaceOf w then (100 * num (bookedOf w) / num (spaceOf w))%Q else 0%Q.

Definition sumQ (l : list Q) : Q := foldl Qplus 0%Q l.

Definition exactMean (g : list Workout.t) : Q :=
  (sumQ (exactRatio <$> g) / num (N.of_nat (length g)))%Q.

(** (1 + u)^n and (1 - u)^n for the unit roundoff u: how far n roundings
    can take a value, relatively. *)
Fixpoint growth (n : nat) : Q :=
  match n with
  | O => 1%Q
  | S n' => ((1 + unitRoundoff) * growth n')%Q
  end.

Fixpoint shrink (n : nat) : Q :=
  match n with
  | O => 1%Q
  | S n' => ((1 - unitRoundoff) * shrink n')%Q
  end.

(** [t] tenths is the rounding to tenths of a value that [k] roundings of
    the arithmetic separate from [x]. *)
Definition tenthWithin (k : nat) (x : Q) (t : N) : Prop :=
  (10 * x * shrink k - (1 # 2) < num t /\ num t <= 10 * x * growth k + (1 # 2))%Q.

(** A statistic that denotes a finite number: the literal 0 or a decimal
    expansion, not one of the texts "Infinity" and "NaN". *)
Definition finiteStat (v : stat) : Prop :=
  match v with
  | Lit0 | Fixed1 _ => True
  | InfinityText | NaNText => False
  end.

(** [t] tenths is a multiple of a tenth nearest to [scale / 10 * x / den]:
    no other multiple is nearer (on a tie, either neighbour). *)
Definition nearestTenth (scale x den t : N) : Prop :=
  2 * den * t <= 2 * scale * x + den /\ 2 * scale * x <= 2 * den * t + den.

(** The counts up to which the rounding of the arithmetic never moves a
    displayed tenth away from a nearest one. *)
Definition exactRange : N := 2 ^ 40.

(** What a rate field shows for the quotient of [x] by [den]: the number
    literal 0 when the denominator is 0, else a text with one decimal
    denoting a tenth nearest to the percentage 100 x / den. *)
Definition rateSpec (x den : N) (v : stat) : Prop :=
  finiteStat v /\
  (den = 0 -> v = Lit0) /\
  (0 < den -> exists t, v = Fixed1 t /\ (x <= exactRange -> nearestTenth 1000 x den t)).

(** The numeric figures of a class-type entry that do not depend on the
    order of its sessions (everything but its colour, its list of individual
    ratios and the average of that list) and of an instructor entry
    (everything but the image key). *)
Definition typeFigures (e : TypeStat.t) : string * N * N * N * stat * stat * N :=
  (TypeStat.name e, TypeStat.classes e, TypeStat.totalBooked e, TypeStat.totalCapacity e,
   TypeStat.avgAttendance e, TypeStat.attendanceRate e,
   TypeStat.uniqueParticipants e).

Definition instructorFigures (e : InstructorStat.t) : string * N * N * N * stat * stat :=
  (InstructorStat.name e, InstructorStat.classes e, InstructorStat.totalBooked e,
   InstructorStat.totalCapacity e, InstructorStat.avgAttendance e,
   InstructorStat.attendanceRate e).

(** Entries in descending order of their attendance rate. *)
Definition byRateDesc {A} (rate : A -> stat) (l : list A) : Prop :=
  StronglySorted (fun a b => parseFloat10 (rate b) <= parseFloat10 (rate a)) l.

(** Two reports that agree on every number, up to the order of entries
    with equal attendance rate in the two ranked lists, up to the order of
    the individual ratios kept in each class-type entry, and leaving aside
    the average of those ratios, which is summed in their order. *)
Definition sameFigures (r1 r2 : Report.t) : Prop :=
  Report.summary r1 = Report.summary r2 /\
  Report.byDay r1 = Report.byDay r2 /\
  Report.byHour r1 = Report.byHour r2 /\
  Report.dailyTrend r1 = Report.dailyTrend r2 /\
  (typeFigures <$> Report.byType r1 ≡ₚ typeFigures <$> Report.byType r2 /\
   (parseFloat10 ∘ TypeStat.attendanceRate) <$> Report.byType r1
     = (parseFloat10 ∘ TypeStat.attendanceRate) <$> Report.byType r2 /\
   byRateDesc TypeStat.attendanceRate (Report.byType r1) /\
   byRateDesc TypeStat.attendanceRate (Report.byType r2) /\
   forall e1 e2, e1 ∈ Report.byType r1 -> e2 ∈ Report.byType r2 ->
                 TypeStat.name e1 = TypeStat.name e2 ->
                 TypeStat.bookings e1 ≡ₚ TypeStat.bookings e2) /\
  (instructorFigures <$> Report.byInstructor r1
     ≡ₚ instructorFigures <$> Report.byInstructor r2 /\
   (parseFloat10 ∘ InstructorStat.attendanceRate) <$> Report.byInstructor r1
     = (parseFloat10 ∘ InstructorStat.attendanceRate) <$> Report.byInstructor r2 /\
   byRateDesc InstructorStat.attendanceRate (Report.byInstructor r1) /\
   byRateDesc InstructorStat.attendanceRate (Report.byInstructor r2)).

(** The figures of the class-type entry named [k], from the sessions [g] of
    that type. *)
Definition typeFiguresOf (k : string) (g : list Workout.t) :
    option (string * N * N * N * stat * stat * N) :=
  match g with
  | [] => None
  | _ =>
      let n := N.of_nat (length g) in
      let booked := sumN (bookedOf <$> g) in
      let capacity := sumN (spaceOf <$> g) in
      Some (k, n, booked, capacity, avgOf booked n, rateOf booked capacity,
            N.of_nat (size (list_to_set (g ≫= userIdsOf) : gset Z)))
  end.

(** The figures of the instructor entry named [n], from all sessions;
    there is none under an inherited name. *)
Definition instructorFiguresOf (n : string) (ws : list Workout.t) :
    option (string * N * N * N * stat * stat) :=
  let classes := sumN (staffCount n <$> ws) in
  let booked := sumN ((fun w => staffCount n w * bookedOf w) <$> ws) in
  let capacity := sumN ((fun w => staffCount n w * spaceOf w) <$> ws) in
  if inherited n || (classes =? 0) then None
  else Some (n, classes, booked, capacity, avgOf booked classes, rateOf booked capacity).

(** The average booking rates two reports of the sessions [ws], taken in two
    orders, show for one type: both are the exact mean of the exact ratios
    of the sessions of the type, rounded to a tenth, up to the roundings of
    the sums, which follow the order of the sessions. *)
Definition sameMeans (ws : list Workout.t) (r1 r2 : Report.t) : Prop :=
  forall e1 e2,
    e1 ∈ Report.byType r1 -> e2 ∈ Report.byType r2 ->
    TypeStat.name e1 = TypeStat.name e2 ->
    let g := filter (fun w => typeNameOf w = TypeStat.name e1) ws in
    exists t1 t2,
      TypeStat.avgBookingRate e1 = Fixed1 t1 /\ TypeStat.avgBookingRate e2 = Fixed1 t2 /\
      tenthWithin (length g + 3) (exactMean g) t1 /\
      tenthWithin (length g + 3) (exactMean g) t2.

(** Three sessions of one type whose ratios do not add up to the same
    stored sum in every order. *)
Definition thirds : list Workout.t :=
  [session "Spin" 15 7 "2024-01-15 18:00:00" [] [];
   session "Spin" 16 7 "2024-01-16 18:00:00" [] [];
   session "Spin" 3 1 "2024-01-17 18:00:00" [] []].

(** ** Vocabulary of the further properties *)

(** What an average field shows for the quotient of [x] by [den]: the number
    literal 0 when nothing is counted, else a text with one decimal denoting
    a tenth nearest to x / den. *)
Definition avgSpec (x den : N) (v : stat) : Prop :=
  finiteStat v /\
  (den = 0 -> v = Lit0) /\
  (0 < den -> exists t, v = Fixed1 t /\ (x <= exactRange -> nearestTenth 10 x den t)).

(** The hours the report displays. *)
Definition displayedHour (h : nat) : Prop := (5 <= h <= 22)%nat.

(** The distinct elements of a list, in order of first occurrence. *)
Definition addKey (acc : list string) (x : string) : list string :=
  if decide (x ∈ acc) then acc else acc ++ [x].

Definition firstSeen (l : list string) : list string := foldl addKey [] l.

(** Two sessions of different types with the same attendance rate. *)
Definition tied : list Workout.t :=
  [session "Yoga" 10 5 "2024-01-15 10:00:00" [staff "Bo" "Ek"] [];
   session "Aqua" 20 10 "2024-01-16 11:00:00" [staff "Ann" "Lee"] []].

(** A string without white space at either end. *)
Definition startsClean (s : string) : Prop :=
  match s with
  | EmptyString => True
  | String c _ => is_space c = false
  end.

Fixpoint endsClean (s : string) : Prop :=
  match s with
  | EmptyString => True
  | String c EmptyString => is_space c = false
  | String _ s' => endsClean s'
  end.

(** Two sessions of one type that disagree on its colour. *)
Definition recoloured : list Workout.t :=
  [Workout.mk (Some (WorkoutType.mk (Some "Spin") (Some "#ff0000"))) (Some 10) (Some 4)
     (Some "2024-01-15 18:00:00") None None;
   Workout.mk (Some (WorkoutType.mk (Some "Spin") (Some "#00ff00"))) (Some 10) (Some 4)
     (Some "2024-01-16 18:00:00") None None].

(** A session led by an instructor with a padded name and one without any. *)
Definition padded : list Workout.t :=
  [session "Spin" 10 4 "2024-01-15 18:00:00"
     [Staff.mk (Some "  Ann ") None None; Staff.mk None None None] []].

(** ** Requests with retry: [fetchZoeziApi] *)

Module Fetch.

(** What one [fetch] of the remote interface does: the request fails, or
    a response arrives carrying [ok], its status, and the outcome of
    [response.json()]. *)
Inductive response (J : Type) :=
| NetworkError (message : string)
| Http (ok : bool) (status : N) (json : J + string).
Arguments NetworkError {J} message.
Arguments Http {J} ok status json.

(** What the caller observes while the function runs. *)
Inductive event :=
| Request (url apiKey : string)
| Log (attempt maxRetries : nat) (message : string)
| Sleep (ms : N).

(** How the promise of the function settles. *)
Inductive settled (J : Type) :=
| Resolved (body : J)
| ResolvedUndefined
| Rejected (message : string).
Arguments Resolved {J} body.
Arguments ResolvedUndefined {J}.
Arguments Rejected {J} message.

(** The body of the [try]: the parsed body, or the message of the error
    thrown. *)
Definition attemptOnce {J} (r : response J) : J + string :=
  match r with
  | NetworkError message => inr message
  | Http ok status json =>
      if ok then json else inr ("Zoezi API error: " ++ show status)%string
  end.

Section Retry.
Context {J : Type}.
(** [server n] is what the n-th request of the call meets. *)
Context (server : nat -> response J) (url apiKey : string) (maxRetries : nat).

(** The loop from [attempt] on; [left] counts the iterations for which
    [attempt <= maxRetries] still holds. *)
Fixpoint attempts (left attempt : nat) : list event * settled J :=
  match left with
  | O => ([], ResolvedUndefined)
  | S left' =>
      match attemptOnce (server attempt) with
      | inl body => ([Request url apiKey], Resolved body)
      | inr message =>
          if (attempt =? maxRetries)%nat
          then ([Request url apiKey; Log attempt maxRetries message], Rejected message)
          else let (trace, r) := attempts left' (S attempt) in
               (Request url apiKey :: Log attempt maxRetries message
                  :: Sleep (N.of_nat attempt * 2000) :: trace, r)
      end
  end.

Definition fetchZoeziApi : list event * settled J := attempts maxRetries 1.

End Retry.

(** The requests sent and the pauses taken, read off a trace. *)
Definition requests (t : list event) : nat :=
  length (omap (fun e => match e with Request u _ => Some u | _ => None end) t).

Definition sleeps (t : list event) : list N :=
  omap (fun e => match e with Sleep ms => Some ms | _ => None end) t.

Definition failed {J} (r : response J) : Prop :=
  match attemptOnce r with inl _ => False | inr _ => True end.

End Fetch.

(** ** Embed tokens: [generateEmbedToken], [verifyEmbedToken] *)

Module Token.

(** [s.split('.')]. *)
Fixpoint split_dots (s : string) : list string :=
  match s with
  | EmptyString => [EmptyString]
  | String c s' =>
      if Ascii.eqb c "." then EmptyString :: split_dots s'
      else match split_dots s' with
           | p :: ps => String c p :: ps
           | [] => [String c EmptyString]
           end
  end.

(** [parts.join('.')]. *)
Fixpoint join_dots (parts : list string) : string :=
  match parts with
  | [] => EmptyString
  | [p] => p
  | p :: ps => (p ++ "." ++ join_dots ps)%string
  end.

Fixpoint dotless (s : string) : bool :=
  match s with
  | EmptyString => true
  | String c s' => negb (Ascii.eqb c ".") && dotless s'
  end.

Fixpoint dots (s : string) : nat :=
  match s with
  | EmptyString => 0%nat
  | String c s' => ((if Ascii.eqb c "." then 1 else 0) + dots s')%nat
  end.

Inductive verdict :=
| Valid (clubId : string)
| Invalid (error : string).

(** [crypto.timingSafeEqual]: a RangeError (here [None]) on buffers of
    different lengths. *)
Fixpoint equal_bytes (a b : list Byte.byte) : bool :=
  match a, b with
  | [], [] => true
  | x :: a', y :: b' => Byte.eqb x y && equal_bytes a' b'
  | _, _ => false
  end.

Definition timingSafeEqual (a b : list Byte.byte) : option bool :=
  if (length a =? length b)%nat then Some (equal_bytes a b) else None.

(** One year in milliseconds. *)
Definition maxAge : Z := 365 * 24 * 60 * 60 * 1000.

Section Embed.
(** The library functions the two functions call: the HMAC-SHA256 of a text
    under a key as base64url text, the base64url text of a string and the
    string of a base64url text, the bytes of a string, and [parseInt]
    ([None] for NaN). *)
Context (hmacSha256 : string -> string -> string).
Context (toBase64url fromBase64url : string -> string).
Context (bytes : string -> list Byte.byte).
Context (parseInt : string -> option Z).
Context (EMBED_SECRET : string).

(** [now] is [Date.now()]; [None] is the Error thrown without a secret. *)
Definition generateEmbedToken (now : N) (clubId : string) : option string :=
  if String.eqb EMBED_SECRET EmptyString then None
  else
    let timestamp := show now in
    let payload := (clubId ++ "." ++ timestamp)%string in
    let signature := hmacSha256 EMBED_SECRET payload in
    Some (toBase64url clubId ++ "." ++ toBase64url timestamp ++ "." ++ signature)%string.

(** [token] is absent or a string. *)
Definition verifyEmbedToken (now : N) (token : option string) : verdict :=
  if String.eqb EMBED_SECRET EmptyString then Invalid "EMBED_SECRET not configured"
  else
    match token with
    | None => Invalid "No token provided"
    | Some token =>
        if String.eqb token EmptyString then Invalid "No token provided"
        else
          match split_dots token with
          | [p0; p1; providedSignature] =>
              let clubId := fromBase64url p0 in
              let timestamp := fromBase64url p1 in
              let payload := (clubId ++ "." ++ timestamp)%string in
              let expectedSignature := hmacSha256 EMBED_SECRET payload in
              match timingSafeEqual (bytes providedSignature) (bytes expectedSignature) with
              | None => Invalid "Token decode failed"
              | Some false => Invalid "Invalid signature"
              | Some true =>
                  match parseInt timestamp with
                  | Some t =>
                      if (maxAge <? Z.of_N now - t)%Z then Invalid "Token expired"
                      else Valid clubId
                  | None => Valid clubId
                  end
              end
          | _ => Invalid "Invalid token format"
          end
    end.

Definition hasValidEmbedToken (now : N) (token : option string) : bool :=
  match token with
  | None => false
  | Some t =>
      if String.eqb t EmptyString then false
      else match verifyEmbedToken now (Some t) with
           | Valid _ => true
           | Invalid _ => false
           end
  end.

End Embed.

End Token.

(** ** The body of the analytics responses

    What the two analytics routes build from the four values fetched from
    the remote interface (those routes are the same code twice).  Numeric
    identifiers are integers, and a lookup object keyed by them is a finite
    map. *)

Module Site.
Record t := mk { id : option Z; name : option string; removed : bool }.
End Site.

Module CardType.
Record t := mk { id : option Z; name : option string }.
End CardType.

Module Card.
Record t := mk { id : option Z; type_id : option Z }.
End Card.

Module ApiBooking.
Record t := mk {
  user_id : option Z;
  userId : option Z;
  user : option User.t;
  trainingcard : option Z
}.
End ApiBooking.

Module ApiWorkout.
Record t := mk {
  id : option Z;
  site_id : option Z;
  siteId : option Z;
  workoutType : option WorkoutType.t;
  space : option N;
  numBooked : option N;
  startTime : option string;
  staffs : option (list Staff.t);
  bookings : option (list ApiBooking.t)
}.
End ApiWorkout.

Module Club.
Record t := mk {
  Club_Zoezi_ID : option string;
  Club_name : option string;
  Zoezi_Domain : option string
}.
End Club.

Module BookingDetail.
Record t := mk { userId : Z; trainingCardTypeId : option Z }.
End BookingDetail.

Module RawStaff.
Record t := mk { name : string; imagekey : option string }.
End RawStaff.

Module RawWorkout.
Record t := mk {
  id : option Z;
  typeName : string;
  typeColor : string;
  startTime : option string;
  space : N;
  numBooked : N;
  siteId : option Z;
  siteName : option string;
  staffs : list RawStaff.t;
  bookingDetails : list BookingDetail.t
}.
End RawWorkout.

Module Analytics.
Record t := mk {
  report : Report.t;
  club : option string * option string * option string;
  dateRange : string * string;
  sites : list (option Z * option string);
  trainingCardTypes : list (option Z * option string);
  rawWorkouts : list RawWorkout.t
}.
End Analytics.

(** The fields of a fetched session and booking that [processAnalytics]
    reads. *)
Definition bookingView (b : ApiBooking.t) : Booking.t :=
  Booking.mk (ApiBooking.user_id b) (ApiBooking.userId b) (ApiBooking.user b).

Definition workoutView (w : ApiWorkout.t) : Workout.t :=
  Workout.mk (ApiWorkout.workoutType w) (ApiWorkout.space w) (ApiWorkout.numBooked w)
    (ApiWorkout.startTime w) (ApiWorkout.staffs w)
    (match ApiWorkout.bookings w with
     | Some bs => Some (bookingView <$> bs)
     | None => None
     end).

(** [a || b] on optional strings, and [a || null]. *)
Definition or_text (a b : option string) : option string :=
  match a with
  | Some s => if String.eqb s EmptyString then b else a
  | None => b
  end.

(** [m[k]] for a key that may be undefined. *)
Definition at_id {V} (m : gmap Z V) (k : option Z) : option V :=
  k ≫= fun k => m !! k.

Definition siteMapOf (sites : option (list (option Site.t))) : gmap Z (option string) :=
  foldl (fun m s =>
           match s with
           | Some s => if truthy_id (Site.id s)
                       then <[default 0%Z (Site.id s) := Site.name s]> m else m
           | None => m
           end) ∅ (default [] sites).

Definition trainingCardTypeMapOf (types : option (list (option CardType.t))) :
    gmap Z (option string) :=
  foldl (fun m t =>
           match t with
           | Some t => if truthy_id (CardType.id t)
                       then <[default 0%Z (CardType.id t) := CardType.name t]> m else m
           | None => m
           end) ∅ (default [] types).

Definition trainingCardToTypeMapOf (cards : option (list (option Card.t))) : gmap Z Z :=
  foldl (fun m card =>
           match card with
           | Some card =>
               if truthy_id (Card.id card) && truthy_id (Card.type_id card)
               then <[default 0%Z (Card.id card) := default 0%Z (Card.type_id card)]> m
               else m
           | None => m
           end) ∅ (default [] cards).

Definition sitesListOf (sites : option (list (option Site.t))) :
    list (option Z * option string) :=
  omap (fun s => match s with
                 | Some s => if Site.removed s then None else Some (Site.id s, Site.name s)
                 | None => None
                 end) (default [] sites).

Definition bookingDetailsOf (trainingCardToTypeMap : gmap Z Z) (w : ApiWorkout.t) :
    list BookingDetail.t :=
  omap (fun booking =>
          let userId := id_or (id_or (ApiBooking.user_id booking) (ApiBooking.userId booking))
                              (ApiBooking.user booking ≫= User.id) in
          let trainingCardTypeId :=
            if truthy_id (ApiBooking.trainingcard booking)
            then id_or (at_id trainingCardToTypeMap (ApiBooking.trainingcard booking)) None
            else None in
          if truthy_id userId
          then Some (BookingDetail.mk (default 0%Z userId) trainingCardTypeId)
          else None)
       (default [] (ApiWorkout.bookings w)).

Definition rawWorkoutOf (siteMap : gmap Z (option string)) (trainingCardToTypeMap : gmap Z Z)
    (w : ApiWorkout.t) : RawWorkout.t :=
  RawWorkout.mk (ApiWorkout.id w)
    (str_or (ApiWorkout.workoutType w ≫= WorkoutType.name) "Unknown")
    (str_or (ApiWorkout.workoutType w ≫= WorkoutType.color) "#667eea")
    (ApiWorkout.startTime w)
    (num_or0 (ApiWorkout.space w))
    (num_or0 (ApiWorkout.numBooked w))
    (id_or (id_or (ApiWorkout.site_id w) (ApiWorkout.siteId w)) None)
    (or_text (or_text (mjoin (at_id siteMap (ApiWorkout.site_id w)))
                      (mjoin (at_id siteMap (ApiWorkout.siteId w)))) None)
    ((fun s => RawStaff.mk (staffName s) (Staff.imagekey s))
       <$> default [] (ApiWorkout.staffs w))
    (bookingDetailsOf trainingCardToTypeMap w).

(** From the lookup maps to [res.json(analytics)]; a throw is answered with
    status 500. *)
Definition analyticsBody (parseDate : string -> option Date.t) (club : Club.t)
    (fromDate toDate : string) (workouts : list ApiWorkout.t)
    (sites : option (list (option Site.t)))
    (trainingCardTypes : option (list (option CardType.t)))
    (trainingCards : option (list (option Card.t))) : result Analytics.t :=
  let siteMap := siteMapOf sites in
  let trainingCardTypeMap := trainingCardTypeMapOf trainingCardTypes in
  let trainingCardToTypeMap := trainingCardToTypeMapOf trainingCards in
  bind (processAnalytics parseDate (workoutView <$> workouts)) (fun analytics =>
  let sitesList := sitesListOf sites in
  Return (Analytics.mk analytics
            (Club.Club_Zoezi_ID club, Club.Club_name club, Club.Zoezi_Domain club)
            (fromDate, toDate)
            (if (1 <? length sitesList)%nat then sitesList else [])
            (omap (fun t => match t with
                            | Some t => if truthy_id (CardType.id t)
                                        then Some (CardType.id t, CardType.name t) else None
                            | None => None
                            end) (default [] trainingCardTypes))
            (rawWorkoutOf siteMap trainingCardToTypeMap <$> workouts))).

(** The last site of a list that carries the identifier [k]. *)
Definition lastSiteWith (k : Z) (sites : list (option Site.t)) : option Site.t :=
  last (omap (fun s => match s with
                       | Some s => if decide (Site.id s = Some k) then Some s else None
                       | None => None
                       end) sites).

Definition lastCardWith (k : Z) (cards : list (option Card.t)) : option Card.t :=
  last (omap (fun c => match c with
                       | Some c => if decide (Card.id c = Some k)
                                   then (if truthy_id (Card.type_id c) then Some c else None)
                                   else None
                       | None => None
                       end) cards).

(** A sample of fetched data: two sites sharing an identifier. *)
Definition fetched : list ApiWorkout.t :=
  [ApiWorkout.mk (Some 1%Z) (Some 7%Z) None (Some (WorkoutType.mk (Some "Spin") None))
     (Some 10) (Some 4) (Some "2024-01-15 18:00:00") (Some [staff "Ann" "Lee"])
     (Some [ApiBooking.mk (Some 5%Z) None None (Some 90%Z);
            ApiBooking.mk None None None None]);
   ApiWorkout.mk (Some 2%Z) None (Some 8%Z) None
     (Some 12) None (Some "2024-01-16 09:00:00") None
     (Some [ApiBooking.mk None (Some 5%Z) None None])].

Definition fetchedSites : option (list (option Site.t)) :=
  Some [Some (Site.mk (Some 7%Z) (Some "North") false); None;
        Some (Site.mk (Some 7%Z) (Some "Harbour") true);
        Some (Site.mk (Some 8%Z) None false)].

Definition fetchedCards : option (list (option Card.t)) :=
  Some [Some (Card.mk (Some 90%Z) (Some 3%Z)); Some (Card.mk (Some 91%Z) None)].
(** * Properties *)

(** ** Sample evaluations *)

Example trim_sample : trim "  Ann Lee " = "Ann Lee" /\ trim "   " = EmptyString.
Proof. split; reflexivity. Qed.

Example staffName_sample :
  staffName (Staff.mk (Some "Ann") None None) = "Ann" /\
  staffName (Staff.mk None None None) = "Unknown".
Proof. split; reflexivity. Qed.

Example split_head_sample :
  split_head "2024-01-15 18:00:00" = "2024-01-15" /\
  split_head "2024-01-15T18:00:00" = "2024-01-15T18:00:00".
Proof. split; reflexivity. Qed.

Example array_index_sample :
  array_index "10" = Some 10 /\ array_index "007" = None /\ array_index "Yoga" = None.
Proof. repeat split; reflexivity. Qed.

Example entries_sample :
  Obj.keys [("Yoga", 1); ("10", 2); ("Spin", 3); ("2", 4)] = ["2"; "10"; "Yoga"; "Spin"].
Proof. reflexivity. Qed.

(** Rates and averages as the runtime prints them: 23 / 80 * 100 is stored
    as 28.749999999999996 and 3 / 20 just below 0.15, while 1 / 16 * 100 is
    exactly 6.25. *)
Example toFixed1_sample :
  render (rateOf 10 15) = "66.7" /\ render (rateOf 5 10) = "50.0" /\
  render (rateOf 1 16) = "6.3" /\ render (rateOf 23 80) = "28.7" /\
  render (avgOf 3 20) = "0.1" /\ render (avgOf 18 3) = "6.0".
Proof. repeat split; vm_compute; reflexivity. Qed.

Example inherited_sample :
  inherited "constructor" = true /\ inherited "toString" = true /\
  inherited "Unknown" = false /\ inherited "2024-01-15" = false.
Proof. repeat split; reflexivity. Qed.

(** A type named like an inherited property has no bucket of its own, and
    the push onto the list of its ratios raises. *)
Example inherited_type_sample :
  processAnalytics localDate [session "constructor" 12 8 "2024-01-15 18:00:00" [] []]
  = Throw TypeError.
Proof. reflexivity. Qed.

Example localDate_sample :
  localDate "2024-01-15 18:00:00" = Some (Date.mk 1 18) /\
  localDate "2024-01-21 05:10:00" = Some (Date.mk 0 5) /\
  localDate "soon" = None.
Proof. repeat split; reflexivity. Qed.

(** A start time that does not parse leaves the weekday undefined, and the
    push onto that weekday's list raises. *)
Example invalid_date_sample :
  processAnalytics localDate [session "Yoga" 12 8 "soon" [] []] = Throw TypeError.
Proof. reflexivity. Qed.

Example demo_sample :
  exists r, processAnalytics localDate demo = Return r /\
    (TypeStat.name <$> Report.byType r = ["Spin"; "Yoga"]) /\
    (render ∘ TypeStat.attendanceRate <$> Report.byType r = ["66.7"; "66.7"]) /\
    (InstructorStat.name <$> Report.byInstructor r = ["Bo Ek"; "Ann Lee"]) /\
    (InstructorStat.classes <$> Report.byInstructor r = [1; 2]) /\
    (DayStat.classes <$> Report.byDay r = [0; 2; 1; 0; 0; 0; 0]) /\
    (TrendPoint.date <$> Report.dailyTrend r = ["2024-01-15"; "2024-01-16"]).
Proof.
  exists (reportOf localDate demo). split; [vm_compute; reflexivity|].
  repeat split; vm_compute; reflexivity.
Qed.

(** ** The result monad *)

Lemma bind_Return {A B} (m : result A) (k : A -> result B) b :
  bind m k = Return b -> exists a, m = Return a /\ k a = Return b.
Proof. destruct m as [a|e]; simpl; [eauto | discriminate]. Qed.

Lemma forEach_app {S A} (f : S -> A -> result S) l1 l2 s :
  forEach f (l1 ++ l2) s = bind (forEach f l1 s) (forEach f l2).
Proof.
  revert s. induction l1 as [|x l1 IH]; intros s; simpl; [done|].
  destruct (f s x); simpl; auto.
Qed.

Lemma forEach_snoc {S A} (f : S -> A -> result S) l x s :
  forEach f (l ++ [x]) s = bind (forEach f l s) (fun s' => f s' x).
Proof.
  rewrite forEach_app. destruct (forEach f l s) as [s'|]; simpl; [|done].
  by destruct (f s' x).
Qed.

Lemma collect_Return {A} (l : list (result A)) r :
  collect l = Return r <-> l = Return <$> r.
Proof.
  revert r. induction l as [|m l IH]; intros r; simpl.
  - split; [intros [= <-]; done | by destruct r].
  - destruct m as [a|e]; simpl.
    + destruct (collect l) as [r'|e] eqn:E; simpl.
      * split.
        -- intros [= <-]. simpl. f_equal. by apply IH.
        -- destruct r as [|a' r]; intros [= -> Hl]. f_equal. f_equal.
           apply IH in Hl. congruence.
      * split; [discriminate|].
        destruct r as [|a' r]; intros [= -> Hl]. apply IH in Hl. discriminate.
    + split; [discriminate | by destruct r].
Qed.

(** ** Dictionaries *)

Section DictFacts.
Context {K V : Type} `{EqDecision K}.
Implicit Types (d : list (K * V)) (k : K) (v : V).

Lemma get_set d k k' v :
  Obj.get k (Obj.set k' v d) = if decide (k = k') then Some v else Obj.get k d.
Proof.
  induction d as [|[k0 v0] d IH]; simpl.
  - repeat case_decide; congruence.
  - repeat (case_decide; simpl; subst); try congruence.
Qed.

Lemma get_None d k : Obj.get k d = None <-> k ∉ d.*1.
Proof.
  induction d as [|[k0 v0] d IH]; simpl.
  - split; [intros _; apply not_elem_of_nil | done].
  - rewrite not_elem_of_cons. case_decide; subst.
    + split; [discriminate | intros []; congruence].
    + rewrite IH. tauto.
Qed.

Lemma get_Some_elem d k v : Obj.get k d = Some v -> (k, v) ∈ d.
Proof.
  induction d as [|[k0 v0] d IH]; simpl; [discriminate|].
  case_decide; subst.
  - intros [= ->]. left.
  - intros. right. auto.
Qed.

Lemma elem_get d k v : NoDup d.*1 -> (k, v) ∈ d -> Obj.get k d = Some v.
Proof.
  induction d as [|[k0 v0] d IH]; simpl; intros Hnd Hin.
  - by apply elem_of_nil in Hin.
  - apply NoDup_cons in Hnd as [Hk0 Hnd].
    apply elem_of_cons in Hin as [[= -> ->]|Hin].
    + by rewrite decide_True.
    + case_decide; subst; [|auto].
      exfalso. apply Hk0. apply list_elem_of_fmap. by exists (k0, v).
Qed.

Lemma keys_set d k v :
  (Obj.set k v d).*1 = match Obj.get k d with Some _ => d.*1 | None => d.*1 ++ [k] end.
Proof.
  induction d as [|[k0 v0] d IH]; csimpl; [done|].
  case_decide; subst; csimpl; [done|].
  rewrite IH. by destruct (Obj.get k d).
Qed.

Lemma NoDup_set d k v : NoDup d.*1 -> NoDup (Obj.set k v d).*1.
Proof.
  intros Hnd. rewrite keys_set. destruct (Obj.get k d) eqn:E; [done|].
  apply NoDup_app. split_and!; [done| |apply NoDup_singleton].
  intros x Hx ->%list_elem_of_singleton. by apply get_None in E.
Qed.

End DictFacts.

(** ** Arithmetic of stored numbers *)

Local Open Scope Q_scope.

Lemma pow2_pos e : 0 < pow2 e.
Proof.
  unfold pow2. destruct (Z.leb_spec 0 e) as [He|He].
  - change 0 with (inject_Z 0). rewrite <- Zlt_Qlt. by apply Z.pow_pos_nonneg.
  - reflexivity.
Qed.

Lemma pow2_nonneg_exp (e : Z) : (0 <= e)%Z -> pow2 e = inject_Z (2 ^ e).
Proof. intros He. unfold pow2. by destruct (Z.leb_spec 0 e); [|lia]. Qed.

Lemma pow2_neg (e : Z) : (0 <= e)%Z -> pow2 (- e) * inject_Z (2 ^ e) == 1.
Proof.
  intros He. unfold pow2. destruct (Z.leb_spec 0 (- e)) as [Hn|Hn].
  - assert (e = 0%Z) as -> by lia. reflexivity.
  - rewrite Z.opp_involutive.
    assert (Hp : (0 < 2 ^ e)%Z) by (by apply Z.pow_pos_nonneg).
    unfold Qeq, Qmult, inject_Z. cbn [Qnum Qden]. rewrite Pos.mul_1_r, Z2Pos.id by done. lia.
Qed.

Lemma pow2_succ e : pow2 (e + 1) == 2 * pow2 e.
Proof.
  destruct (Z.leb_spec 0 e) as [He|He].
  - rewrite !pow2_nonneg_exp by lia. rewrite Z.pow_add_r by lia.
    rewrite inject_Z_mult. change (inject_Z (2 ^ 1)) with 2. ring.
  - replace e with (- (- e))%Z at 2 by lia. replace (e + 1)%Z with (- (- e - 1))%Z by lia.
    pose proof (pow2_neg (- e) ltac:(lia)) as H1.
    pose proof (pow2_neg (- e - 1) ltac:(lia)) as H2.
    replace (- e)%Z with ((- e - 1) + 1)%Z in H1 at 2 by lia.
    rewrite Z.pow_add_r, inject_Z_mult in H1 by lia.
    change (inject_Z (2 ^ 1)) with 2 in H1.
    assert (Hp : 0 < inject_Z (2 ^ (- e - 1))).
    { change 0 with (inject_Z 0). rewrite <- Zlt_Qlt. apply Z.pow_pos_nonneg; lia. }
    set (a := pow2 (- - e)) in *. set (b := pow2 (- (- e - 1))) in *.
    set (c := inject_Z (2 ^ (- e - 1))) in *.
    apply (Qmult_inj_r _ _ c); [lra|]. lra.
Qed.

Lemma pow2_add_nat e (n : nat) : pow2 (e + Z.of_nat n) == inject_Z (2 ^ Z.of_nat n) * pow2 e.
Proof.
  induction n as [|n IH].
  - rewrite Z.add_0_r. change (inject_Z (2 ^ Z.of_nat 0)) with 1. ring.
  - rewrite Nat2Z.inj_succ. unfold Z.succ. rewrite Z.add_assoc, pow2_succ, IH.
    rewrite Z.pow_add_r, inject_Z_mult by lia. change (inject_Z (2 ^ 1)) with 2. ring.
Qed.

Lemma pow2_add e (k : Z) : (0 <= k)%Z -> pow2 (e + k) == inject_Z (2 ^ k) * pow2 e.
Proof. intros Hk. rewrite <- (Z2Nat.id k) by done. apply pow2_add_nat. Qed.

Lemma pow2_le a b : (a <= b)%Z -> pow2 a <= pow2 b.
Proof.
  intros Hab. replace b with (a + (b - a))%Z by lia. rewrite pow2_add by lia.
  assert (H1 : 1 <= inject_Z (2 ^ (b - a))).
  { change 1 with (inject_Z 1). rewrite <- Zle_Qle.
    assert (0 < 2 ^ (b - a))%Z by (apply Z.pow_pos_nonneg; lia). lia. }
  pose proof (pow2_pos a). nra.
Qed.

Lemma pow2_lt_inv a b : pow2 a < pow2 b -> (a < b)%Z.
Proof.
  intros Hlt. destruct (Z.lt_ge_cases a b) as [|Hge]; [done|].
  apply pow2_le in Hge. lra.
Qed.

(** [ilog2] gives a power of two that is not above its argument. *)
Lemma ilog2_le q : 0 < q -> pow2 (ilog2 q) <= q.
Proof.
  intros Hq. unfold ilog2.
  set (d := (Z.log2 (Qnum q) - Z.log2 (Z.pos (Qden q)))%Z).
  destruct (Qle_bool (pow2 d) q) eqn:E; [by apply Qle_bool_iff|].
  destruct q as [n m]. cbn [Qnum Qden] in *.
  assert (Hn : (0 < n)%Z) by (unfold Qlt in Hq; simpl in Hq; lia).
  destruct (Z.log2_spec n Hn) as [Hn1 _].
  destruct (Z.log2_spec (Z.pos m) ltac:(lia)) as [_ Hm2].
  pose proof (Z.log2_nonneg n) as Ha. pose proof (Z.log2_nonneg (Z.pos m)) as Hb.
  set (a := Z.log2 n) in *. set (b := Z.log2 (Z.pos m)) in *.
  assert (Hnm : n # m == inject_Z n * / inject_Z (Z.pos m)).
  { rewrite (Qmake_Qdiv n m). reflexivity. }
  assert (Hmpos : 0 < inject_Z (Z.pos m)) by reflexivity.
  (* 2^(a-b-1) * m <= 2^(a-b-1) * 2^(b+1) = 2^a <= n *)
  assert (Hkey : pow2 (d - 1) * inject_Z (Z.pos m) <= inject_Z n).
  { assert (H1 : pow2 (d - 1) * inject_Z (2 ^ (b + 1)) == inject_Z (2 ^ a)).
    { rewrite <- (pow2_nonneg_exp a) by done.
      pose proof (pow2_add (d - 1) (b + 1) ltac:(lia)) as Hadd.
      replace (d - 1 + (b + 1))%Z with a in Hadd by (subst d; lia).
      rewrite Hadd. ring. }
    assert (H2 : inject_Z (Z.pos m) <= inject_Z (2 ^ (b + 1))).
    { rewrite <- Zle_Qle. unfold Z.succ in Hm2. lia. }
    assert (H3 : inject_Z (2 ^ a) <= inject_Z n) by (by rewrite <- Zle_Qle).
    pose proof (pow2_pos (d - 1)). nra. }
  rewrite Hnm. apply Qle_shift_div_l; [done|]. exact Hkey.
Qed.

Lemma nearestEven_near x :
  inject_Z (nearestEven x) <= x + (1 # 2) /\ x - (1 # 2) <= inject_Z (nearestEven x).
Proof.
  unfold nearestEven. pose proof (Qfloor_le x) as Hl. pose proof (Qlt_floor x) as Hu.
  rewrite inject_Z_plus in Hu. change (inject_Z 1) with 1 in Hu.
  set (f := Qfloor x) in *.
  destruct (Qcompare_spec (x - inject_Z f) (1 # 2)) as [E|E|E].
  - destruct (Z.even f); rewrite ?inject_Z_plus; change (inject_Z 1) with 1; lra.
  - lra.
  - rewrite inject_Z_plus. change (inject_Z 1) with 1. lra.
Qed.

Lemma nearestEven_le_int x (c : Z) : x <= inject_Z c -> (nearestEven x <= c)%Z.
Proof.
  intros Hx. unfold nearestEven.
  pose proof (Qfloor_le x) as Hl. set (f := Qfloor x) in *.
  assert (Hf : (f <= c)%Z) by (rewrite Zle_Qle; lra).
  assert (Hlt : x - inject_Z f > 0 -> (f + 1 <= c)%Z).
  { intros Hpos. assert (inject_Z f < inject_Z c) as Hfc by lra.
    rewrite <- Zlt_Qlt in Hfc. lia. }
  destruct (Qcompare_spec (x - inject_Z f) (1 # 2)) as [E|E|E].
  - destruct (Z.even f); [done|]. apply Hlt. lra.
  - done.
  - apply Hlt. lra.
Qed.

Lemma nearestEven_nonneg x : 0 <= x -> (0 <= nearestEven x)%Z.
Proof.
  intros Hx. unfold nearestEven.
  assert (Hf : (0 <= Qfloor x)%Z).
  { change 0%Z with (Qfloor 0). by apply Qfloor_resp_le. }
  destruct (_ ?= _); [destruct (Z.even _)| |]; lia.
Qed.

Lemma round64_nonpos q : q <= 0 -> round64 q = 0.
Proof. intros Hq. unfold round64. apply Qle_bool_iff in Hq. by rewrite Hq. Qed.

Lemma round64_pos q :
  0 < q ->
  round64 q = inject_Z (nearestEven (q / pow2 (ilog2 q - 52))) * pow2 (ilog2 q - 52).
Proof.
  intros Hq. unfold round64. destruct (Qle_bool q 0) eqn:E; [|done].
  apply Qle_bool_iff in E. lra.
Qed.

(** Storing a number moves it by at most the unit roundoff, relatively. *)
Lemma round64_near q :
  0 <= q ->
  round64 q <= q * (1 + unitRoundoff) /\ q * (1 - unitRoundoff) <= round64 q.
Proof.
  intros Hq0. destruct (Qlt_le_dec 0 q) as [Hq|Hq].
  2: { rewrite round64_nonpos by done. unfold unitRoundoff. split; lra. }
  rewrite round64_pos by done.
  pose proof (ilog2_le q Hq) as Hlog.
  set (e := (ilog2 q - 52)%Z) in *.
  pose proof (pow2_pos e) as Hs.
  assert (He : pow2 (ilog2 q) == inject_Z (2 ^ 52) * pow2 e).
  { replace (ilog2 q) with (e + 52)%Z by (subst e; lia). by rewrite pow2_add. }
  destruct (nearestEven_near (q / pow2 e)) as [Hu Hl].
  set (n := inject_Z (nearestEven (q / pow2 e))) in *.
  assert (Hy : q / pow2 e * pow2 e == q) by (field; lra).
  set (y := q / pow2 e) in *. set (s := pow2 e) in *.
  change (inject_Z (2 ^ 52)) with (4503599627370496 # 1) in He.
  unfold unitRoundoff. split; nra.
Qed.

Lemma round64_nonneg q : 0 <= round64 q.
Proof.
  destruct (Qlt_le_dec 0 q) as [Hq|Hq]; [|by rewrite round64_nonpos].
  rewrite round64_pos by done. apply Qmult_le_0_compat.
  - change 0 with (inject_Z 0). rewrite <- Zle_Qle. apply nearestEven_nonneg.
    apply Qle_shift_div_l; [apply pow2_pos | lra].
  - apply Qlt_le_weak, pow2_pos.
Qed.

(** An integer below 2^53 bounds the stored value of what it bounds. *)
Lemma round64_le_int q (c : Z) :
  (0 <= c < 2 ^ 53)%Z -> q <= inject_Z c -> round64 q <= inject_Z c.
Proof.
  intros [Hc0 Hc] Hqc. destruct (Qlt_le_dec 0 q) as [Hq|Hq].
  2: { rewrite round64_nonpos by done. change 0 with (inject_Z 0). by rewrite <- Zle_Qle. }
  rewrite round64_pos by done.
  pose proof (ilog2_le q Hq) as Hlog.
  assert (Hexp : (ilog2 q - 52 <= 0)%Z).
  { assert (pow2 (ilog2 q) < pow2 53) as Hlt%pow2_lt_inv; [|lia].
    rewrite (pow2_nonneg_exp 53) by lia.
    assert (inject_Z c < inject_Z (2 ^ 53)) by (by rewrite <- Zlt_Qlt). lra. }
  set (e := (ilog2 q - 52)%Z) in *.
  pose proof (pow2_pos e) as Hs.
  pose proof (pow2_neg (- e) ltac:(lia)) as Hinv. rewrite Z.opp_involutive in Hinv.
  set (k := (2 ^ (- e))%Z) in *.
  assert (Hn : (nearestEven (q / pow2 e) <= c * k)%Z).
  { apply nearestEven_le_int. rewrite inject_Z_mult.
    apply Qle_shift_div_r; [done|]. set (s := pow2 e) in *.
    assert (inject_Z c * inject_Z k * s == inject_Z c) as ->; [|done].
    transitivity (inject_Z c * (s * inject_Z k)); [ring|]. rewrite Hinv. ring. }
  rewrite Zle_Qle, inject_Z_mult in Hn.
  set (n := inject_Z (nearestEven (q / pow2 e))) in *. set (s := pow2 e) in *.
  assert (Hk : 0 < inject_Z k).
  { change 0 with (inject_Z 0). rewrite <- Zlt_Qlt. apply Z.pow_pos_nonneg; lia. }
  assert (H1 : n * s <= inject_Z c * inject_Z k * s) by (apply Qmult_le_compat_r; lra).
  assert (E : inject_Z c * inject_Z k * s == inject_Z c).
  { transitivity (inject_Z c * (s * inject_Z k)); [ring|]. rewrite Hinv. ring. }
  lra.
Qed.

Lemma num_nonneg n : 0 <= num n.
Proof. unfold num. change 0 with (inject_Z 0). rewrite <- Zle_Qle. lia. Qed.

Lemma num_pos n : (0 < n)%N -> 0 < num n.
Proof. intros Hn. unfold num. change 0 with (inject_Z 0). rewrite <- Zlt_Qlt. lia. Qed.

Lemma quotient_nonneg x den : 0 <= num x / num den.
Proof.
  destruct (N.eq_dec den 0%N) as [->|Hden].
  - unfold Qdiv. change (/ num 0) with 0. lra.
  - apply Qle_shift_div_l; [apply num_pos; lia|]. pose proof (num_nonneg x). lra.
Qed.

(** A value within half a unit of [n / (10 den)], after scaling, shows as a
    tenth nearest to [n / (10 den)]. *)
Lemma toFixed1_near (v : Q) (den n : N) :
  (0 < den)%N -> 0 <= v ->
  20 * (v * num den) < 2 * num n + 1 -> 2 * num n - 1 < 20 * (v * num den) ->
  exists t, toFixed1 (Finite v) = Fixed1 t /\
    (2 * den * t <= 2 * n + den /\ 2 * n <= 2 * den * t + den)%N.
Proof.
  intros Hden Hv Hu Hl. unfold toFixed1, tenthsOf. eexists. split; [reflexivity|].
  pose proof (Qfloor_le (v * 10 + (1 # 2))) as Hfl.
  pose proof (Qlt_floor (v * 10 + (1 # 2))) as Hfu.
  rewrite inject_Z_plus in Hfu. change (inject_Z 1) with 1 in Hfu.
  set (T := Qfloor (v * 10 + (1 # 2))) in *.
  assert (HT : (0 <= T)%Z).
  { change 0%Z with (Qfloor 0). apply Qfloor_resp_le. lra. }
  pose proof (num_pos den Hden) as HD. unfold num in *.
  set (D := inject_Z (Z.of_N den)) in *. set (M := inject_Z (Z.of_N n)) in *.
  assert (H1 : inject_Z T * D <= (v * 10 + (1 # 2)) * D) by (apply Qmult_le_compat_r; lra).
  assert (H2 : (v * 10 + (1 # 2)) * D < (inject_Z T + 1) * D) by (apply Qmult_lt_compat_r; lra).
  assert (Ha : 2 * (inject_Z T * D) < 2 * M + D + 1) by lra.
  assert (Hb : 2 * M < 2 * (inject_Z T * D) + D + 1) by lra.
  assert (Ha' : (2 * (T * Z.of_N den) < 2 * Z.of_N n + Z.of_N den + 1)%Z).
  { rewrite Zlt_Qlt. rewrite !inject_Z_plus, !inject_Z_mult. exact Ha. }
  assert (Hb' : (2 * Z.of_N n < 2 * (T * Z.of_N den) + Z.of_N den + 1)%Z).
  { rewrite Zlt_Qlt. rewrite !inject_Z_plus, !inject_Z_mult. exact Hb. }
  split; nia.
Qed.

Lemma percentQ_nonneg x den : 0 <= percentQ x den.
Proof. apply round64_nonneg. Qed.

Lemma num_nonzero n : (0 < n)%N -> Qeq_bool (num n) 0 = false.
Proof.
  intros Hn. destruct (Qeq_bool (num n) 0) eqn:E; [|done].
  apply Qeq_bool_iff in E. pose proof (num_pos n Hn). lra.
Qed.

(** With a denominator that is not 0 the quotient and the percentage are
    finite. *)
Lemma divide_counts x den :
  (0 < den)%N ->
  divide (Finite (num x)) (Finite (num den)) = Finite (round64 (num x / num den)).
Proof. intros Hden. unfold divide. by rewrite num_nonzero. Qed.

Lemma percent_Finite x den : (0 < den)%N -> percent x den = Finite (percentQ x den).
Proof. intros Hden. unfold percent. by rewrite divide_counts. Qed.

(** The two roundings of a percentage stay within one part in 2^51. *)
Lemma percent_near x den :
  (0 < den)%N ->
  percentQ x den * num den <= 100 * num x * ((1 + unitRoundoff) * (1 + unitRoundoff)) /\
  100 * num x * ((1 - unitRoundoff) * (1 - unitRoundoff)) <= percentQ x den * num den.
Proof.
  intros Hden. unfold percentQ.
  pose proof (num_pos den Hden) as HD. pose proof (num_nonneg x) as HX.
  pose proof (quotient_nonneg x den) as Hq.
  assert (Hqd : num x / num den * num den == num x) by (field; lra).
  destruct (round64_near _ Hq) as [H1u H1l].
  pose proof (round64_nonneg (num x / num den)) as H1.
  set (q := num x / num den) in *. set (r := round64 q) in *.
  assert (Hr : 0 <= r * 100) by lra.
  destruct (round64_near _ Hr) as [H2u H2l].
  set (p := round64 (r * 100)) in *. set (D := num den) in *. set (X := num x) in *.
  unfold unitRoundoff in *.
  assert (Hpu : p * D <= r * 100 * (1 + (1 # 9007199254740992)) * D)
    by (apply Qmult_le_compat_r; lra).
  assert (Hpl : r * 100 * (1 - (1 # 9007199254740992)) * D <= p * D)
    by (apply Qmult_le_compat_r; lra).
  assert (Hru : r * D <= q * (1 + (1 # 9007199254740992)) * D)
    by (apply Qmult_le_compat_r; lra).
  assert (Hrl : q * (1 - (1 # 9007199254740992)) * D <= r * D)
    by (apply Qmult_le_compat_r; lra).
  split; nra.
Qed.

Lemma num_le x y : (x <= y)%N -> num x <= num y.
Proof. intros H. unfold num. rewrite <- Zle_Qle. lia. Qed.

Lemma num_mul x y : num (x * y) == num x * num y.
Proof. unfold num. by rewrite N2Z.inj_mul, inject_Z_mult. Qed.

Lemma rateOf_spec x den : rateSpec x den (rateOf x den).
Proof.
  unfold rateSpec, rateOf. destruct (N.ltb_spec 0 den) as [Hden|Hden].
  - rewrite percent_Finite by done. split; [done|]. split; [lia|]. intros _.
    destruct (N.le_gt_cases x exactRange) as [Hx|Hx];
      [|eexists; split; [reflexivity | intros; lia]].
    unfold nearestTenth.
    destruct (percent_near x den Hden) as [Hu Hl].
    pose proof (percentQ_nonneg x den) as Hp.
    pose proof (num_le _ _ Hx) as HX. pose proof (num_nonneg x) as HX0.
    change (num exactRange) with (1099511627776 # 1) in HX.
    destruct (toFixed1_near (percentQ x den) den (1000 * x)) as (t & Ht & Hn1 & Hn2);
      [done|done|..].
    + rewrite num_mul. change (num 1000) with 1000. unfold unitRoundoff in *. lra.
    + rewrite num_mul. change (num 1000) with 1000. unfold unitRoundoff in *. lra.
    + exists t. split; [exact Ht|]. intros _. split; lia.
  - split; [done|]. split; [done | lia].
Qed.

Lemma avgOf_spec x den : avgSpec x den (avgOf x den).
Proof.
  unfold avgSpec, avgOf. destruct (N.ltb_spec 0 den) as [Hden|Hden].
  - rewrite divide_counts by done. split; [done|]. split; [lia|]. intros _.
    destruct (N.le_gt_cases x exactRange) as [Hx|Hx];
      [|eexists; split; [reflexivity | intros; lia]].
    unfold nearestTenth.
    pose proof (num_pos den Hden) as HD. pose proof (num_nonneg x) as HX0.
    pose proof (quotient_nonneg x den) as Hq.
    assert (Hqd : num x / num den * num den == num x) by (field; lra).
    destruct (round64_near _ Hq) as [Hu Hl].
    pose proof (round64_nonneg (num x / num den)) as Hr.
    pose proof (num_le _ _ Hx) as HX.
    change (num exactRange) with (1099511627776 # 1) in HX.
    set (q := num x / num den) in *. set (r := round64 q) in *.
    unfold unitRoundoff in *.
    assert (Hru : r * num den <= q * (1 + (1 # 9007199254740992)) * num den)
      by (apply Qmult_le_compat_r; lra).
    assert (Hrl : q * (1 - (1 # 9007199254740992)) * num den <= r * num den)
      by (apply Qmult_le_compat_r; lra).
    destruct (toFixed1_near r den (10 * x)) as (t & Ht & Hn1 & Hn2); [done|done|..].
    + rewrite num_mul. change (num 10) with 10. lra.
    + rewrite num_mul. change (num 10) with 10. lra.
    + exists t. split; [exact Ht|]. intros _. split; lia.
  - split; [done|]. split; [done | lia].
Qed.

Lemma rateOf_finite x den : finiteStat (rateOf x den).
Proof. apply rateOf_spec. Qed.

Lemma avgOf_finite x den : finiteStat (avgOf x den).
Proof. apply avgOf_spec. Qed.

Lemma bookingRate_Finite booked space :
  bookingRate booked space = Finite (if (0 <? space)%N then percentQ booked space else 0).
Proof.
  unfold bookingRate. destruct (N.ltb_spec 0 space); [by apply percent_Finite | done].
Qed.

(** On every pair of counts up to 40, a zero denominator included, the
    percentage of the embedding is the one of the specification of IEEE
    754; so are the means of the ratios of the sample [thirds] in the two
    orders. *)
Example percent_agrees_with_ieee :
  forallb (fun p => agrees (percent p.1 p.2) (ieeePercent p.1 p.2)) grid = true.
Proof. vm_compute. reflexivity. Qed.

Example mean_agrees_with_ieee :
  agrees (divide (reduceSum [percent 7 15; percent 7 16; percent 1 3]) (Finite (num 3)))
         (ieeeMean [(7, 15); (7, 16); (1, 3)]%N) = true /\
  agrees (divide (reduceSum [percent 1 3; percent 7 16; percent 7 15]) (Finite (num 3)))
         (ieeeMean [(1, 3); (7, 16); (7, 15)]%N) = true.
Proof. split; vm_compute; reflexivity. Qed.

(** A rate of a part of a whole is at most 100.0. *)
Lemma rateOf_le x den : (x <= den)%N -> (parseFloat10 (rateOf x den) <= 1000)%N.
Proof.
  intros Hx. unfold rateOf. destruct (N.ltb_spec 0 den) as [Hden|_]; [|simpl; lia].
  rewrite percent_Finite by done.
  pose proof (num_pos den Hden) as HD. pose proof (num_le _ _ Hx) as HX.
  assert (H1 : round64 (num x / num den) <= inject_Z 1).
  { apply round64_le_int; [lia|]. apply Qle_shift_div_r; [done|].
    change (inject_Z 1) with 1. lra. }
  assert (H2 : percentQ x den <= inject_Z 100).
  { apply round64_le_int; [lia|]. change (inject_Z 1) with 1 in H1.
    change (inject_Z 100) with 100. lra. }
  unfold toFixed1, tenthsOf, parseFloat10.
  assert (Hf : (Qfloor (percentQ x den * 10 + (1 # 2)) <= 1000)%Z).
  { change 1000%Z with (Qfloor (1000 + (1 # 2))). apply Qfloor_resp_le.
    change (inject_Z 100) with 100 in H2. lra. }
  lia.
Qed.

(** On statistics that denote finite numbers the comparator ranks by the
    tenths. *)
Lemma ranksAfter_finite x y :
  finiteStat x -> finiteStat y ->
  ranksAfter x y = (parseFloat10 x <? parseFloat10 y)%N.
Proof. by destruct x, y. Qed.

Local Close Scope Q_scope.

(** ** The mean of the booking ratios *)

Local Open Scope Q_scope.

Lemma growth_ge1 n : 1 <= growth n.
Proof.
  induction n as [|n IH]; simpl; [lra|]. unfold unitRoundoff in *.
  set (G := growth n) in *. nra.
Qed.

Lemma growth_succ_le n : growth n <= growth (S n).
Proof.
  simpl. pose proof (growth_ge1 n). unfold unitRoundoff. set (G := growth n) in *. nra.
Qed.

Lemma growth_mono n m : (n <= m)%nat -> growth n <= growth m.
Proof.
  induction 1 as [|m Hm IH]; [lra|]. pose proof (growth_succ_le m). lra.
Qed.

Lemma shrink_bounds n : 0 < shrink n /\ shrink n <= 1.
Proof.
  induction n as [|n [IH1 IH2]]; simpl; [split; lra|]. unfold unitRoundoff.
  set (s := shrink n) in *. split; nra.
Qed.

Lemma shrink_succ_le n : shrink (S n) <= shrink n.
Proof.
  simpl. destruct (shrink_bounds n). unfold unitRoundoff. set (s := shrink n) in *. nra.
Qed.

Lemma shrink_mono n m : (n <= m)%nat -> shrink m <= shrink n.
Proof.
  induction 1 as [|m Hm IH]; [lra|]. pose proof (shrink_succ_le m). lra.
Qed.

Lemma sumQ_snoc l x : sumQ (l ++ [x]) = sumQ l + x.
Proof. unfold sumQ. by rewrite foldl_app. Qed.

Lemma exactRatio_nonneg w : 0 <= exactRatio w.
Proof.
  unfold exactRatio. destruct (N.ltb_spec 0 (spaceOf w)) as [Hs|Hs]; [|lra].
  apply Qle_shift_div_l; [by apply num_pos|]. pose proof (num_nonneg (bookedOf w)). lra.
Qed.

Lemma sumQ_exact_nonneg g : 0 <= sumQ (exactRatio <$> g).
Proof.
  induction g as [|w g IH] using rev_ind; [unfold sumQ; simpl; lra|].
  rewrite fmap_app. change (exactRatio <$> [w]) with [exactRatio w].
  rewrite sumQ_snoc. pose proof (exactRatio_nonneg w). lra.
Qed.

Lemma bookingRate_ratioQ w : bookingRate (bookedOf w) (spaceOf w) = Finite (ratioQ w).
Proof. apply bookingRate_Finite. Qed.

Lemma ratioQ_nonneg w : 0 <= ratioQ w.
Proof.
  unfold ratioQ. destruct (0 <? spaceOf w)%N; [apply percentQ_nonneg | lra].
Qed.

(** A stored ratio is two roundings away from the exact one. *)
Lemma ratioQ_near w :
  exactRatio w * shrink 2 <= ratioQ w /\ ratioQ w <= exactRatio w * growth 2.
Proof.
  unfold ratioQ, exactRatio. simpl growth. simpl shrink.
  destruct (N.ltb_spec 0 (spaceOf w)) as [Hs|Hs]; [|split; lra].
  destruct (percent_near (bookedOf w) (spaceOf w) Hs) as [Hu Hl].
  pose proof (num_pos _ Hs) as HD.
  assert (HE : 100 * num (bookedOf w) / num (spaceOf w) * num (spaceOf w)
               == 100 * num (bookedOf w)) by (field; lra).
  set (E := 100 * num (bookedOf w) / num (spaceOf w)) in *.
  set (p := percentQ (bookedOf w) (spaceOf w)) in *.
  set (D := num (spaceOf w)) in *. set (X := num (bookedOf w)) in *.
  unfold unitRoundoff in *.
  split.
  - apply (Qmult_le_r _ _ D); [done|]. nra.
  - apply (Qmult_le_r _ _ D); [done|]. nra.
Qed.

Lemma reduceSum_Finite (qs : list Q) :
  reduceSum (Finite <$> qs) = Finite (foldl (fun a b => round64 (a + b)) 0 qs).
Proof.
  unfold reduceSum. generalize 0. induction qs as [|q qs IH]; intros a; [done|].
  csimpl. apply IH.
Qed.

Lemma storedSum_nonneg (qs : list Q) : 0 <= foldl (fun a b => round64 (a + b)) 0 qs.
Proof.
  induction qs as [|q qs IH] using rev_ind; [simpl; lra|].
  rewrite foldl_app. apply round64_nonneg.
Qed.

(** The stored sum of the stored ratios of n sessions is n + 2 roundings
    away from the exact sum of the exact ratios. *)
Lemma storedSum_near (g : list Workout.t) :
  sumQ (exactRatio <$> g) * shrink (length g + 2)
    <= foldl (fun a b => round64 (a + b)) 0 (ratioQ <$> g) /\
  foldl (fun a b => round64 (a + b)) 0 (ratioQ <$> g)
    <= sumQ (exactRatio <$> g) * growth (length g + 2).
Proof.
  induction g as [|w g [IHl IHu]] using rev_ind.
  - unfold sumQ. simpl. split; lra.
  - rewrite !fmap_app. change (exactRatio <$> [w]) with [exactRatio w].
    change (ratioQ <$> [w]) with [ratioQ w].
    rewrite sumQ_snoc, foldl_app, length_app. simpl foldl. simpl length.
    replace (length g + 1 + 2)%nat with (S (length g + 2)) by lia.
    pose proof (storedSum_nonneg (ratioQ <$> g)) as HS.
    pose proof (ratioQ_nonneg w) as Hq. pose proof (exactRatio_nonneg w) as He.
    pose proof (sumQ_exact_nonneg g) as HE.
    destruct (ratioQ_near w) as [Hql Hqu].
    pose proof (growth_mono 2 (length g + 2) ltac:(lia)) as HG.
    pose proof (shrink_mono 2 (length g + 2) ltac:(lia)) as Hs.
    pose proof (growth_ge1 (length g + 2)) as HG1.
    destruct (shrink_bounds (length g + 2)) as [Hs0 Hs1].
    set (S0 := foldl (fun a b => round64 (a + b)) 0 (ratioQ <$> g)) in *.
    set (E := sumQ (exactRatio <$> g)) in *.
    set (q := ratioQ w) in *. set (e := exactRatio w) in *.
    assert (Hsum : 0 <= S0 + q) by lra.
    destruct (round64_near _ Hsum) as [Hru Hrl].
    set (r := round64 (S0 + q)) in *.
    simpl growth. simpl shrink.
    set (G := growth (length g + 2)) in *. set (s := shrink (length g + 2)) in *.
    set (G2 := growth 2) in *. set (s2 := shrink 2) in *.
    assert (H1 : e * G2 <= e * G).
    { rewrite (Qmult_comm e G2), (Qmult_comm e G). apply Qmult_le_compat_r; lra. }
    assert (H2 : e * s <= e * s2).
    { rewrite (Qmult_comm e s), (Qmult_comm e s2). apply Qmult_le_compat_r; lra. }
    unfold unitRoundoff in *.
    assert (H3 : S0 + q <= (E + e) * G) by lra.
    assert (H4 : (E + e) * s <= S0 + q) by lra.
    split; nra.
Qed.

Lemma tenthsOf_near v :
  0 <= v -> v * 10 - (1 # 2) < num (tenthsOf v) /\ num (tenthsOf v) <= v * 10 + (1 # 2).
Proof.
  intros Hv. unfold tenthsOf, num.
  pose proof (Qfloor_le (v * 10 + (1 # 2))) as Hfl.
  pose proof (Qlt_floor (v * 10 + (1 # 2))) as Hfu.
  rewrite inject_Z_plus in Hfu. change (inject_Z 1) with 1 in Hfu.
  assert (HT : (0 <= Qfloor (v * 10 + (1 # 2)))%Z).
  { change 0%Z with (Qfloor 0). apply Qfloor_resp_le. lra. }
  rewrite Z2N.id by done. split; lra.
Qed.

(** The average booking rate of n sessions is finite, and it is the exact
    mean of their exact ratios up to n + 3 roundings, rounded to a tenth. *)
Lemma avgBookingRate_near (g : list Workout.t) :
  g <> [] ->
  exists t,
    toFixed1 (divide (reduceSum ((fun w => bookingRate (bookedOf w) (spaceOf w)) <$> g))
                     (Finite (num (N.of_nat (length g))))) = Fixed1 t /\
    tenthWithin (length g + 3) (exactMean g) t.
Proof.
  intros Hg.
  assert (Hmap : (fun w => bookingRate (bookedOf w) (spaceOf w)) <$> g
                 = Finite <$> (ratioQ <$> g)).
  { rewrite <- list_fmap_compose. apply list_fmap_ext. intros _ w _.
    apply bookingRate_ratioQ. }
  rewrite Hmap, reduceSum_Finite.
  assert (Hn : (0 < N.of_nat (length g))%N) by (destruct g; [done | simpl; lia]).
  unfold divide. rewrite num_nonzero by done. simpl toFixed1.
  eexists. split; [reflexivity|].
  destruct (storedSum_near g) as [Hl Hu].
  pose proof (storedSum_nonneg (ratioQ <$> g)) as HS.
  pose proof (num_pos _ Hn) as HN.
  pose proof (sumQ_exact_nonneg g) as HE.
  unfold tenthWithin, exactMean.
  replace (length g + 3)%nat with (S (length g + 2)) by lia. simpl growth. simpl shrink.
  pose proof (growth_ge1 (length g + 2)) as HG1.
  destruct (shrink_bounds (length g + 2)) as [Hs0 Hs1].
  set (S0 := foldl (fun a b => round64 (a + b)) 0 (ratioQ <$> g)) in *.
  set (E := sumQ (exactRatio <$> g)) in *.
  set (n := num (N.of_nat (length g))) in *.
  set (G := growth (length g + 2)) in *. set (s := shrink (length g + 2)) in *.
  assert (Hq : 0 <= S0 / n) by (apply Qle_shift_div_l; lra).
  destruct (round64_near _ Hq) as [Hru Hrl].
  pose proof (round64_nonneg (S0 / n)) as Hv.
  destruct (tenthsOf_near _ Hv) as [Htl Htu].
  set (v := round64 (S0 / n)) in *.
  assert (Hdu : S0 / n <= E / n * G).
  { apply Qle_shift_div_r; [done|].
    assert (E / n * G * n == E * G) as -> by (field; lra). done. }
  assert (Hdl : E / n * s <= S0 / n).
  { apply Qle_shift_div_l; [done|].
    assert (E / n * s * n == E * s) as -> by (field; lra). done. }
  assert (HM : 0 <= E / n) by (apply Qle_shift_div_l; lra).
  set (M := E / n) in *. set (d := S0 / n) in *.
  unfold unitRoundoff in *. split; nra.
Qed.

Local Close Scope Q_scope.

(** ** Grouping folds *)

Section GroupFold.
Context {K V W : Type} `{EqDecision K}.
Context (key : W -> K) (new : W -> V) (upd : V -> W -> V).

Lemma groupOf_snoc k ws w :
  groupOf key k (ws ++ [w]) =
  if decide (key w = k) then groupOf key k ws ++ [w] else groupOf key k ws.
Proof.
  unfold groupOf. rewrite filter_app, filter_cons, filter_nil.
  case_decide; [done | by rewrite app_nil_r].
Qed.

Lemma get_groupFold ws k :
  Obj.get k (foldl (groupStep key new upd) [] ws) =
  match groupOf key k ws with
  | [] => None
  | w0 :: g => Some (foldl upd (new w0) (w0 :: g))
  end.
Proof.
  induction ws as [|w ws IH] using rev_ind; [done|].
  rewrite foldl_app, groupOf_snoc. simpl. unfold groupStep at 1.
  rewrite get_set. case_decide as Hk; subst.
  - rewrite decide_True by done. rewrite IH.
    destruct (groupOf key (key w) ws) as [|w0 g]; simpl; [done|].
    by rewrite foldl_app.
  - rewrite decide_False by done. apply IH.
Qed.

Lemma NoDup_groupFold ws : NoDup (foldl (groupStep key new upd) [] ws).*1.
Proof.
  induction ws as [|w ws IH] using rev_ind; [constructor|].
  rewrite foldl_app. simpl. by apply NoDup_set.
Qed.

Lemma elem_of_keys_groupFold ws k :
  k ∈ (foldl (groupStep key new upd) [] ws).*1 <-> exists w, w ∈ ws /\ key w = k.
Proof.
  destruct (Obj.get k (foldl (groupStep key new upd) [] ws)) eqn:E.
  - split.
    + intros _. rewrite get_groupFold in E.
      destruct (groupOf key k ws) as [|w0 g] eqn:G; [done|].
      assert (Hw : w0 ∈ groupOf key k ws) by (rewrite G; left).
      apply list_elem_of_filter in Hw as [? ?]. eauto.
    + intros _. destruct (decide (k ∈ (foldl (groupStep key new upd) [] ws).*1)); [done|].
      apply get_None in n. congruence.
  - split.
    + intros Hk. by apply get_None in E.
    + intros (w & Hw & <-). rewrite get_groupFold in E.
      assert (Hg : w ∈ groupOf key (key w) ws) by (by apply list_elem_of_filter).
      destruct (groupOf key (key w) ws); [by apply elem_of_nil in Hg | done].
Qed.

End GroupFold.

(** ** Sorting *)

Section SortFacts.
Context {A : Type} (after : A -> A -> bool).

Lemma insert_Permutation x l : insert after x l ≡ₚ x :: l.
Proof.
  induction l as [|y l IH]; simpl; [done|].
  destruct (after x y); [|done].
  rewrite IH. apply Permutation_swap.
Qed.

Lemma sort_Permutation l : sort after l ≡ₚ l.
Proof.
  induction l as [|x l IH]; simpl; [done|].
  by rewrite insert_Permutation, IH.
Qed.

(** When the comparator is a strict weak order read off a key, the result
    is ordered: nothing is placed strictly after a later element. *)
Context (Htotal : forall x y, after x y = true -> after y x = false).
Context (Htrans : forall x y z, after y x = false -> after z y = false -> after z x = false).

Lemma insert_sorted x l :
  StronglySorted (fun a b => after a b = false) l ->
  StronglySorted (fun a b => after a b = false) (insert after x l).
Proof.
  induction 1 as [|y l Hs IH Hy]; simpl.
  - repeat constructor.
  - destruct (after x y) eqn:E.
    + constructor; [done|].
      rewrite insert_Permutation. constructor; [by apply Htotal | done].
    + constructor; [by constructor|].
      constructor; [done|].
      eapply Forall_impl; [exact Hy|]. intros z Hz. simpl in Hz.
      by apply (Htrans z y x).
Qed.

Lemma sort_sorted l : StronglySorted (fun a b => after a b = false) (sort after l).
Proof. induction l; simpl; [constructor | by apply insert_sorted]. Qed.

End SortFacts.

Lemma entries_Permutation {V} (d : list (string * V)) : Obj.entries d ≡ₚ d.
Proof.
  unfold Obj.entries. rewrite sort_Permutation.
  induction d as [|e d IH]; [done|].
  rewrite !filter_cons. destruct (decide (is_Some (array_index e.1))).
  - rewrite decide_False by tauto. simpl. by rewrite IH.
  - rewrite decide_True by done. rewrite <- Permutation_middle. by rewrite IH.
Qed.

Lemma values_Permutation {V} (d : list (string * V)) : Obj.values d ≡ₚ d.*2.
Proof. unfold Obj.values. by rewrite entries_Permutation. Qed.

Lemma keys_Permutation {V} (d : list (string * V)) : Obj.keys d ≡ₚ d.*1.
Proof. unfold Obj.keys. by rewrite entries_Permutation. Qed.

Lemma insert_ext_in {A} (after after' : A -> A -> bool) (x : A) (l : list A) :
  (forall y, y ∈ l -> after x y = after' x y) -> insert after x l = insert after' x l.
Proof.
  induction l as [|y l IH]; intros Hl; simpl; [done|].
  rewrite <- (Hl y) by left. destruct (after x y); [|done].
  f_equal. apply IH. intros z Hz. apply Hl. by right.
Qed.

Lemma sort_ext_in {A} (after after' : A -> A -> bool) (l : list A) :
  (forall x y, x ∈ l -> y ∈ l -> after x y = after' x y) ->
  sort after l = sort after' l.
Proof.
  induction l as [|x l IH]; intros Hl; simpl; [done|].
  rewrite <- IH by (intros y z Hy Hz; apply Hl; by right).
  apply insert_ext_in. intros y Hy. rewrite sort_Permutation in Hy.
  apply Hl; [left | by right].
Qed.

(** The two rankings compare rates that denote finite numbers, hence by
    their tenths. *)
Lemma typeStats_ranked (a : Acc.t) :
  typeStats a =
  sort (fun x y => parseFloat10 (TypeStat.attendanceRate x)
                   <? parseFloat10 (TypeStat.attendanceRate y))
       (typeStat (Acc.uniqueUsersByType a) <$> Obj.values (Acc.byType a)).
Proof.
  unfold typeStats. apply sort_ext_in.
  intros x y (bx & -> & _)%list_elem_of_fmap (by' & -> & _)%list_elem_of_fmap.
  apply ranksAfter_finite; apply rateOf_finite.
Qed.

Lemma instructorStats_ranked (a : Acc.t) :
  instructorStats a =
  sort (fun x y => parseFloat10 (InstructorStat.attendanceRate x)
                   <? parseFloat10 (InstructorStat.attendanceRate y))
       (instructorStat <$> Obj.values (Acc.byInstructor a)).
Proof.
  unfold instructorStats. apply sort_ext_in.
  intros x y (bx & -> & _)%list_elem_of_fmap (by' & -> & _)%list_elem_of_fmap.
  apply ranksAfter_finite; apply rateOf_finite.
Qed.

Section DictFacts2.
Context {K V : Type} `{EqDecision K}.
Implicit Types (d : list (K * V)) (k : K) (v : V).

Lemma set_set d k v v' : Obj.set k v (Obj.set k v' d) = Obj.set k v d.
Proof.
  induction d as [|[k0 v0] d IH]; simpl.
  - by rewrite decide_True.
  - case_decide; simpl; subst.
    + by rewrite decide_True.
    + rewrite decide_False by done. by rewrite IH.
Qed.

Lemma set_same d k v : Obj.get k d = Some v -> Obj.set k v d = d.
Proof.
  induction d as [|[k0 v0] d IH]; simpl; [done|].
  case_decide; subst; [by intros [= ->] | intros; f_equal; auto].
Qed.

End DictFacts2.

(** ** One iteration and the whole pass *)

Lemma sumN_snoc l x : sumN (l ++ [x]) = sumN l + x.
Proof. unfold sumN. by rewrite foldl_app. Qed.

Lemma countN_snoc {A} (P : A -> Prop) `{forall x, Decision (P x)} l x :
  countN P (l ++ [x]) = if decide (P x) then countN P l + 1 else countN P l.
Proof.
  unfold countN. rewrite filter_app, filter_cons, filter_nil.
  case_decide; [|by rewrite app_nil_r].
  rewrite length_app. simpl. lia.
Qed.

Lemma forEach_addUser k bs all uu s0 :
  Obj.get k uu = Some s0 ->
  forEach (addUser k) bs (all, uu) =
  Return (list_to_set (userIdsOf (Workout.mk None None None None None (Some bs))) ∪ all,
          Obj.set k (list_to_set (userIdsOf (Workout.mk None None None None None (Some bs))) ∪ s0) uu).
Proof.
  unfold userIdsOf, bookingsOf. simpl.
  revert all uu s0. induction bs as [|b bs IH]; intros all uu s0 Hk; simpl.
  - f_equal. f_equal; [set_solver|].
    rewrite (left_id_L ∅ (∪)). symmetry. by apply set_same.
  - unfold addUser at 1. simpl.
    destruct (userIdOf b) as [u|]; simpl.
    + destruct (Z.eqb u 0) eqn:E; simpl.
      * by apply IH.
      * rewrite Hk. simpl.
        erewrite IH by (rewrite get_set; by rewrite decide_True).
        rewrite set_set. f_equal. f_equal; [set_solver|]. f_equal. set_solver.
    + by apply IH.
Qed.

Section Pass.
Context (parseDate : string -> option Date.t).

Lemma addType_Return d w :
  inherited (typeNameOf w) = false ->
  addType w d = Return (groupStep typeNameOf freshType countType d w).
Proof.
  intros Hn. unfold addType, groupStep, Obj.lookup. rewrite Hn.
  by destruct (Obj.get _ d).
Qed.

Lemma addType_Throw d w :
  inherited (typeNameOf w) = true -> Obj.get (typeNameOf w) d = None ->
  addType w d = Throw TypeError.
Proof. intros Hn Hg. unfold addType, Obj.lookup. by rewrite Hg, Hn. Qed.

Lemma addBucket_groupStep {K} `{EqDecision K} (key : Workout.t -> K) d w :
  addBucket (fun _ => false) (key w) (bookedOf w) (spaceOf w) d =
  groupStep key (fun _ => Bucket.mk 0 0 0)
    (fun b w => Bucket.mk (Bucket.classes b + 1) (Bucket.totalBooked b + bookedOf w)
                  (Bucket.totalCapacity b + spaceOf w))
    d w.
Proof. unfold addBucket, groupStep, Obj.lookup. by destruct (Obj.get _ d). Qed.

Lemma foldl_ext_eq {A B} (f g : A -> B -> A) l a :
  (forall a b, f a b = g a b) -> foldl f a l = foldl g a l.
Proof. intros E. revert a. induction l; intros; simpl; [done|]. by rewrite E. Qed.

Lemma byType_get ws k :
  Obj.get k (Acc.byType (accOf parseDate ws)) = None <-> groupOf typeNameOf k ws = [].
Proof.
  simpl. rewrite get_groupFold. by destruct (groupOf typeNameOf k ws).
Qed.

Lemma usersByType_get ws k :
  Obj.get k (Acc.uniqueUsersByType (accOf parseDate ws)) = None <-> groupOf typeNameOf k ws = [].
Proof. simpl. rewrite get_groupFold. by destruct (groupOf typeNameOf k ws). Qed.

Lemma length_byDayOfWeek ws : length (Acc.byDayOfWeek (accOf parseDate ws)) = 7%nat.
Proof.
  simpl. induction ws as [|w ws IH] using rev_ind; [done|].
  rewrite foldl_app. simpl. unfold pushDay at 1. by rewrite length_insert.
Qed.

(** A bucket fold skips the sessions whose key is an inherited name. *)
Lemma addBucket_fold {K} `{EqDecision K} (inherits : K -> bool) (key : Workout.t -> K) ws :
  foldl (fun d w => addBucket inherits (key w) (bookedOf w) (spaceOf w) d) [] ws =
  foldl (groupStep key (fun _ => Bucket.mk 0 0 0)
           (fun b w => Bucket.mk (Bucket.classes b + 1) (Bucket.totalBooked b + bookedOf w)
                         (Bucket.totalCapacity b + spaceOf w)))
        [] (filter (fun w => inherits (key w) = false) ws).
Proof.
  induction ws as [|w ws IH] using rev_ind; [done|].
  rewrite foldl_app, filter_app, filter_cons, filter_nil. simpl. rewrite IH.
  case_decide as Hk.
  - rewrite foldl_app. simpl. unfold addBucket, groupStep, Obj.lookup. rewrite Hk.
    by destruct (Obj.get _ _).
  - rewrite app_nil_r. apply not_false_is_true in Hk.
    unfold addBucket, Obj.lookup. rewrite Hk.
    destruct (Obj.get _ _) eqn:E; [|done].
    assert (Hin : key w ∈ (foldl (groupStep key (fun _ => Bucket.mk 0 0 0)
           (fun b w => Bucket.mk (Bucket.classes b + 1) (Bucket.totalBooked b + bookedOf w)
                         (Bucket.totalCapacity b + spaceOf w)))
        [] (filter (fun w => inherits (key w) = false) ws)).*1).
    { destruct (decide (key w ∈ (foldl (groupStep key (fun _ => Bucket.mk 0 0 0)
           (fun b w => Bucket.mk (Bucket.classes b + 1) (Bucket.totalBooked b + bookedOf w)
                         (Bucket.totalCapacity b + spaceOf w)))
        [] (filter (fun w => inherits (key w) = false) ws)).*1)) as [|Hn]; [done|].
      apply get_None in Hn. congruence. }
    apply elem_of_keys_groupFold in Hin as (w' & [Hw' _]%list_elem_of_filter & Hkw).
    congruence.
Qed.

Lemma filter_all {A} (P : A -> Prop) `{forall x, Decision (P x)} (l : list A) :
  Forall P l -> filter P l = l.
Proof.
  induction 1 as [|x l Hx Hl IH]; [done|]. rewrite filter_cons, decide_True by done.
  by rewrite IH.
Qed.

Lemma dated_dec w : Decision (dated parseDate w).
Proof. unfold dated. destruct (dateOf parseDate w); apply _. Defined.

Lemma valid_dec w : Decision (valid parseDate w).
Proof. unfold valid. pose proof (dated_dec w). apply _. Defined.

Lemma step_accOf ws w :
  Forall (valid parseDate) ws ->
  step parseDate (accOf parseDate ws) w =
  if valid_dec w then Return (accOf parseDate (ws ++ [w])) else Throw TypeError.
Proof.
  intros Hws.
  destruct (valid_dec w) as [[Hv Hty]|Hv]; unfold dated, dateOf in Hv.
  - unfold step. destruct (Workout.startTime w) as [text|] eqn:Est; simpl in Hv; [|done].
    simpl. destruct (parseDate text) as [dt|] eqn:Ep; [|done]. simpl.
    rewrite addType_Return by done. simpl.
    set (uu := match Obj.lookup _ _ _ with Obj.Missing => _ | _ => _ end).
    assert (Huu : exists s0, Obj.get (typeNameOf w) uu = Some s0 /\
       Obj.set (typeNameOf w) (list_to_set (userIdsOf w) ∪ s0) uu =
       Acc.uniqueUsersByType (accOf parseDate (ws ++ [w]))).
    { subst uu. simpl. rewrite foldl_app. simpl. unfold Obj.lookup. rewrite Hty.
      destruct (Obj.get (typeNameOf w)
                  (foldl (groupStep typeNameOf freshType countType) [] ws)) eqn:E1.
      - destruct (Obj.get (typeNameOf w) (foldl (groupStep typeNameOf (fun _ => ∅) (addUsers)) [] ws)) eqn:E2.
        + exists g. split; [done|]. unfold groupStep in *. by rewrite E2.
        + apply (usersByType_get ws) in E2. apply (byType_get ws) in E2. simpl in E2. congruence.
      - apply (byType_get ws) in E1. apply (usersByType_get ws) in E1. simpl in E1.
        exists ∅. rewrite get_set, decide_True by done.
        split; [done|]. rewrite set_set. unfold groupStep in *. by rewrite E1. }
    destruct Huu as (s0 & Hs0 & Hset).
    assert (Husers : match Workout.bookings w with
            | Some bs => forEach (addUser (typeNameOf w)) bs (Acc.allUniqueUsers (accOf parseDate ws), uu)
            | None => Return (Acc.allUniqueUsers (accOf parseDate ws), uu)
            end = Return (Acc.allUniqueUsers (accOf parseDate (ws ++ [w])),
                          Acc.uniqueUsersByType (accOf parseDate (ws ++ [w])))).
    { rewrite <- Hset.
      assert (Hall : Acc.allUniqueUsers (accOf parseDate (ws ++ [w])) =
                     list_to_set (userIdsOf w) ∪ Acc.allUniqueUsers (accOf parseDate ws)).
      { simpl. rewrite bind_app. simpl. rewrite app_nil_r. set_solver. }
      rewrite Hall. unfold userIdsOf, bookingsOf. destruct (Workout.bookings w) as [bs|]; simpl.
      - by rewrite (forEach_addUser _ _ _ _ s0).
      - f_equal. f_equal; [set_solver|]. rewrite (left_id_L ∅ (∪)). symmetry. by apply set_same. }
    simpl in Husers. rewrite Husers. simpl.
    pose proof (length_byDayOfWeek ws) as Hl. simpl in Hl.
    destruct (foldl (pushDay parseDate) _ ws !! Date.getDay dt) as [data|] eqn:Hdata;
      [|apply lookup_ge_None_1 in Hdata; lia].
    f_equal. unfold accOf.
    rewrite !foldl_app, !fmap_app, length_app. simpl.
    rewrite !sumN_snoc, !countN_snoc.
    assert (Hday : theDay parseDate w = Date.getDay dt)
      by (unfold theDay, dayOf, dateOf; by rewrite Est; simpl; rewrite Ep).
    assert (Hhour : theHour parseDate w = Date.getHours dt)
      by (unfold theHour, hourOf, dateOf; by rewrite Est; simpl; rewrite Ep).
    assert (Hdate : theDate w = split_head text)
      by (unfold theDate, dateStrOf; by rewrite Est).
    f_equal.
    + change (pushDay parseDate ?d w) with
        (<[theDay parseDate w := default [] (d !! theDay parseDate w) ++ [dayEntryOf w]]> d).
      by rewrite Hday, Hdata.
    + by rewrite Hhour.
    + unfold addStaffs, staffsOf. by destruct (Workout.staffs w) as [[|s ss]|].
    + by rewrite Hdate.
    + lia.
    + unfold fullyBooked. case_decide as Hd.
      * destruct Hd as [?%N.ltb_lt ?%N.leb_le]. by rewrite H, H0.
      * destruct (0 <? spaceOf w) eqn:E1, (spaceOf w <=? bookedOf w) eqn:E2; simpl; try done.
        apply N.ltb_lt in E1. apply N.leb_le in E2. tauto.
    + unfold isEmpty. case_decide as Hd.
      * by rewrite Hd.
      * apply N.eqb_neq in Hd. by rewrite Hd.
  - assert (Hthrow : forall (m : result (list (string * TypeBucket.t)))
                            (k : list (string * TypeBucket.t) -> result Acc.t),
              (forall d, k d = Throw TypeError) -> bind m k = Throw TypeError).
    { intros [d|[]] k Hk; simpl; [apply Hk | done]. }
    unfold step. destruct (Workout.startTime w) as [text|] eqn:Est; [|done].
    destruct (decide (inherited (typeNameOf w) = false)) as [Hty|Hty].
    + assert (Hnd : ~ dated parseDate w) by (intros ?; by apply Hv).
      unfold dated, dateOf in Hnd. rewrite Est in Hnd. simpl in Hnd.
      apply Hthrow. intros d. simpl.
      destruct (parseDate text) as [dt|] eqn:Ep; simpl.
      * destruct (match Workout.bookings w with Some _ => _ | None => _ end) as [?|[]];
          simpl; [|done].
        pose proof (length_byDayOfWeek ws) as Hl. simpl in Hl.
        destruct (foldl (pushDay parseDate) _ ws !! Date.getDay dt) as [data|] eqn:Hdata;
          [|done].
        apply lookup_lt_Some in Hdata. lia.
      * by destruct (match Workout.bookings w with Some _ => _ | None => _ end) as [?|[]].
    + apply not_false_is_true in Hty. rewrite addType_Throw; [done|done|].
      apply byType_get. unfold groupOf.
      destruct (filter (fun w0 => typeNameOf w0 = typeNameOf w) ws) as [|w0 g] eqn:Eg; [done|].
      assert (Hw0 : w0 ∈ filter (fun w0 => typeNameOf w0 = typeNameOf w) ws)
        by (rewrite Eg; left).
      apply list_elem_of_filter in Hw0 as [Hk Hin].
      rewrite Forall_forall in Hws. destruct (Hws _ Hin) as [_ Hn]. congruence.
Qed.

End Pass.

Section Run.
Context (parseDate : string -> option Date.t).

Lemma run_Return ws a :
  forEach (step parseDate) ws init = Return a <->
  Forall (valid parseDate) ws /\ a = accOf parseDate ws.
Proof.
  revert a. induction ws as [|w ws IH] using rev_ind; intros a.
  - simpl. split.
    + intros [= <-]. split; [constructor|]. unfold accOf, init. simpl. f_equal.
    + intros [_ ->]. unfold accOf, init. simpl. f_equal.
  - rewrite forEach_snoc, Forall_app, Forall_singleton. split.
    + intros (a0 & H0 & Hs)%bind_Return. apply IH in H0 as [Hv ->].
      rewrite step_accOf in Hs by done. destruct (valid_dec parseDate w); [|done].
      injection Hs as <-. done.
    + intros [[Hv Hw] ->].
      assert (H0 : forEach (step parseDate) ws init = Return (accOf parseDate ws))
        by (by apply IH).
      rewrite H0. simpl. rewrite step_accOf by done. by destruct (valid_dec parseDate w).
Qed.

Lemma run_Throw ws :
  ~ Forall (valid parseDate) ws ->
  forEach (step parseDate) ws init = Throw TypeError.
Proof.
  intros Hn. destruct (forEach (step parseDate) ws init) as [a|[]] eqn:E; [|done].
  apply run_Return in E as [? _]. done.
Qed.

Lemma dayStats_accOf ws :
  dayStats (accOf parseDate ws) =
  Return (imap (fun i name =>
                  dayStatOf (default [] (Acc.byDayOfWeek (accOf parseDate ws) !! i)) i name)
               dayNames).
Proof.
  unfold dayStats. pose proof (length_byDayOfWeek parseDate ws) as Hl.
  destruct (Acc.byDayOfWeek (accOf parseDate ws))
    as [|d0 [|d1 [|d2 [|d3 [|d4 [|d5 [|d6 [|d7 l]]]]]]]]; try discriminate Hl.
  reflexivity.
Qed.

Lemma collect_trend (d : list (string * Bucket.t)) (l : list string) :
  Forall (fun k => k ∈ d.*1) l ->
  collect (trendPoint d <$> l) =
  Return ((fun date => trendPointOf (default (Bucket.mk 0 0 0) (Obj.get date d)) date) <$> l).
Proof.
  induction 1 as [|k l Hk Hl IH]; csimpl; [done|].
  rewrite IH. unfold trendPoint at 1.
  destruct (Obj.get k d) eqn:E; [done|]. by apply get_None in E.
Qed.

Lemma dailyTrend_accOf ws :
  dailyTrendOf (accOf parseDate ws) = Return (Report.dailyTrend (reportOf parseDate ws)).
Proof.
  unfold dailyTrendOf. rewrite collect_trend; [done|].
  apply Forall_forall. intros k Hk.
  by rewrite sort_Permutation, keys_Permutation in Hk.
Qed.

(** The function returns exactly on the sequences of processable sessions,
    and its report is then the closed form. *)
Lemma processAnalytics_Return ws r :
  processAnalytics parseDate ws = Return r <->
  Forall (valid parseDate) ws /\ r = reportOf parseDate ws.
Proof.
  unfold processAnalytics. split.
  - intros (a & Ha & Hr)%bind_Return. apply run_Return in Ha as [Hv ->].
    rewrite dayStats_accOf in Hr. simpl in Hr.
    rewrite dailyTrend_accOf in Hr. simpl in Hr. injection Hr as <-. done.
  - intros [Hv ->].
    assert (Ha : forEach (step parseDate) ws init = Return (accOf parseDate ws))
      by (by apply run_Return).
    rewrite Ha. simpl. rewrite dayStats_accOf. simpl. rewrite dailyTrend_accOf. done.
Qed.

Lemma processAnalytics_Throw ws :
  ~ Forall (valid parseDate) ws -> processAnalytics parseDate ws = Throw TypeError.
Proof. intros Hn. unfold processAnalytics. by rewrite run_Throw. Qed.

End Run.

(** * The claims *)

(** ** Totality *)

(** C1 (as stated, refuted): a session without [startTime] makes the
    function raise a TypeError, although every other field is present. *)
Lemma C1_missing_startTime_throws :
  processAnalytics localDate
    [Workout.mk (Some (WorkoutType.mk (Some "Yoga") None)) (Some 12) (Some 8) None
       (Some []) (Some [])]
  = Throw TypeError.
Proof. reflexivity. Qed.

(** C1 (amended): on every sequence of sessions whose [startTime] is present
    and parses to a valid date and whose type name is not the name of a
    property every object inherits ("constructor", "toString", ...),
    [processAnalytics] returns a report and does not raise, whatever else is
    absent; a session that carries nothing but its start time is reported
    under type "Unknown" with zero capacity, zero bookings, no instructor
    and no participant. *)
Theorem C1_total_on_dated_sessions (parseDate : string -> option Date.t)
    (ws : list Workout.t) :
  Forall (fun w => dated parseDate w /\ inherited (typeNameOf w) = false) ws ->
  (exists r, processAnalytics parseDate ws = Return r) /\
  (forall text,
      dated parseDate (Workout.mk None None None (Some text) None None) ->
      exists r,
        processAnalytics parseDate [Workout.mk None None None (Some text) None None]
          = Return r /\
        TypeStat.name <$> Report.byType r = ["Unknown"] /\
        Summary.totalClasses (Report.summary r) = 1 /\
        Summary.totalCapacity (Report.summary r) = 0 /\
        Summary.totalBooked (Report.summary r) = 0 /\
        Summary.uniqueParticipants (Report.summary r) = 0 /\
        Report.byInstructor r = []).
Proof.
  intros Hv. split.
  - exists (reportOf parseDate ws). by apply processAnalytics_Return.
  - intros text Ht. eexists. split.
    + apply processAnalytics_Return. split; [by repeat constructor | reflexivity].
    + repeat split.
Qed.

Lemma C1_total_on_dated_sessions_witness :
  Forall (fun w => dated localDate w /\ inherited (typeNameOf w) = false) demo /\
  exists r, processAnalytics localDate demo = Return r.
Proof.
  assert (Hv : Forall (fun w => dated localDate w /\ inherited (typeNameOf w) = false) demo).
  { repeat constructor; unfold dated; simpl; lia. }
  split; [exact Hv|].
  exact (proj1 (C1_total_on_dated_sessions localDate demo Hv)).
Defined.

(** ** Summary totals *)

(** C2: the summary carries the sum of the capacities (a missing capacity
    counting as 0), the sum of the booked counts, the number of sessions,
    the number of sessions with capacity > 0 and booked >= capacity, and the
    number of sessions with booked = 0. *)
Theorem C2_summary_totals (parseDate : string -> option Date.t)
    (ws : list Workout.t) (r : Report.t) :
  processAnalytics parseDate ws = Return r ->
  Summary.totalCapacity (Report.summary r) = sumN (spaceOf <$> ws) /\
  Summary.totalBooked (Report.summary r) = sumN (bookedOf <$> ws) /\
  Summary.totalClasses (Report.summary r) = N.of_nat (length ws) /\
  Summary.fullyBookedClasses (Report.summary r)
    = N.of_nat (length (filter (fun w => 0 < spaceOf w /\ spaceOf w <= bookedOf w) ws)) /\
  Summary.emptyClasses (Report.summary r)
    = N.of_nat (length (filter (fun w => bookedOf w = 0) ws)) /\
  (forall w, Workout.space w = None -> spaceOf w = 0).
Proof.
  intros [_ ->]%processAnalytics_Return. repeat split.
  intros w Hw. unfold spaceOf. by rewrite Hw.
Qed.

Lemma C2_summary_totals_witness :
  processAnalytics localDate demo = Return (reportOf localDate demo) /\
  Summary.totalCapacity (Report.summary (reportOf localDate demo)) = 27 /\
  Summary.totalBooked (Report.summary (reportOf localDate demo)) = 18 /\
  Summary.totalClasses (Report.summary (reportOf localDate demo)) = 3 /\
  Summary.fullyBookedClasses (Report.summary (reportOf localDate demo)) = 1 /\
  Summary.emptyClasses (Report.summary (reportOf localDate demo)) = 1.
Proof.
  assert (H : processAnalytics localDate demo = Return (reportOf localDate demo)).
  { vm_compute. reflexivity. }
  split; [exact H|].
  destruct (C2_summary_totals localDate demo _ H) as (H1 & H2 & H3 & H4 & H5 & _).
  rewrite H1, H2, H3, H4, H5. repeat split.
Defined.

(** ** Fixed cardinalities *)



(** ** Unique participants *)

Lemma elem_of_userIdsOf w u :
  u ∈ userIdsOf w <-> exists b, b ∈ bookingsOf w /\ userIdOf b = Some u /\ u <> 0%Z.
Proof.
  unfold userIdsOf. rewrite list_elem_of_omap. split.
  - intros (b & Hb & Hu). exists b. split; [done|].
    destruct (userIdOf b) as [z|]; [|done].
    destruct (Z.eqb z 0) eqn:E; [done|]. injection Hu as ->.
    by apply Z.eqb_neq in E.
  - intros (b & Hb & Hu & Hz). exists b. split; [done|].
    rewrite Hu. apply Z.eqb_neq in Hz. by rewrite Hz.
Qed.

Lemma userIdOf_participant b u :
  userIdOf b = Some u /\ u <> 0%Z <-> participantOf b u.
Proof.
  unfold userIdOf, id_or, truthy_id, participantOf, falsy.
  destruct b as [[a|] [c|] [[[d|]]|]]; simpl;
    repeat match goal with
           | |- context [Z.eqb ?z 0] => destruct (Z.eqb_spec z 0); subst; simpl
           end; naive_solver.
Qed.

Lemma elem_of_bookingsOf w b :
  b ∈ bookingsOf w <-> exists bs, Workout.bookings w = Some bs /\ b ∈ bs.
Proof.
  unfold bookingsOf. destruct (Workout.bookings w) as [bs|]; simpl.
  - naive_solver.
  - split; [by intros ?%elem_of_nil | by intros (? & ? & ?)].
Qed.

Lemma elem_of_userIds ws u : u ∈ ws ≫= userIdsOf <-> participates ws u.
Proof.
  rewrite list_elem_of_bind. setoid_rewrite elem_of_userIdsOf.
  unfold participates. split.
  - intros (w & (b & Hb & Hu) & Hw). apply elem_of_bookingsOf in Hb as (bs & Hbs & Hb).
    exists w, bs, b. split_and!; [done..|]. by apply userIdOf_participant.
  - intros (w & bs & b & Hw & Hbs & Hb & Hu). exists w. split; [|done].
    exists b. split; [apply elem_of_bookingsOf; eauto|]. by apply userIdOf_participant.
Qed.

(** C7 (as stated, refuted): a booking whose user identifier is 0 is a
    booking with a user identifier, and it is not counted. *)
Lemma C7_identifier_zero_is_not_counted :
  exists r,
    processAnalytics localDate
      [session "Spin" 10 1 "2024-01-15 18:00:00" []
         [Booking.mk (Some 0%Z) None (Some (User.mk (Some 0%Z)))]] = Return r /\
    Summary.uniqueParticipants (Report.summary r) = 0.
Proof. eexists. split; [vm_compute; reflexivity | reflexivity]. Qed.

(** C7 (amended): [summary.uniqueParticipants] is the number of distinct
    participants of all sessions together, the participant of a booking
    being the first of its [user_id], its [userId] and its [user.id] that is
    present and not 0: there is a duplicate-free list of exactly these
    identifiers, and the field is its length.  A participant of several
    sessions is therefore counted once, and a booking none of whose three
    fields holds a non-zero identifier adds nothing. *)
Theorem C7_unique_participants (parseDate : string -> option Date.t)
    (ws : list Workout.t) (r : Report.t) :
  processAnalytics parseDate ws = Return r ->
  exists ids : list Z,
    NoDup ids /\
    (forall u, u ∈ ids <->
       exists w bs b,
         w ∈ ws /\ Workout.bookings w = Some bs /\ b ∈ bs /\ u <> 0%Z /\
         (Booking.user_id b = Some u \/
          (falsy (Booking.user_id b) /\ Booking.userId b = Some u) \/
          (falsy (Booking.user_id b) /\ falsy (Booking.userId b) /\
           exists usr, Booking.user b = Some usr /\ User.id usr = Some u))) /\
    Summary.uniqueParticipants (Report.summary r) = N.of_nat (length ids).
Proof.
  intros [_ ->]%processAnalytics_Return.
  exists (elements (list_to_set (ws ≫= userIdsOf) : gset Z)). split_and!.
  - apply NoDup_elements.
  - intros u. rewrite elem_of_elements, elem_of_list_to_set. apply elem_of_userIds.
  - reflexivity.
Qed.

(** In the sample, participant 7 books two sessions and participant 8 one;
    one booking carries no identifier: two participants are reported. *)
Lemma C7_unique_participants_witness :
  processAnalytics localDate demo = Return (reportOf localDate demo) /\
  Summary.uniqueParticipants (Report.summary (reportOf localDate demo)) = 2 /\
  exists ids : list Z,
    NoDup ids /\ 7%Z ∈ ids /\ 8%Z ∈ ids /\
    Summary.uniqueParticipants (Report.summary (reportOf localDate demo))
      = N.of_nat (length ids).
Proof.
  assert (H : processAnalytics localDate demo = Return (reportOf localDate demo)).
  { vm_compute. reflexivity. }
  split; [exact H|]. split; [vm_compute; reflexivity|].
  destruct (C7_unique_participants localDate demo _ H) as (ids & Hnd & Hids & Hlen).
  exists ids. split; [exact Hnd|]. split; [|split; [|exact Hlen]].
  - apply Hids. exists spinFull, [bookingOf 7; bookingOf 8], (bookingOf 7).
    split; [left|]. split; [reflexivity|]. split; [left|]. split; [discriminate|].
    left. reflexivity.
  - apply Hids. exists spinFull, [bookingOf 7; bookingOf 8], (bookingOf 8).
    split; [left|]. split; [reflexivity|]. split; [right; left|]. split; [discriminate|].
    left. reflexivity.
Defined.

(** Participant 7 books two of the sample sessions and is counted once:
    three bookings carry an identifier, two participants are reported. *)
Example unique_participants_demo :
  Summary.uniqueParticipants (Report.summary (reportOf localDate demo)) = 2 /\
  demo ≫= userIdsOf = [7; 8; 7]%Z.
Proof. split; [vm_compute; reflexivity | reflexivity]. Qed.

(** ** Instructors *)

Lemma elem_of_set {K V} `{EqDecision K} (d : list (K * V)) k v e :
  e ∈ Obj.set k v d -> e = (k, v) \/ e ∈ d.
Proof.
  induction d as [|[k0 v0] d IH]; simpl.
  - intros ->%list_elem_of_singleton. by left.
  - case_decide; subst.
    + intros [->|?]%elem_of_cons; [by left | right; by right].
    + intros [->|?]%elem_of_cons; [right; left|].
      destruct (IH H0); [by left | right; by right].
Qed.

Lemma filter_none {A} (P : A -> Prop) `{forall x, Decision (P x)} (l : list A) :
  Forall (fun x => ~ P x) l -> filter P l = [].
Proof.
  induction 1 as [|x l Hx Hl IH]; [done|]. by rewrite filter_cons_False.
Qed.




Section Instructors.
Context (parseDate : string -> option Date.t).

Lemma addStaff_wf booked space d s :
  NoDup d.*1 /\ Forall (fun e => InstructorBucket.name e.2 = e.1) d ->
  NoDup (addStaff booked space d s).*1 /\
  Forall (fun e => InstructorBucket.name e.2 = e.1) (addStaff booked space d s).
Proof.
  intros [Hnd Hname]. unfold addStaff, Obj.lookup.
  destruct (Obj.get (staffName s) d) eqn:E; [|destruct (inherited (staffName s)); [done|]].
  - split; [by apply NoDup_set|].
    apply Forall_forall. intros e [->|He]%elem_of_set.
    + simpl. apply get_Some_elem in E. rewrite Forall_forall in Hname. by apply Hname in E.
    + rewrite Forall_forall in Hname. by apply Hname.
  - split; [by apply NoDup_set|].
    apply Forall_forall. intros e [->|He]%elem_of_set; [done|].
    rewrite Forall_forall in Hname. by apply Hname.
Qed.

(** A bucket is never made under an inherited name. *)
Lemma get_addStaff_inherited booked space staffs d n :
  inherited n = true -> Obj.get n d = None ->
  Obj.get n (foldl (addStaff booked space) d staffs) = None.
Proof.
  intros Hn. revert d. induction staffs as [|s staffs IH]; intros d Hd; simpl; [done|].
  apply IH. unfold addStaff, Obj.lookup.
  destruct (decide (n = staffName s)) as [->|Hne].
  - by rewrite Hd, Hn.
  - destruct (Obj.get (staffName s) d);
      [|destruct (inherited (staffName s)); [done|]]; by rewrite get_set, decide_False.
Qed.

Lemma byInstructor_inherited ws n :
  inherited n = true -> Obj.get n (Acc.byInstructor (accOf parseDate ws)) = None.
Proof.
  intros Hn. simpl. induction ws as [|w ws IH] using rev_ind; [done|].
  rewrite foldl_app. simpl. unfold addStaffs at 1. by apply get_addStaff_inherited.
Qed.

Lemma byInstructor_wf ws :
  NoDup (Acc.byInstructor (accOf parseDate ws)).*1 /\
  Forall (fun e => InstructorBucket.name e.2 = e.1) (Acc.byInstructor (accOf parseDate ws)).
Proof.
  simpl. induction ws as [|w ws IH] using rev_ind; [split; constructor|].
  rewrite foldl_app. simpl. unfold addStaffs at 1 3.
  generalize (staffsOf w). intros l. revert IH.
  generalize (foldl addStaffs [] ws).
  induction l as [|s l IHl]; intros d Hd; simpl; [done|].
  apply IHl. by apply addStaff_wf.
Qed.


(** The effect of the inner loop over the instructors of one session on
    the bucket named [n]. *)
Lemma get_addStaff_loop booked space staffs d n :
  inherited n = false ->
  let k := N.of_nat (length (filter (fun s => staffName s = n) staffs)) in
  let old := Obj.get n d in
  let new := Obj.get n (foldl (addStaff booked space) d staffs) in
  default 0 (InstructorBucket.classes <$> new)
    = default 0 (InstructorBucket.classes <$> old) + k /\
  default 0 (InstructorBucket.totalBooked <$> new)
    = default 0 (InstructorBucket.totalBooked <$> old) + k * booked /\
  default 0 (InstructorBucket.totalCapacity <$> new)
    = default 0 (InstructorBucket.totalCapacity <$> old) + k * space.
Proof.
  intros Hinh. revert d. induction staffs as [|s staffs IH]; intros d; simpl.
  - lia.
  - destruct (IH (addStaff booked space d s)) as (H1 & H2 & H3).
    rewrite H1, H2, H3. clear IH H1 H2 H3.
    assert (Hg : Obj.get n (addStaff booked space d s) =
                 if decide (n = staffName s)
                 then Some (InstructorBucket.mk
                              (InstructorBucket.name (default (InstructorBucket.mk (staffName s) 0 0 0 (Staff.imagekey s)) (Obj.get (staffName s) d)))
                              (InstructorBucket.classes (default (InstructorBucket.mk (staffName s) 0 0 0 (Staff.imagekey s)) (Obj.get (staffName s) d)) + 1)
                              (InstructorBucket.totalBooked (default (InstructorBucket.mk (staffName s) 0 0 0 (Staff.imagekey s)) (Obj.get (staffName s) d)) + booked)
                              (InstructorBucket.totalCapacity (default (InstructorBucket.mk (staffName s) 0 0 0 (Staff.imagekey s)) (Obj.get (staffName s) d)) + space)
                              (InstructorBucket.imagekey (default (InstructorBucket.mk (staffName s) 0 0 0 (Staff.imagekey s)) (Obj.get (staffName s) d))))
                 else Obj.get n d).
    { unfold addStaff, Obj.lookup. destruct (decide (n = staffName s)) as [->|Hn].
      - rewrite Hinh. destruct (Obj.get (staffName s) d); by rewrite get_set, decide_True.
      - destruct (Obj.get (staffName s) d);
          [|destruct (inherited (staffName s)); [done|]]; by rewrite get_set, decide_False. }
    rewrite Hg, filter_cons. clear Hg.
    destruct (decide (n = staffName s)) as [->|Hn].
    + rewrite decide_True by done. simpl length.
      destruct (Obj.get (staffName s) d); simpl; lia.
    + rewrite decide_False by congruence. lia.
Qed.

Lemma byInstructor_listed ws n b :
  Obj.get n (Acc.byInstructor (accOf parseDate ws)) = Some b -> inherited n = false.
Proof.
  intros Hb. destruct (inherited n) eqn:E; [|done].
  rewrite byInstructor_inherited in Hb by done. done.
Qed.

Lemma byInstructor_pos ws :
  Forall (fun e => 0 < InstructorBucket.classes e.2) (Acc.byInstructor (accOf parseDate ws)).
Proof.
  simpl. induction ws as [|w ws IH] using rev_ind; [constructor|].
  rewrite foldl_app. simpl. unfold addStaffs at 1.
  generalize (staffsOf w). intros l. revert IH.
  generalize (foldl addStaffs [] ws).
  induction l as [|s l IHl]; intros d Hd; simpl; [done|].
  apply IHl. unfold addStaff, Obj.lookup.
  destruct (Obj.get (staffName s) d); [|destruct (inherited (staffName s)); [done|]];
    apply Forall_forall; intros e [->|He]%elem_of_set; simpl; try lia;
    rewrite Forall_forall in Hd; by apply Hd.
Qed.

Lemma byInstructor_totals ws n :
  inherited n = false ->
  let b := Obj.get n (Acc.byInstructor (accOf parseDate ws)) in
  default 0 (InstructorBucket.classes <$> b) = sumN (staffCount n <$> ws) /\
  default 0 (InstructorBucket.totalBooked <$> b)
    = sumN ((fun w => staffCount n w * bookedOf w) <$> ws) /\
  default 0 (InstructorBucket.totalCapacity <$> b)
    = sumN ((fun w => staffCount n w * spaceOf w) <$> ws).
Proof.
  intros Hn. cbv zeta. simpl Acc.byInstructor.
  induction ws as [|w ws IH] using rev_ind; [done|].
  rewrite foldl_app, !fmap_app. simpl. rewrite !sumN_snoc.
  destruct IH as (H1 & H2 & H3). rewrite <- H1, <- H2, <- H3.
  unfold addStaffs at 1 3 5. by apply get_addStaff_loop.
Qed.

Lemma elem_of_instructorStats ws e :
  e ∈ instructorStats (accOf parseDate ws) ->
  exists b, Obj.get (InstructorStat.name e) (Acc.byInstructor (accOf parseDate ws)) = Some b /\
            e = instructorStat b.
Proof.
  unfold instructorStats. rewrite sort_Permutation, values_Permutation.
  intros (b & -> & Hb)%list_elem_of_fmap.
  apply list_elem_of_fmap in Hb as ([k b'] & -> & Hkb). simpl.
  destruct (byInstructor_wf ws) as [Hnd Hname].
  rewrite Forall_forall in Hname. pose proof (Hname _ Hkb) as Hk. simpl in Hk.
  exists b'. split; [|done]. rewrite Hk. by apply elem_get.
Qed.

End Instructors.




(** C10: a session whose [staffs] is absent or empty leaves [byInstructor]
    as it would be without the session, and a window none of whose sessions
    has an instructor reports no instructor at all; hence [byInstructor] can
    be empty on a non-empty input, and the [classes] of its entries can sum
    to less than [summary.totalClasses] (an instructor-less session) or to
    more (a session with two instructors). *)
Theorem C10_sessions_without_instructor (parseDate : string -> option Date.t)
    (ws1 ws2 : list Workout.t) (w : Workout.t) (r : Report.t) :
  Workout.staffs w = None \/ Workout.staffs w = Some [] ->
  processAnalytics parseDate (ws1 ++ w :: ws2) = Return r ->
  (exists r', processAnalytics parseDate (ws1 ++ ws2) = Return r' /\
              Report.byInstructor r = Report.byInstructor r') /\
  ((forall w', w' ∈ ws1 ++ w :: ws2 -> staffsOf w' = []) -> Report.byInstructor r = []) /\
  (exists ws0 r0, ws0 <> [] /\ processAnalytics localDate ws0 = Return r0 /\
                  Report.byInstructor r0 = [] /\
                  instructorClassesTotal r0 < Summary.totalClasses (Report.summary r0)) /\
  (exists ws0 r0, processAnalytics localDate ws0 = Return r0 /\
                  Summary.totalClasses (Report.summary r0) < instructorClassesTotal r0).
Proof.
  intros Hw [Hv ->]%processAnalytics_Return.
  assert (Hnil : staffsOf w = []) by (unfold staffsOf; by destruct Hw as [-> | ->]).
  split_and!.
  - exists (reportOf parseDate (ws1 ++ ws2)). split.
    + apply processAnalytics_Return. split; [|done].
      apply Forall_app in Hv as [H1 [_ H2]%Forall_cons]. by apply Forall_app.
    + unfold reportOf, Report.byInstructor, instructorStats. do 3 f_equal.
      simpl. rewrite !foldl_app. simpl. unfold addStaffs at 2. by rewrite Hnil.
  - intros Hall. unfold reportOf, Report.byInstructor, instructorStats.
    replace (Acc.byInstructor (accOf parseDate (ws1 ++ w :: ws2))) with
      (@nil (string * InstructorBucket.t)); [done|].
    simpl. revert Hall. generalize (ws1 ++ w :: ws2). intros l Hall.
    induction l as [|x l IH] using rev_ind; [done|].
    rewrite foldl_app. simpl. unfold addStaffs at 1.
    rewrite (Hall x) by (apply elem_of_app; right; left). simpl.
    apply IH. intros w' Hw'. apply Hall, elem_of_app. by left.
  - exists [spinEmpty], (reportOf localDate [spinEmpty]). by split_and!.
  - exists [spinFull], (reportOf localDate [spinFull]). split; [|done].
    apply processAnalytics_Return. split; [|done].
    repeat constructor; unfold dated; simpl; lia.
Qed.

Lemma C10_sessions_without_instructor_witness :
  (Workout.staffs spinEmpty = None \/ Workout.staffs spinEmpty = Some []) /\
  processAnalytics localDate ([spinFull] ++ spinEmpty :: [yogaClass])
    = Return (reportOf localDate demo) /\
  exists r', processAnalytics localDate ([spinFull] ++ [yogaClass]) = Return r' /\
             Report.byInstructor (reportOf localDate demo) = Report.byInstructor r'.
Proof.
  assert (Hs : Workout.staffs spinEmpty = None \/ Workout.staffs spinEmpty = Some [])
    by (right; reflexivity).
  assert (H : processAnalytics localDate ([spinFull] ++ spinEmpty :: [yogaClass])
              = Return (reportOf localDate demo)).
  { vm_compute. reflexivity. }
  split; [exact Hs|]. split; [exact H|].
  exact (proj1 (C10_sessions_without_instructor localDate [spinFull] [yogaClass]
                  spinEmpty _ Hs H)).
Defined.

(** ** The daily trend *)

Lemma ltb_lt a b : String.ltb a b = true <-> String_as_OT.lt a b.
Proof.
  unfold String.ltb. rewrite <- String_as_OT.cmp_lt. unfold String_as_OT.cmp.
  destruct (String.compare a b); split; congruence.
Qed.

Lemma ltb_asym a b : String.ltb a b = true -> String.ltb b a = false.
Proof.
  intros H. destruct (String.ltb b a) eqn:E; [|done].
  apply ltb_lt in H, E. pose proof (String_as_OT.lt_trans _ _ _ H E) as Hl.
  by apply String_as_OT.lt_not_eq in Hl.
Qed.

Lemma ltb_connex a b : String.ltb a b = false -> a <> b -> String.ltb b a = true.
Proof.
  intros H Hne. unfold String.ltb in *. rewrite String.compare_antisym.
  destruct (String.compare a b) eqn:E; simpl; try done.
  by apply String.compare_eq_iff in E.
Qed.

Lemma leb_trans a b c :
  String.ltb b a = false -> String.ltb c b = false -> String.ltb c a = false.
Proof.
  intros H1 H2. destruct (String.ltb c a) eqn:E; [|done].
  destruct (decide (a = b)) as [->|Hab]; [congruence|].
  destruct (decide (b = c)) as [->|Hbc]; [congruence|].
  apply ltb_connex in H1; [|done]. apply ltb_connex in H2; [|done].
  apply ltb_lt in H1, H2, E.
  pose proof (String_as_OT.lt_trans _ _ _ (String_as_OT.lt_trans _ _ _ H1 H2) E) as Hl.
  by apply String_as_OT.lt_not_eq in Hl.
Qed.

(** Sorting distinct strings with the default comparator leaves them in
    strictly ascending order. *)
Lemma sort_strings_ascending (l : list string) :
  NoDup l ->
  StronglySorted (fun a b => String.ltb a b = true) (sort (fun x y => String.ltb y x) l).
Proof.
  intros Hnd.
  assert (Hs : StronglySorted (fun a b => String.ltb b a = false)
                 (sort (fun x y => String.ltb y x) l)).
  { apply (sort_sorted (fun x y => String.ltb y x)).
    - intros x y. apply ltb_asym.
    - intros x y z H1 H2. by apply (leb_trans z y x). }
  assert (Hnd' : NoDup (sort (fun x y => String.ltb y x) l)) by (by rewrite sort_Permutation).
  revert Hs Hnd'. generalize (sort (fun x y => String.ltb y x) l). intros l'.
  induction 1 as [|x l0 Hs IH Hx]; intros Hnd0; [constructor|].
  apply NoDup_cons in Hnd0 as [Hx0 Hnd0]. constructor; [by apply IH|].
  rewrite Forall_forall in Hx |- *. intros y Hy.
  apply ltb_connex; [by apply Hx|]. intros ->. done.
Qed.

Lemma split_head_date (d t : string) :
  (forall c, c ∈ list_ascii_of_string d -> c <> " "%char) ->
  split_head (d ++ " " ++ t)%string = d.
Proof.
  induction d as [|c d IH]; intros Hd; simpl; [done|].
  destruct (Ascii.eqb c " ") eqn:E.
  - apply Ascii.eqb_eq in E. exfalso. apply (Hd c); [left | done].
  - f_equal. apply IH. intros c' Hc'. apply Hd. simpl. by right.
Qed.

Lemma bucket_fold (g : list Workout.t) (b : Bucket.t) :
  foldl (fun b w => Bucket.mk (Bucket.classes b + 1) (Bucket.totalBooked b + bookedOf w)
                      (Bucket.totalCapacity b + spaceOf w)) b g =
  Bucket.mk (Bucket.classes b + N.of_nat (length g))
            (Bucket.totalBooked b + sumN (bookedOf <$> g))
            (Bucket.totalCapacity b + sumN (spaceOf <$> g)).
Proof.
  induction g as [|w g IH] using rev_ind.
  - destruct b. simpl. unfold sumN. simpl. f_equal; lia.
  - rewrite foldl_app, IH, !fmap_app, length_app. simpl.
    rewrite !sumN_snoc. f_equal; lia.
Qed.

Section Trend.
Context (parseDate : string -> option Date.t).

Lemma valid_theDate w d :
  valid parseDate w -> theDate w = d <-> dateStrOf w = Some d.
Proof.
  unfold valid, dated, dateOf, theDate, dateStrOf.
  destruct (Workout.startTime w); simpl; [|by intros []]. intros _. split; congruence.
Qed.

Lemma filter_valid_ext {A} (P Q : A -> Prop) `{forall x, Decision (P x)}
    `{forall x, Decision (Q x)} (R : A -> Prop) (l : list A) :
  Forall R l -> (forall x, R x -> P x <-> Q x) -> filter P l = filter Q l.
Proof.
  induction 1 as [|x l Hx Hl IH]; intros Hpq; [done|].
  rewrite !filter_cons. destruct (decide (P x)), (decide (Q x)).
  - f_equal. by apply IH.
  - exfalso. naive_solver.
  - exfalso. naive_solver.
  - by apply IH.
Qed.

Lemma filter_filter_impl {A} (P Q : A -> Prop) `{forall x, Decision (P x)}
    `{forall x, Decision (Q x)} (l : list A) :
  (forall x, P x -> Q x) -> filter P (filter Q l) = filter P l.
Proof.
  intros Hpq. induction l as [|x l IH]; [done|].
  rewrite !filter_cons. destruct (decide (Q x)) as [Hq|Hq].
  - rewrite filter_cons. destruct (decide (P x)); by rewrite IH.
  - rewrite decide_False by naive_solver. done.
Qed.

Lemma byDate_get ws d :
  Forall (valid parseDate) ws ->
  Obj.get d (Acc.byDate (accOf parseDate ws)) =
  if inherited d then None
  else match filter (fun w => dateStrOf w = Some d) ws with
       | [] => None
       | g => Some (Bucket.mk (N.of_nat (length g)) (sumN (bookedOf <$> g))
                      (sumN (spaceOf <$> g)))
       end.
Proof.
  intros Hv. simpl. rewrite addBucket_fold, get_groupFold. unfold groupOf.
  destruct (inherited d) eqn:Hd.
  - replace (filter (fun w => theDate w = d)
               (filter (fun w => inherited (theDate w) = false) ws))
      with (@nil Workout.t); [done|].
    symmetry. apply filter_none, Forall_forall.
    intros w [Hw _]%list_elem_of_filter Heq. congruence.
  - rewrite filter_filter_impl by (intros w <-; done).
    rewrite (filter_valid_ext _ (fun w => dateStrOf w = Some d) (valid parseDate) ws Hv)
      by (intros; by apply valid_theDate).
    destruct (filter _ ws) as [|w0 g] eqn:E; [done|].
    rewrite bucket_fold. f_equal.
Qed.

Lemma byDate_keys ws :
  Forall (valid parseDate) ws ->
  NoDup (Acc.byDate (accOf parseDate ws)).*1 /\
  forall d, d ∈ (Acc.byDate (accOf parseDate ws)).*1 <->
            inherited d = false /\ exists w, w ∈ ws /\ dateStrOf w = Some d.
Proof.
  intros Hv. simpl. rewrite addBucket_fold.
  split; [apply NoDup_groupFold|].
  intros d. rewrite elem_of_keys_groupFold. rewrite Forall_forall in Hv.
  split.
  - intros (w & [Hn Hw]%list_elem_of_filter & Hd). subst d. split; [done|].
    exists w. split; [done|]. by apply (valid_theDate w); auto.
  - intros (Hn & w & Hw & Hd). apply (valid_theDate w) in Hd; [|auto].
    exists w. split; [|done]. apply list_elem_of_filter. by rewrite Hd.
Qed.

End Trend.

(** C9 (as stated, refuted): two sessions of one calendar date whose start
    times are written with a [T] between date and time have no space in
    them; each is its own key, and the day has two entries. *)
Lemma C9_one_date_two_entries :
  exists r,
    processAnalytics localDate
      [session "Spin" 10 6 "2024-01-15T10:00:00" [] [];
       session "Spin" 10 4 "2024-01-15T18:00:00" [] []] = Return r /\
    TrendPoint.date <$> Report.dailyTrend r
      = ["2024-01-15T10:00:00"; "2024-01-15T18:00:00"] /\
    TrendPoint.classes <$> Report.dailyTrend r = [1; 1].
Proof. eexists. split; [vm_compute; reflexivity | split; reflexivity]. Qed.

(** C9 (amended): [dailyTrend] has exactly one entry for each distinct key
    occurring in the input, the key of a session being the text of its
    [startTime] before the first space (the calendar date, for the
    fixed-width form YYYY-MM-DD HH:MM:SS; the whole text when there is no
    space), a key that is the name of an inherited property excepted; the
    entries come in strictly ascending lexicographic order of the key, and
    each carries the number of sessions of that key, their total booked
    count and total capacity, and the attendance rate computed from those
    totals. *)
Theorem C9_daily_trend (parseDate : string -> option Date.t)
    (ws : list Workout.t) (r : Report.t) :
  processAnalytics parseDate ws = Return r ->
  NoDup (TrendPoint.date <$> Report.dailyTrend r) /\
  (forall d, d ∈ TrendPoint.date <$> Report.dailyTrend r <->
             inherited d = false /\
             exists w text, w ∈ ws /\ Workout.startTime w = Some text /\
                            split_head text = d) /\
  StronglySorted (fun a b => String.ltb a b = true)
    (TrendPoint.date <$> Report.dailyTrend r) /\
  Forall (fun e =>
            let g := filter (fun w => split_head <$> Workout.startTime w
                                      = Some (TrendPoint.date e)) ws in
            TrendPoint.classes e = N.of_nat (length g) /\
            TrendPoint.totalBooked e = sumN (bookedOf <$> g) /\
            TrendPoint.totalCapacity e = sumN (spaceOf <$> g) /\
            TrendPoint.attendanceRate e
              = rateOf (sumN (bookedOf <$> g)) (sumN (spaceOf <$> g)))
         (Report.dailyTrend r) /\
  (forall d t, (forall c, c ∈ list_ascii_of_string d -> c <> " "%char) ->
               split_head (d ++ " " ++ t)%string = d /\ split_head d = d).
Proof.
  intros [Hv ->]%processAnalytics_Return.
  destruct (byDate_keys parseDate ws Hv) as [Hnd Hkeys].
  assert (Hdates : TrendPoint.date <$> Report.dailyTrend (reportOf parseDate ws)
                   = sort (fun x y => String.ltb y x)
                       (Obj.keys (Acc.byDate (accOf parseDate ws)))).
  { unfold reportOf, Report.dailyTrend. rewrite <- list_fmap_compose.
    generalize (sort (fun x y => String.ltb y x) (Obj.keys (Acc.byDate (accOf parseDate ws)))).
    intros l. induction l; csimpl; [done|]. by f_equal. }
  assert (Hndk : NoDup (Obj.keys (Acc.byDate (accOf parseDate ws))))
    by (by rewrite keys_Permutation).
  split_and!.
  - rewrite Hdates. by rewrite sort_Permutation.
  - intros d. rewrite Hdates, sort_Permutation, keys_Permutation, Hkeys.
    unfold dateStrOf. split.
    + intros (Hn & w & Hw & Hd). split; [done|].
      destruct (Workout.startTime w) as [text|] eqn:E; [|done].
      injection Hd as <-. by exists w, text.
    + intros (Hn & w & text & Hw & Ht & <-). split; [done|]. exists w. by rewrite Ht.
  - rewrite Hdates. by apply sort_strings_ascending.
  - unfold reportOf, Report.dailyTrend. apply Forall_fmap, Forall_forall.
    intros d Hd. rewrite sort_Permutation, keys_Permutation in Hd.
    apply Hkeys in Hd as (Hn & w & Hw & Hwd).
    assert (Hg : Obj.get d (Acc.byDate (accOf parseDate ws)) =
                 Some (Bucket.mk
                         (N.of_nat (length (filter (fun w => dateStrOf w = Some d) ws)))
                         (sumN (bookedOf <$> filter (fun w => dateStrOf w = Some d) ws))
                         (sumN (spaceOf <$> filter (fun w => dateStrOf w = Some d) ws)))).
    { rewrite byDate_get, Hn by done.
      assert (Hin : w ∈ filter (fun w => dateStrOf w = Some d) ws)
        by (by apply list_elem_of_filter).
      destruct (filter (fun w => dateStrOf w = Some d) ws) as [|w0 g] eqn:E;
        [by apply elem_of_nil in Hin | done]. }
    unfold compose. cbv beta. rewrite Hg. done.
  - intros d t Hd. split; [by apply split_head_date|].
    clear t. induction d as [|c d IH]; simpl; [done|].
    destruct (Ascii.eqb c " ") eqn:E.
    + apply Ascii.eqb_eq in E. exfalso. apply (Hd c); [left | done].
    + f_equal. apply IH. intros c' Hc'. apply Hd. simpl. by right.
Qed.

Lemma C9_daily_trend_witness :
  processAnalytics localDate demo = Return (reportOf localDate demo) /\
  NoDup (TrendPoint.date <$> Report.dailyTrend (reportOf localDate demo)) /\
  TrendPoint.date <$> Report.dailyTrend (reportOf localDate demo)
    = ["2024-01-15"; "2024-01-16"] /\
  TrendPoint.classes <$> Report.dailyTrend (reportOf localDate demo) = [2; 1].
Proof.
  assert (H : processAnalytics localDate demo = Return (reportOf localDate demo)).
  { vm_compute. reflexivity. }
  split; [exact H|].
  split; [exact (proj1 (C9_daily_trend localDate demo _ H)) | split; reflexivity].
Defined.

(** ** Class types *)

Lemma typeBucket_fold (g : list Workout.t) (b : TypeBucket.t) :
  foldl (fun t w => TypeBucket.mk (TypeBucket.name t) (TypeBucket.color t)
                      (TypeBucket.classes t + 1) (TypeBucket.totalBooked t + bookedOf w)
                      (TypeBucket.totalCapacity t + spaceOf w)
                      (TypeBucket.bookings t ++ [bookingRate (bookedOf w) (spaceOf w)])) b g =
  TypeBucket.mk (TypeBucket.name b) (TypeBucket.color b)
    (TypeBucket.classes b + N.of_nat (length g))
    (TypeBucket.totalBooked b + sumN (bookedOf <$> g))
    (TypeBucket.totalCapacity b + sumN (spaceOf <$> g))
    (TypeBucket.bookings b ++ ((fun w => bookingRate (bookedOf w) (spaceOf w)) <$> g)).
Proof.
  induction g as [|w g IH] using rev_ind.
  - destruct b. simpl. unfold sumN. simpl. rewrite app_nil_r. f_equal; lia.
  - rewrite foldl_app, IH, !fmap_app, length_app. simpl.
    rewrite !sumN_snoc, <- app_assoc. f_equal; lia.
Qed.

Lemma users_fold (g : list Workout.t) (s : gset Z) :
  foldl addUsers s g = list_to_set (g ≫= userIdsOf) ∪ s.
Proof.
  revert s. induction g as [|w g IH]; intros s; simpl.
  - set_solver.
  - rewrite IH. unfold addUsers. set_solver.
Qed.

Section Types.
Context (parseDate : string -> option Date.t).

Lemma byType_closed ws k :
  Obj.get k (Acc.byType (accOf parseDate ws)) =
  match groupOf typeNameOf k ws with
  | [] => None
  | w0 :: g =>
      Some (TypeBucket.mk k (colorOf w0)
              (N.of_nat (length (w0 :: g)))
              (sumN (bookedOf <$> w0 :: g))
              (sumN (spaceOf <$> w0 :: g))
              ((fun w => bookingRate (bookedOf w) (spaceOf w)) <$> w0 :: g))
  end.
Proof.
  simpl Acc.byType. unfold freshType, countType.
  rewrite get_groupFold.
  destruct (groupOf typeNameOf k ws) as [|w0 g] eqn:E; [done|].
  assert (Hk : typeNameOf w0 = k).
  { assert (Hin : w0 ∈ groupOf typeNameOf k ws) by (rewrite E; left).
    by apply list_elem_of_filter in Hin as [? _]. }
  rewrite typeBucket_fold. simpl. rewrite Hk. f_equal.
Qed.

Lemma usersByType_closed ws k :
  Obj.get k (Acc.uniqueUsersByType (accOf parseDate ws)) =
  match groupOf typeNameOf k ws with
  | [] => None
  | w0 :: g => Some (list_to_set ((w0 :: g) ≫= userIdsOf))
  end.
Proof.
  simpl Acc.uniqueUsersByType. rewrite get_groupFold.
  destruct (groupOf typeNameOf k ws) as [|w0 g]; [done|].
  rewrite users_fold. f_equal. set_solver.
Qed.

Lemma byType_wf ws :
  NoDup (Acc.byType (accOf parseDate ws)).*1 /\
  Forall (fun e => TypeBucket.name e.2 = e.1) (Acc.byType (accOf parseDate ws)).
Proof.
  split.
  - simpl. apply NoDup_groupFold.
  - assert (Hnd : NoDup (Acc.byType (accOf parseDate ws)).*1).
    { simpl. apply NoDup_groupFold. }
    apply Forall_forall. intros [k b] Hkb. apply elem_get in Hkb; [|done].
    rewrite byType_closed in Hkb.
    destruct (groupOf typeNameOf k ws); [done|]. by injection Hkb as <-.
Qed.

(** Every entry of [byType] comes from the bucket of its own name. *)
Lemma elem_of_typeStats ws e :
  e ∈ typeStats (accOf parseDate ws) ->
  exists b, Obj.get (TypeStat.name e) (Acc.byType (accOf parseDate ws)) = Some b /\
            e = typeStat (Acc.uniqueUsersByType (accOf parseDate ws)) b.
Proof.
  unfold typeStats. rewrite sort_Permutation, values_Permutation.
  intros (b & -> & Hb)%list_elem_of_fmap.
  apply list_elem_of_fmap in Hb as ([k b'] & -> & Hkb). simpl.
  destruct (byType_wf ws) as [Hnd Hname].
  rewrite Forall_forall in Hname. pose proof (Hname _ Hkb) as Hk. simpl in Hk.
  exists b'. split; [|done]. rewrite Hk. by apply elem_get.
Qed.

End Types.

(** C5: for every entry of [byType], over the sessions of that type:
    the entry keeps their individual booking ratios (each 0 when the
    capacity is 0, else booked / capacity * 100, a finite number two
    roundings away from the exact percentage); [avgBookingRate] is the mean
    of those ratios (their sum, added up in the order of the sessions,
    divided by their number) to one decimal: a decimal text, which is the
    exact mean of the exact ratios rounded to a tenth, up to the roundings
    of the n + 3 operations on n sessions; and [attendanceRate] is the ratio
    of the summed booked counts over the summed capacities.  For two
    sessions of one type with capacities 10 and 5 and booked 10 and 0 the
    report shows attendanceRate "66.7" and avgBookingRate "50.0". *)
Theorem C5_mean_of_ratios (parseDate : string -> option Date.t)
    (ws : list Workout.t) (r : Report.t) :
  processAnalytics parseDate ws = Return r ->
  Forall (fun e =>
            let g := filter (fun w => typeNameOf w = TypeStat.name e) ws in
            g <> [] /\
            TypeStat.bookings e = (fun w => bookingRate (bookedOf w) (spaceOf w)) <$> g /\
            TypeStat.avgBookingRate e
              = toFixed1
                  (divide
                     (reduceSum ((fun w => bookingRate (bookedOf w) (spaceOf w)) <$> g))
                     (Finite (num (N.of_nat (length g))))) /\
            (exists t, TypeStat.avgBookingRate e = Fixed1 t /\
                       tenthWithin (length g + 3) (exactMean g) t) /\
            TypeStat.attendanceRate e
              = rateOf (sumN (bookedOf <$> g)) (sumN (spaceOf <$> g)))
         (Report.byType r) /\
  (forall booked, bookingRate booked 0 = Finite 0) /\
  (forall booked space, 0 < space -> bookingRate booked space = percent booked space) /\
  (forall w, exists q,
      bookingRate (bookedOf w) (spaceOf w) = Finite q /\
      (exactRatio w * shrink 2 <= q /\ q <= exactRatio w * growth 2)%Q) /\
  (forall w1 w2 r',
      typeNameOf w1 = typeNameOf w2 ->
      spaceOf w1 = 10 -> bookedOf w1 = 10 -> spaceOf w2 = 5 -> bookedOf w2 = 0 ->
      processAnalytics parseDate [w1; w2] = Return r' ->
      (render ∘ TypeStat.attendanceRate) <$> Report.byType r' = ["66.7"] /\
      (render ∘ TypeStat.avgBookingRate) <$> Report.byType r' = ["50.0"]).
Proof.
  intros [Hv ->]%processAnalytics_Return. split_and!.
  - apply Forall_forall. intros e He.
    change (Report.byType (reportOf parseDate ws)) with (typeStats (accOf parseDate ws)) in He.
    apply elem_of_typeStats in He as (b & Hb & ->).
    remember (TypeStat.name (typeStat (Acc.uniqueUsersByType (accOf parseDate ws)) b))
      as k eqn:Hk.
    rewrite byType_closed in Hb. unfold groupOf in Hb. cbv zeta.
    destruct (filter (fun w => typeNameOf w = k) ws) as [|w0 g] eqn:E; [done|].
    injection Hb as <-.
    assert (Havg : TypeStat.avgBookingRate
                     (typeStat (Acc.uniqueUsersByType (accOf parseDate ws))
                        (TypeBucket.mk k (colorOf w0) (N.of_nat (length (w0 :: g)))
                           (sumN (bookedOf <$> w0 :: g)) (sumN (spaceOf <$> w0 :: g))
                           ((fun w => bookingRate (bookedOf w) (spaceOf w)) <$> w0 :: g)))
                   = toFixed1
                       (divide
                          (reduceSum ((fun w => bookingRate (bookedOf w) (spaceOf w))
                                        <$> w0 :: g))
                          (Finite (num (N.of_nat (length (w0 :: g))))))).
    { simpl. by rewrite length_fmap. }
    split_and!; [done | done | exact Havg | | done].
    destruct (avgBookingRate_near (w0 :: g)) as (t & Ht & Hw); [done|].
    exists t. split; [|exact Hw]. rewrite <- Ht. exact Havg.
  - done.
  - intros booked space Hs. unfold bookingRate. apply N.ltb_lt in Hs. by rewrite Hs.
  - intros w. exists (ratioQ w). split; [apply bookingRate_ratioQ | apply ratioQ_near].
  - intros w1 w2 r' Hk Hs1 Hb1 Hs2 Hb2 [_ ->]%processAnalytics_Return.
    assert (Hl : exists t, Report.byType (reportOf parseDate [w1; w2]) = [t] /\
                           TypeStat.attendanceRate t = rateOf 10 15 /\
                           TypeStat.avgBookingRate t
                             = toFixed1 (divide (reduceSum [bookingRate 10 10; bookingRate 0 5])
                                                (Finite (num 2)))).
    { unfold reportOf, Report.byType, typeStats, Obj.values, Obj.entries.
      simpl Acc.byType. unfold groupStep at 2. simpl Obj.get. simpl Obj.set.
      unfold groupStep. simpl Obj.get. rewrite Hk, decide_True by done.
      simpl. rewrite decide_True by done. simpl.
      unfold countType, freshType. cbn [TypeBucket.classes TypeBucket.totalBooked
        TypeBucket.totalCapacity TypeBucket.bookings TypeBucket.name TypeBucket.color].
      rewrite Hs1, Hb1, Hs2, Hb2.
      rewrite !filter_cons, !filter_nil. simpl fst.
      repeat case_decide; try tauto; simpl; (eexists; split; [reflexivity|]; by split). }
    destruct Hl as (t & -> & Hr & Ha). csimpl. unfold compose. rewrite Hr, Ha.
    split; vm_compute; reflexivity.
Qed.

Lemma C5_mean_of_ratios_witness :
  processAnalytics localDate demo = Return (reportOf localDate demo) /\
  processAnalytics localDate
    [session "Spin" 10 10 "2024-01-15 18:00:00" [] [];
     session "Spin" 5 0 "2024-01-16 07:30:00" [] []]
  = Return (reportOf localDate
      [session "Spin" 10 10 "2024-01-15 18:00:00" [] [];
       session "Spin" 5 0 "2024-01-16 07:30:00" [] []]) /\
  (render ∘ TypeStat.attendanceRate) <$> Report.byType (reportOf localDate
      [session "Spin" 10 10 "2024-01-15 18:00:00" [] [];
       session "Spin" 5 0 "2024-01-16 07:30:00" [] []]) = ["66.7"] /\
  (render ∘ TypeStat.avgBookingRate) <$> Report.byType (reportOf localDate
      [session "Spin" 10 10 "2024-01-15 18:00:00" [] [];
       session "Spin" 5 0 "2024-01-16 07:30:00" [] []]) = ["50.0"].
Proof.
  assert (H : processAnalytics localDate demo = Return (reportOf localDate demo)).
  { vm_compute. reflexivity. }
  assert (H2 : processAnalytics localDate
                 [session "Spin" 10 10 "2024-01-15 18:00:00" [] [];
                  session "Spin" 5 0 "2024-01-16 07:30:00" [] []]
               = Return (reportOf localDate
                 [session "Spin" 10 10 "2024-01-15 18:00:00" [] [];
                  session "Spin" 5 0 "2024-01-16 07:30:00" [] []])).
  { vm_compute. reflexivity. }
  split; [exact H|]. split; [exact H2|].
  destruct (C5_mean_of_ratios localDate demo _ H) as (_ & _ & _ & _ & Hex).
  exact (Hex (session "Spin" 10 10 "2024-01-15 18:00:00" [] [])
             (session "Spin" 5 0 "2024-01-16 07:30:00" [] []) _
             eq_refl eq_refl eq_refl eq_refl eq_refl H2).
Defined.

(** ** Rates *)

Lemma show_digit t : String.length (show (t mod 10)) = 1%nat.
Proof.
  assert (Hlt : t mod 10 < 10) by (by apply N.mod_lt).
  revert Hlt. generalize (t mod 10). intros m Hlt.
  assert (Hc : m = 0 \/ m = 1 \/ m = 2 \/ m = 3 \/ m = 4 \/ m = 5 \/ m = 6 \/ m = 7 \/
               m = 8 \/ m = 9) by lia.
  destruct_or!; rewrite Hc; reflexivity.
Qed.

Section BucketGet.
Context {K : Type} `{EqDecision K}.
Context (R : Workout.t -> Prop) (key : Workout.t -> K) (okey : Workout.t -> option K).
Context (Hkey : forall w k, R w -> key w = k <-> okey w = Some k).

Lemma addBucket_get ws k :
  Forall R ws ->
  default (Bucket.mk 0 0 0)
    (Obj.get k (foldl (fun d w => addBucket (fun _ => false) (key w) (bookedOf w) (spaceOf w) d)
                      [] ws)) =
  Bucket.mk (N.of_nat (length (filter (fun w => okey w = Some k) ws)))
    (sumN (bookedOf <$> filter (fun w => okey w = Some k) ws))
    (sumN (spaceOf <$> filter (fun w => okey w = Some k) ws)).
Proof.
  intros Hv.
  erewrite foldl_ext_eq by (intros; apply (addBucket_groupStep key)).
  rewrite get_groupFold. unfold groupOf.
  rewrite (filter_valid_ext _ (fun w => okey w = Some k) R ws Hv)
    by (intros; by apply Hkey).
  destruct (filter _ ws) as [|w0 g] eqn:E; [done|].
  rewrite bucket_fold. simpl. f_equal.
Qed.

End BucketGet.

Section Rates.
Context (parseDate : string -> option Date.t).

Lemma valid_theDay w i : valid parseDate w -> theDay parseDate w = i <-> dayOf parseDate w = Some i.
Proof.
  unfold valid, dated, theDay, dayOf. destruct (dateOf parseDate w); simpl; [|by intros []].
  intros _. split; congruence.
Qed.

Lemma valid_theHour w h :
  valid parseDate w -> theHour parseDate w = h <-> hourOf parseDate w = Some h.
Proof.
  unfold valid, dated, theHour, hourOf. destruct (dateOf parseDate w); simpl; [|by intros []].
  intros _. split; congruence.
Qed.

Lemma byDayOfWeek_closed ws i :
  (i < 7)%nat ->
  Forall (valid parseDate) ws ->
  Acc.byDayOfWeek (accOf parseDate ws) !! i =
  Some (dayEntryOf <$> filter (fun w => dayOf parseDate w = Some i) ws).
Proof.
  intros Hi. induction ws as [|w ws IH] using rev_ind; intros Hv.
  - simpl. do 7 (destruct i as [|i]; [reflexivity|]). lia.
  - apply Forall_app in Hv as [Hv Hw]. rewrite Forall_singleton in Hw.
    pose proof (length_byDayOfWeek parseDate ws) as Hl.
    specialize (IH Hv). simpl in IH, Hl |- *. rewrite foldl_app. simpl.
    change (pushDay parseDate ?d w) with
      (<[theDay parseDate w := default [] (d !! theDay parseDate w) ++ [dayEntryOf w]]> d).
    rewrite filter_app, filter_cons, filter_nil.
    destruct (decide (theDay parseDate w = i)) as [Hd|Hd].
    + rewrite Hd, list_lookup_insert_eq by lia. rewrite IH. simpl.
      apply (valid_theDay w i Hw) in Hd. rewrite decide_True by done.
      by rewrite fmap_app.
    + rewrite list_lookup_insert_ne by done. rewrite IH.
      rewrite decide_False; [by rewrite app_nil_r|].
      intros Hd'. apply Hd. by apply (valid_theDay w i Hw).
Qed.

End Rates.

(** Two nearest tenths of one quotient are the same, or the two neighbours
    of a quotient that lies half-way between them. *)
Lemma nearestTenth_unique scale x den t t' :
  0 < den -> nearestTenth scale x den t -> nearestTenth scale x den t' ->
  t = t' \/ ((t' = t + 1 \/ t = t' + 1) /\ 2 * scale * x = den * (t + t')).
Proof. unfold nearestTenth. intros Hden [H1 H2] [H3 H4]. nia. Qed.

(** C3: every rate of the report is the number literal 0 when its
    denominator is 0 and otherwise a text with exactly one decimal digit,
    never "NaN" or "Infinity"; the text is the percentage rounded to a
    nearest tenth (66.7 for 10 of 15).  This holds of the three rates of the
    summary, of the attendance rate of every entry of byType, byDay, byHour,
    byInstructor and dailyTrend, each taken over the sessions the entry
    stands for, and of the average booking rate of every type, whose
    denominator (the number of sessions of the type) is never 0 and which
    is the mean of the sessions' ratios rounded to a tenth. *)
Theorem C3_rates (parseDate : string -> option Date.t)
    (ws : list Workout.t) (r : Report.t) :
  processAnalytics parseDate ws = Return r ->
  (rateSpec (sumN (bookedOf <$> ws)) (sumN (spaceOf <$> ws))
            (Summary.overallAttendanceRate (Report.summary r)) /\
   rateSpec (N.of_nat (length (filter (fun w => 0 < spaceOf w /\ spaceOf w <= bookedOf w) ws)))
            (N.of_nat (length ws))
            (Summary.fullyBookedRate (Report.summary r)) /\
   rateSpec (N.of_nat (length (filter (fun w => bookedOf w = 0) ws)))
            (N.of_nat (length ws))
            (Summary.emptyRate (Report.summary r))) /\
  Forall (fun e =>
            let g := filter (fun w => typeNameOf w = TypeStat.name e) ws in
            rateSpec (sumN (bookedOf <$> g)) (sumN (spaceOf <$> g))
                     (TypeStat.attendanceRate e) /\
            g <> [] /\
            exists t, TypeStat.avgBookingRate e = Fixed1 t /\
                      tenthWithin (length g + 3) (exactMean g) t)
         (Report.byType r) /\
  (forall i e, Report.byDay r !! i = Some e ->
     let g := filter (fun w => dayOf parseDate w = Some i) ws in
     rateSpec (sumN (bookedOf <$> g)) (sumN (spaceOf <$> g)) (DayStat.attendanceRate e)) /\
  Forall (fun e =>
            let g := filter (fun w => hourOf parseDate w = Some (HourStat.hour e)) ws in
            rateSpec (sumN (bookedOf <$> g)) (sumN (spaceOf <$> g))
                     (HourStat.attendanceRate e))
         (Report.byHour r) /\
  Forall (fun e =>
            let n := InstructorStat.name e in
            rateSpec (sumN ((fun w => staffCount n w * bookedOf w) <$> ws))
                     (sumN ((fun w => staffCount n w * spaceOf w) <$> ws))
                     (InstructorStat.attendanceRate e))
         (Report.byInstructor r) /\
  Forall (fun e =>
            let g := filter (fun w => split_head <$> Workout.startTime w
                                      = Some (TrendPoint.date e)) ws in
            rateSpec (sumN (bookedOf <$> g)) (sumN (spaceOf <$> g))
                     (TrendPoint.attendanceRate e))
         (Report.dailyTrend r) /\
  (forall scale x den t t',
     0 < den -> nearestTenth scale x den t -> nearestTenth scale x den t' ->
     t = t' \/ ((t' = t + 1 \/ t = t' + 1) /\ 2 * scale * x = den * (t + t'))) /\
  (forall t, render (Fixed1 t) = (show (t / 10) ++ "." ++ show (t mod 10))%string /\
             String.length (show (t mod 10)) = 1%nat) /\
  render (rateOf 10 15) = "66.7" /\ render (rateOf 5 10) = "50.0" /\
  render (rateOf 23 80) = "28.7" /\ render (rateOf 10 0) = "0".
Proof.
  intros [Hv ->]%processAnalytics_Return. split_and!.
  - apply rateOf_spec.
  - apply rateOf_spec.
  - apply rateOf_spec.
  - apply Forall_forall. intros e He.
    change (Report.byType (reportOf parseDate ws)) with (typeStats (accOf parseDate ws)) in He.
    apply elem_of_typeStats in He as (b & Hb & ->).
    remember (TypeStat.name (typeStat (Acc.uniqueUsersByType (accOf parseDate ws)) b))
      as k eqn:Hk.
    rewrite byType_closed in Hb. unfold groupOf in Hb. cbv zeta.
    destruct (filter (fun w => typeNameOf w = k) ws) as [|w0 g] eqn:E; [done|].
    injection Hb as <-.
    assert (Havg : TypeStat.avgBookingRate
                     (typeStat (Acc.uniqueUsersByType (accOf parseDate ws))
                        (TypeBucket.mk k (colorOf w0) (N.of_nat (length (w0 :: g)))
                           (sumN (bookedOf <$> w0 :: g)) (sumN (spaceOf <$> w0 :: g))
                           ((fun w => bookingRate (bookedOf w) (spaceOf w)) <$> w0 :: g)))
                   = toFixed1
                       (divide
                          (reduceSum ((fun w => bookingRate (bookedOf w) (spaceOf w))
                                        <$> w0 :: g))
                          (Finite (num (N.of_nat (length (w0 :: g))))))).
    { simpl. by rewrite length_fmap. }
    split_and!; [apply rateOf_spec | done |].
    destruct (avgBookingRate_near (w0 :: g)) as (t & Ht & Hw); [done|].
    exists t. split; [|exact Hw]. rewrite <- Ht. exact Havg.
  - intros i e Hie. unfold reportOf, Report.byDay in Hie.
    apply list_lookup_imap_Some in Hie as (name & Hname & ->).
    assert (Hi : (i < 7)%nat) by (by apply lookup_lt_Some in Hname).
    rewrite byDayOfWeek_closed by done. cbv zeta. simpl.
    rewrite <- !list_fmap_compose. apply rateOf_spec.
  - unfold reportOf, Report.byHour, hourStats. apply Forall_fmap, Forall_forall.
    intros h _. unfold compose. cbv zeta. unfold hourStat. simpl HourStat.hour.
    simpl HourStat.attendanceRate.
    pose proof (addBucket_get (valid parseDate) (theHour parseDate) (hourOf parseDate)
                  (valid_theHour parseDate) ws h Hv) as Hb.
    unfold from_option, id in Hb. simpl Acc.byHour. rewrite Hb. apply rateOf_spec.
  - apply Forall_forall. intros e He.
    change (Report.byInstructor (reportOf parseDate ws))
      with (instructorStats (accOf parseDate ws)) in He.
    apply elem_of_instructorStats in He as (b & Hb & ->).
    pose proof (byInstructor_listed parseDate ws _ _ Hb) as Hn.
    destruct (byInstructor_totals parseDate ws _ Hn) as (_ & H2 & H3).
    rewrite Hb in H2, H3. simpl in H2, H3. cbv zeta.
    cbn [instructorStat InstructorStat.attendanceRate InstructorStat.name] in *.
    rewrite <- H2, <- H3. apply rateOf_spec.
  - unfold reportOf, Report.dailyTrend. apply Forall_fmap, Forall_forall.
    intros d Hd. rewrite sort_Permutation, keys_Permutation in Hd.
    apply (byDate_keys parseDate ws Hv) in Hd as (Hn & w & Hw & Hwd).
    assert (Hg : Obj.get d (Acc.byDate (accOf parseDate ws)) =
                 Some (Bucket.mk
                         (N.of_nat (length (filter (fun w => dateStrOf w = Some d) ws)))
                         (sumN (bookedOf <$> filter (fun w => dateStrOf w = Some d) ws))
                         (sumN (spaceOf <$> filter (fun w => dateStrOf w = Some d) ws)))).
    { rewrite byDate_get, Hn by done.
      assert (Hin : w ∈ filter (fun w => dateStrOf w = Some d) ws)
        by (by apply list_elem_of_filter).
      destruct (filter (fun w => dateStrOf w = Some d) ws) as [|w0 g] eqn:E;
        [by apply elem_of_nil in Hin | done]. }
    unfold compose. cbv zeta. rewrite Hg. apply rateOf_spec.
  - apply nearestTenth_unique.
  - intros t. split; [done | apply show_digit].
  - vm_compute. reflexivity.
  - vm_compute. reflexivity.
  - vm_compute. reflexivity.
  - reflexivity.
Qed.

Lemma C3_rates_witness :
  processAnalytics localDate demo = Return (reportOf localDate demo) /\
  rateSpec 18 27 (Summary.overallAttendanceRate (Report.summary (reportOf localDate demo))) /\
  render (Summary.overallAttendanceRate (Report.summary (reportOf localDate demo))) = "66.7".
Proof.
  assert (H : processAnalytics localDate demo = Return (reportOf localDate demo)).
  { vm_compute. reflexivity. }
  split; [exact H|].
  split; [exact (proj1 (proj1 (C3_rates localDate demo _ H))) | vm_compute; reflexivity].
Defined.

(** ** Independence of the input order *)

Lemma foldl_add acc l : foldl N.add acc l = acc + sumN l.
Proof.
  revert acc. induction l as [|x l IH]; intros acc; simpl.
  - unfold sumN. simpl. lia.
  - unfold sumN. simpl. rewrite IH, (IH (0 + x)). lia.
Qed.

Lemma sumN_cons x l : sumN (x :: l) = x + sumN l.
Proof. unfold sumN at 1. simpl. rewrite foldl_add. lia. Qed.

Lemma sumN_Permutation l l' : l ≡ₚ l' -> sumN l = sumN l'.
Proof.
  induction 1 as [|x l l' _ IH|x y l|l l' l'' _ IH1 _ IH2].
  - done.
  - by rewrite !sumN_cons, IH.
  - rewrite !sumN_cons. lia.
  - congruence.
Qed.

Lemma foldl_Qplus acc l : (foldl Qplus acc l == acc + sumQ l)%Q.
Proof.
  revert acc. induction l as [|x l IH]; intros acc; simpl.
  - unfold sumQ. simpl. ring.
  - unfold sumQ. simpl. rewrite IH, (IH (0 + x)%Q). ring.
Qed.

Lemma sumQ_cons x l : (sumQ (x :: l) == x + sumQ l)%Q.
Proof. unfold sumQ at 1. simpl. rewrite foldl_Qplus. ring. Qed.

Lemma sumQ_Permutation l l' : l ≡ₚ l' -> (sumQ l == sumQ l')%Q.
Proof.
  induction 1 as [|x l l' _ IH|x y l|l l' l'' _ IH1 _ IH2].
  - reflexivity.
  - by rewrite !sumQ_cons, IH.
  - rewrite !sumQ_cons. ring.
  - by rewrite IH1.
Qed.

Lemma exactMean_Permutation g g' : g ≡ₚ g' -> (exactMean g == exactMean g')%Q.
Proof.
  intros Hp. unfold exactMean. rewrite (Permutation_length Hp).
  apply Qmult_comp; [|reflexivity].
  apply sumQ_Permutation. by apply fmap_Permutation.
Qed.

Lemma tenthWithin_Qeq k x y t : (x == y)%Q -> tenthWithin k x t -> tenthWithin k y t.
Proof. unfold tenthWithin. intros E [H1 H2]. rewrite E in H1, H2. by split. Qed.

(** Two dictionaries that agree, key by key, on a projection of their
    values list the same projections, in some order. *)
Lemma dict_Permutation {V1 V2 B} (f1 : V1 -> B) (f2 : V2 -> B)
    (d1 : list (string * V1)) (d2 : list (string * V2)) :
  NoDup d1.*1 -> NoDup d2.*1 ->
  (forall k, f1 <$> Obj.get k d1 = f2 <$> Obj.get k d2) ->
  f1 <$> d1.*2 ≡ₚ f2 <$> d2.*2.
Proof.
  intros H1 H2 Hget.
  assert (Hp : prod_map id f1 <$> d1 ≡ₚ prod_map id f2 <$> d2).
  { assert (Hmem : forall {V} (f : V -> B) (d : list (string * V)) k y,
              NoDup d.*1 ->
              (k, y) ∈ prod_map id f <$> d <-> f <$> Obj.get k d = Some y).
    { intros V f d k y Hnd. rewrite list_elem_of_fmap. split.
      - intros ([k' v] & [= -> ->] & Hin). by rewrite (elem_get _ _ _ Hnd Hin).
      - destruct (Obj.get k d) as [v|] eqn:E; [|done]. intros [= <-].
        exists (k, v). split; [done | by apply get_Some_elem]. }
    assert (Hnd : forall {V} (f : V -> B) (d : list (string * V)),
              NoDup d.*1 -> NoDup (prod_map id f <$> d)).
    { intros V f d Hd. apply (NoDup_fmap_1 fst).
      rewrite <- list_fmap_compose.
      replace (fst ∘ prod_map id f) with (@fst string V); [done|].
      done. }
    apply NoDup_Permutation; [by apply Hnd | by apply Hnd |].
    intros [k y]. rewrite !Hmem by done. by rewrite Hget. }
  apply (fmap_Permutation snd) in Hp. rewrite <- !list_fmap_compose in Hp.
  by rewrite <- !list_fmap_compose.
Qed.

(** Two descending rankings of the same figures show the same sequence of
    rates. *)
Lemma ranked_rates {A B} (rate : A -> stat) (fig : A -> B) (rateOfFig : B -> stat)
    (l1 l2 : list A) :
  (forall a, rateOfFig (fig a) = rate a) ->
  fig <$> l1 ≡ₚ fig <$> l2 ->
  byRateDesc rate l1 -> byRateDesc rate l2 ->
  (parseFloat10 ∘ rate) <$> l1 = (parseFloat10 ∘ rate) <$> l2.
Proof.
  intros Hfig Hp Hs1 Hs2.
  apply (StronglySorted_unique_strong (fun a b => b <= a)).
  - intros x1 x2 _ _ ? ?. lia.
  - unfold byRateDesc in Hs1. eapply StronglySorted_fmap; [|exact Hs1]. by intros x y H.
  - unfold byRateDesc in Hs2. eapply StronglySorted_fmap; [|exact Hs2]. by intros x y H.
  - apply (fmap_Permutation (parseFloat10 ∘ rateOfFig)) in Hp.
    rewrite <- !list_fmap_compose in Hp.
    erewrite (list_fmap_ext _ (parseFloat10 ∘ rate) l1) in Hp
      by (intros; unfold compose; by rewrite Hfig).
    erewrite (list_fmap_ext _ (parseFloat10 ∘ rate) l2) in Hp
      by (intros; unfold compose; by rewrite Hfig).
    exact Hp.
Qed.

Lemma StronglySorted_weaken {A} (R R' : A -> A -> Prop) (l : list A) :
  (forall x y, R x y -> R' x y) -> StronglySorted R l -> StronglySorted R' l.
Proof.
  intros HR. induction 1 as [|x l Hs IH Hx]; constructor; [done|].
  eapply Forall_impl; [exact Hx | by intros; apply HR].
Qed.

Lemma sort_byRateDesc {A} (rate : A -> stat) (l : list A) :
  byRateDesc rate (sort (fun x y => parseFloat10 (rate x) <? parseFloat10 (rate y)) l).
Proof.
  unfold byRateDesc.
  eapply StronglySorted_weaken; [|apply sort_sorted].
  - intros a b H. simpl in H. by apply N.ltb_ge in H.
  - intros x y H. apply N.ltb_lt in H. apply N.ltb_ge. lia.
  - intros x y z H1 H2. apply N.ltb_ge in H1, H2. apply N.ltb_ge. lia.
Qed.

Lemma typeFiguresOf_Permutation k g g' :
  g ≡ₚ g' -> typeFiguresOf k g = typeFiguresOf k g'.
Proof.
  intros Hp. unfold typeFiguresOf.
  destruct g as [|w0 g]; [by apply Permutation_nil_l in Hp as <-|].
  destruct g' as [|w0' g']; [by apply Permutation_nil_r in Hp|].
  cbv zeta.
  rewrite (Permutation_length Hp).
  rewrite (sumN_Permutation _ _ (fmap_Permutation bookedOf _ _ Hp)).
  rewrite (sumN_Permutation _ _ (fmap_Permutation spaceOf _ _ Hp)).
  assert (Hu : (list_to_set ((w0 :: g) ≫= userIdsOf) : gset Z)
               = list_to_set ((w0' :: g') ≫= userIdsOf)) by (by rewrite Hp).
  by rewrite Hu.
Qed.

Lemma instructorFiguresOf_Permutation n ws ws' :
  ws ≡ₚ ws' -> instructorFiguresOf n ws = instructorFiguresOf n ws'.
Proof.
  intros Hp. unfold instructorFiguresOf.
  rewrite (sumN_Permutation _ _ (fmap_Permutation (staffCount n) _ _ Hp)).
  rewrite (sumN_Permutation _ _
             (fmap_Permutation (fun w => staffCount n w * bookedOf w) _ _ Hp)).
  rewrite (sumN_Permutation _ _
             (fmap_Permutation (fun w => staffCount n w * spaceOf w) _ _ Hp)).
  done.
Qed.

Section Order.
Context (parseDate : string -> option Date.t).

Lemma typeFigures_closed ws k :
  (typeFigures ∘ typeStat (Acc.uniqueUsersByType (accOf parseDate ws)))
    <$> Obj.get k (Acc.byType (accOf parseDate ws))
  = typeFiguresOf k (groupOf typeNameOf k ws).
Proof.
  rewrite byType_closed. pose proof (usersByType_closed parseDate ws k) as Hu.
  destruct (groupOf typeNameOf k ws) as [|w0 g]; [done|].
  unfold typeFiguresOf. cbn [fmap option_fmap option_map]. f_equal.
  unfold compose, typeFigures, typeStat.
  cbn [TypeStat.name TypeStat.classes TypeStat.totalBooked TypeStat.totalCapacity
       TypeStat.avgAttendance TypeStat.attendanceRate
       TypeStat.uniqueParticipants TypeBucket.name TypeBucket.classes
       TypeBucket.totalBooked TypeBucket.totalCapacity TypeBucket.bookings].
  rewrite Hu. reflexivity.
Qed.

Lemma instructorFigures_closed ws n :
  (instructorFigures ∘ instructorStat) <$> Obj.get n (Acc.byInstructor (accOf parseDate ws))
  = instructorFiguresOf n ws.
Proof.
  destruct (inherited n) eqn:Hinh.
  { unfold instructorFiguresOf. rewrite Hinh. by rewrite byInstructor_inherited. }
  destruct (byInstructor_totals parseDate ws n Hinh) as (H1 & H2 & H3).
  destruct (byInstructor_wf parseDate ws) as [Hnd Hname].
  pose proof (byInstructor_pos parseDate ws) as Hpos.
  unfold instructorFiguresOf. rewrite Hinh. cbn [orb]. rewrite <- H1, <- H2, <- H3.
  destruct (Obj.get n (Acc.byInstructor (accOf parseDate ws))) as [b|] eqn:E; [|done].
  apply get_Some_elem in E.
  rewrite Forall_forall in Hname, Hpos.
  pose proof (Hname _ E) as Hn. pose proof (Hpos _ E) as Hp. simpl in Hn, Hp |- *.
  destruct (N.eqb_spec (InstructorBucket.classes b) 0) as [Hz|_]; [lia|].
  unfold compose, instructorFigures, instructorStat. simpl. by rewrite Hn.
Qed.

Context (ws1 ws2 : list Workout.t) (Hp : ws1 ≡ₚ ws2).
Context (Hv1 : Forall (valid parseDate) ws1) (Hv2 : Forall (valid parseDate) ws2).

Lemma summary_Permutation :
  summaryOf (accOf parseDate ws1) = summaryOf (accOf parseDate ws2).
Proof using Hp.
  unfold summaryOf, accOf.
  cbn [Acc.totalClasses Acc.totalBooked Acc.totalCapacity Acc.fullyBookedClasses
       Acc.emptyClasses Acc.allUniqueUsers].
  rewrite (Permutation_length Hp).
  rewrite (sumN_Permutation _ _ (fmap_Permutation bookedOf _ _ Hp)).
  rewrite (sumN_Permutation _ _ (fmap_Permutation spaceOf _ _ Hp)).
  assert (Hf : countN fullyBooked ws1 = countN fullyBooked ws2)
    by (unfold countN; by rewrite Hp).
  assert (He : countN isEmpty ws1 = countN isEmpty ws2)
    by (unfold countN; by rewrite Hp).
  assert (Hu : (list_to_set (ws1 ≫= userIdsOf) : gset Z) = list_to_set (ws2 ≫= userIdsOf))
    by (by rewrite Hp).
  by rewrite Hf, He, Hu.
Qed.

Lemma byDay_Permutation :
  Report.byDay (reportOf parseDate ws1) = Report.byDay (reportOf parseDate ws2).
Proof using Hp Hv1 Hv2.
  unfold reportOf, Report.byDay. apply imap_ext. intros i name Hi.
  apply lookup_lt_Some in Hi. change (length dayNames) with 7%nat in Hi.
  rewrite !byDayOfWeek_closed by done. simpl default.
  unfold dayStatOf. rewrite <- !list_fmap_compose, !length_fmap.
  assert (Hf : filter (fun w => dayOf parseDate w = Some i) ws1
               ≡ₚ filter (fun w => dayOf parseDate w = Some i) ws2) by (by rewrite Hp).
  rewrite (Permutation_length Hf).
  rewrite (sumN_Permutation _ _ (fmap_Permutation (DayEntry.booked ∘ dayEntryOf) _ _ Hf)).
  rewrite (sumN_Permutation _ _ (fmap_Permutation (DayEntry.capacity ∘ dayEntryOf) _ _ Hf)).
  done.
Qed.

Lemma bucket_Permutation {K} `{EqDecision K} (key : Workout.t -> K)
    (okey : Workout.t -> option K) k :
  (forall w k, valid parseDate w -> key w = k <-> okey w = Some k) ->
  default (Bucket.mk 0 0 0)
    (Obj.get k (foldl (fun d w => addBucket (fun _ => false) (key w) (bookedOf w) (spaceOf w) d)
                      [] ws1)) =
  default (Bucket.mk 0 0 0)
    (Obj.get k (foldl (fun d w => addBucket (fun _ => false) (key w) (bookedOf w) (spaceOf w) d)
                      [] ws2)).
Proof using Hp Hv1 Hv2.
  intros Hkey.
  rewrite !(addBucket_get (valid parseDate) key okey Hkey) by done.
  assert (Hf : filter (fun w => okey w = Some k) ws1
               ≡ₚ filter (fun w => okey w = Some k) ws2) by (by rewrite Hp).
  rewrite (Permutation_length Hf).
  rewrite (sumN_Permutation _ _ (fmap_Permutation bookedOf _ _ Hf)).
  rewrite (sumN_Permutation _ _ (fmap_Permutation spaceOf _ _ Hf)).
  done.
Qed.

Lemma byHour_Permutation :
  Report.byHour (reportOf parseDate ws1) = Report.byHour (reportOf parseDate ws2).
Proof using Hp Hv1 Hv2.
  unfold reportOf, Report.byHour, hourStats. apply list_fmap_ext. intros _ h _.
  pose proof (bucket_Permutation (theHour parseDate) (hourOf parseDate) h
                (valid_theHour parseDate)) as Hb.
  unfold hourStat, from_option, id in *. simpl Acc.byHour. by rewrite Hb.
Qed.

Lemma dailyTrend_Permutation :
  Report.dailyTrend (reportOf parseDate ws1) = Report.dailyTrend (reportOf parseDate ws2).
Proof using Hp Hv1 Hv2.
  unfold reportOf, Report.dailyTrend.
  destruct (byDate_keys parseDate ws1 Hv1) as [Hnd1 Hk1].
  destruct (byDate_keys parseDate ws2 Hv2) as [Hnd2 Hk2].
  assert (Hdates : sort (fun x y => String.ltb y x) (Obj.keys (Acc.byDate (accOf parseDate ws1)))
                 = sort (fun x y => String.ltb y x) (Obj.keys (Acc.byDate (accOf parseDate ws2)))).
  { apply (StronglySorted_unique_strong (fun a b => String.ltb a b = true)).
    - intros x1 x2 _ _ H1 H2. apply ltb_asym in H1. congruence.
    - apply sort_strings_ascending. by rewrite keys_Permutation.
    - apply sort_strings_ascending. by rewrite keys_Permutation.
    - rewrite !sort_Permutation, !keys_Permutation.
      apply NoDup_Permutation; [done..|].
      intros d. rewrite Hk1, Hk2. by setoid_rewrite Hp. }
  rewrite Hdates. apply list_fmap_ext. intros _ d _.
  rewrite !byDate_get by done.
  assert (Hf : filter (fun w => dateStrOf w = Some d) ws1
               ≡ₚ filter (fun w => dateStrOf w = Some d) ws2) by (by rewrite Hp).
  destruct (inherited d); [done|].
  destruct (filter (fun w => dateStrOf w = Some d) ws1) as [|w1 g1] eqn:E1;
    destruct (filter (fun w => dateStrOf w = Some d) ws2) as [|w2 g2] eqn:E2.
  - done.
  - by apply Permutation_nil_l in Hf.
  - by apply Permutation_nil_r in Hf.
  - cbv beta iota zeta. rewrite (Permutation_length Hf).
    rewrite (sumN_Permutation _ _ (fmap_Permutation bookedOf _ _ Hf)).
    rewrite (sumN_Permutation _ _ (fmap_Permutation spaceOf _ _ Hf)).
    done.
Qed.

Lemma byType_Permutation :
  typeFigures <$> Report.byType (reportOf parseDate ws1)
  ≡ₚ typeFigures <$> Report.byType (reportOf parseDate ws2).
Proof using Hp.
  unfold reportOf, Report.byType, typeStats.
  rewrite !sort_Permutation, !values_Permutation.
  rewrite <- !(list_fmap_compose (typeStat _) typeFigures).
  apply dict_Permutation; [apply byType_wf..|].
  intros k. rewrite !typeFigures_closed.
  apply typeFiguresOf_Permutation. unfold groupOf. by rewrite Hp.
Qed.

Lemma bookings_Permutation e1 e2 :
  e1 ∈ Report.byType (reportOf parseDate ws1) ->
  e2 ∈ Report.byType (reportOf parseDate ws2) ->
  TypeStat.name e1 = TypeStat.name e2 ->
  TypeStat.bookings e1 ≡ₚ TypeStat.bookings e2.
Proof using Hp.
  intros (b1 & Hb1 & ->)%elem_of_typeStats (b2 & Hb2 & ->)%elem_of_typeStats Hname.
  rewrite <- Hname in Hb2.
  remember (TypeStat.name (typeStat (Acc.uniqueUsersByType (accOf parseDate ws1)) b1))
    as k eqn:Hk. clear Hk Hname.
  rewrite byType_closed in Hb1, Hb2.
  assert (Hg : groupOf typeNameOf k ws1 ≡ₚ groupOf typeNameOf k ws2)
    by (unfold groupOf; by rewrite Hp).
  destruct (groupOf typeNameOf k ws1) as [|w1 g1]; [done|].
  destruct (groupOf typeNameOf k ws2) as [|w2 g2]; [done|].
  injection Hb1 as <-. injection Hb2 as <-.
  exact (fmap_Permutation (fun w => bookingRate (bookedOf w) (spaceOf w)) _ _ Hg).
Qed.

Lemma means_Permutation : sameMeans ws1 (reportOf parseDate ws1) (reportOf parseDate ws2).
Proof using Hp.
  intros e1 e2 (b1 & Hb1 & ->)%elem_of_typeStats (b2 & Hb2 & ->)%elem_of_typeStats Hname.
  rewrite <- Hname in Hb2.
  remember (TypeStat.name (typeStat (Acc.uniqueUsersByType (accOf parseDate ws1)) b1))
    as k eqn:Hk. clear Hk Hname.
  rewrite byType_closed in Hb1, Hb2. cbv zeta.
  assert (Hg : groupOf typeNameOf k ws1 ≡ₚ groupOf typeNameOf k ws2)
    by (unfold groupOf; by rewrite Hp).
  unfold groupOf in *.
  destruct (filter (fun w => typeNameOf w = k) ws1) as [|w1 g1]; [done|].
  destruct (filter (fun w => typeNameOf w = k) ws2) as [|w2 g2]; [done|].
  injection Hb1 as <-. injection Hb2 as <-.
  destruct (avgBookingRate_near (w1 :: g1)) as (t1 & Ht1 & Hw1); [done|].
  destruct (avgBookingRate_near (w2 :: g2)) as (t2 & Ht2 & Hw2); [done|].
  exists t1, t2. split_and!.
  - rewrite <- Ht1. simpl. by rewrite length_fmap.
  - rewrite <- Ht2. simpl. by rewrite length_fmap.
  - exact Hw1.
  - rewrite (Permutation_length Hg).
    eapply tenthWithin_Qeq; [|exact Hw2]. symmetry. by apply exactMean_Permutation.
Qed.

Lemma byType_ranked ws :
  byRateDesc TypeStat.attendanceRate (Report.byType (reportOf parseDate ws)).
Proof.
  change (Report.byType (reportOf parseDate ws)) with (typeStats (accOf parseDate ws)).
  rewrite typeStats_ranked. apply sort_byRateDesc.
Qed.

Lemma byInstructor_ranked ws :
  byRateDesc InstructorStat.attendanceRate (Report.byInstructor (reportOf parseDate ws)).
Proof.
  change (Report.byInstructor (reportOf parseDate ws))
    with (instructorStats (accOf parseDate ws)).
  rewrite instructorStats_ranked. apply sort_byRateDesc.
Qed.

Lemma byInstructor_Permutation :
  instructorFigures <$> Report.byInstructor (reportOf parseDate ws1)
  ≡ₚ instructorFigures <$> Report.byInstructor (reportOf parseDate ws2).
Proof using Hp.
  unfold reportOf, Report.byInstructor, instructorStats.
  rewrite !sort_Permutation, !values_Permutation.
  rewrite <- !(list_fmap_compose instructorStat instructorFigures).
  apply dict_Permutation; [apply byInstructor_wf..|].
  intros n. rewrite !instructorFigures_closed.
  by apply instructorFiguresOf_Permutation.
Qed.

Lemma sameFigures_Permutation :
  sameFigures (reportOf parseDate ws1) (reportOf parseDate ws2).
Proof using Hp Hv1 Hv2.
  unfold sameFigures. split_and!.
  - apply summary_Permutation.
  - apply byDay_Permutation.
  - apply byHour_Permutation.
  - apply dailyTrend_Permutation.
  - apply byType_Permutation.
  - apply (ranked_rates _ typeFigures (fun f => f.1.2)); [done| |apply byType_ranked..].
    apply byType_Permutation.
  - apply byType_ranked.
  - apply byType_ranked.
  - apply bookings_Permutation.
  - apply byInstructor_Permutation.
  - apply (ranked_rates _ instructorFigures (fun f => f.2)); [done| |apply byInstructor_ranked..].
    apply byInstructor_Permutation.
  - apply byInstructor_ranked.
  - apply byInstructor_ranked.
Qed.

End Order.

(** C6 (as stated, refuted): each class-type entry carries the list of the
    individual booking ratios of its sessions in input order, so swapping two
    sessions of one type changes the numbers found at each position of that
    list. *)
Lemma C6_bookings_follow_input_order :
  [spinFull; spinEmpty] ≡ₚ [spinEmpty; spinFull] /\
  exists r1 r2,
    processAnalytics localDate [spinFull; spinEmpty] = Return r1 /\
    processAnalytics localDate [spinEmpty; spinFull] = Return r2 /\
    TypeStat.bookings <$> Report.byType r1 = [[bookingRate 10 10; bookingRate 0 5]] /\
    TypeStat.bookings <$> Report.byType r2 = [[bookingRate 0 5; bookingRate 10 10]] /\
    render (toFixed1 (bookingRate 10 10)) = "100.0" /\
    render (toFixed1 (bookingRate 0 5)) = "0.0".
Proof.
  split; [apply Permutation_swap|].
  exists (reportOf localDate [spinFull; spinEmpty]), (reportOf localDate [spinEmpty; spinFull]).
  split_and!; vm_compute; reflexivity.
Qed.

(** The ratios 7 / 15, 7 / 16 and 1 / 3 do not add up to the same stored
    sum in every order: the average booking rate of the type reads 41.2
    or 41.3 according to the order of its sessions. *)
Example average_follows_input_order :
  exists a b c,
    thirds = [a; b; c] /\
    (render ∘ TypeStat.avgBookingRate) <$> Report.byType (reportOf localDate [a; b; c])
      = ["41.2"] /\
    (render ∘ TypeStat.avgBookingRate) <$> Report.byType (reportOf localDate [c; b; a])
      = ["41.3"] /\
    processAnalytics localDate [a; b; c] = Return (reportOf localDate [a; b; c]) /\
    processAnalytics localDate [c; b; a] = Return (reportOf localDate [c; b; a]).
Proof.
  eexists _, _, _. split; [reflexivity|]. split_and!; vm_compute; reflexivity.
Qed.

(** C6 (amended): on two orderings of the same sessions the function
    either raises on both or returns on both, and then the two reports
    agree on the summary, on byDay, byHour and dailyTrend, and on the
    numeric figures of the byType and byInstructor entries other than the
    average booking rate; the two lists are ranked in descending attendance
    rate with the same sequence of rates, so that only entries with equal
    rate may change places.  The list of individual ratios kept in a
    class-type entry is the same up to its order, and the average booking
    rate, the mean of that list summed in its order, is on both orders the
    exact mean rounded to a tenth, up to the roundings of the arithmetic. *)
Theorem C6_order_independence (parseDate : string -> option Date.t)
    (ws1 ws2 : list Workout.t) :
  ws1 ≡ₚ ws2 ->
  match processAnalytics parseDate ws1, processAnalytics parseDate ws2 with
  | Return r1, Return r2 => sameFigures r1 r2 /\ sameMeans ws1 r1 r2
  | Throw _, Throw _ => True
  | _, _ => False
  end.
Proof.
  intros Hp.
  destruct (processAnalytics parseDate ws1) as [r1|e1] eqn:E1;
    destruct (processAnalytics parseDate ws2) as [r2|e2] eqn:E2; [| | |done].
  - apply processAnalytics_Return in E1 as [Hv1 ->].
    apply processAnalytics_Return in E2 as [Hv2 ->].
    split; [by apply sameFigures_Permutation | by apply means_Permutation].
  - apply processAnalytics_Return in E1 as [Hv1 _].
    assert (Hv2 : Forall (valid parseDate) ws2) by (by rewrite <- Hp).
    assert (E : processAnalytics parseDate ws2 = Return (reportOf parseDate ws2))
      by (by apply processAnalytics_Return).
    congruence.
  - apply processAnalytics_Return in E2 as [Hv2 _].
    assert (Hv1 : Forall (valid parseDate) ws1) by (by rewrite Hp).
    assert (E : processAnalytics parseDate ws1 = Return (reportOf parseDate ws1))
      by (by apply processAnalytics_Return).
    congruence.
Qed.

Lemma C6_order_independence_witness :
  demo ≡ₚ [yogaClass; spinFull; spinEmpty] /\
  sameFigures (reportOf localDate demo) (reportOf localDate [yogaClass; spinFull; spinEmpty]).
Proof.
  assert (Hp : demo ≡ₚ [yogaClass; spinFull; spinEmpty]).
  { unfold demo. etrans; [apply perm_skip, Permutation_swap | apply Permutation_swap]. }
  split; [exact Hp|].
  pose proof (C6_order_independence localDate _ _ Hp) as H.
  assert (E1 : processAnalytics localDate demo = Return (reportOf localDate demo)).
  { vm_compute. reflexivity. }
  assert (E2 : processAnalytics localDate [yogaClass; spinFull; spinEmpty]
               = Return (reportOf localDate [yogaClass; spinFull; spinEmpty])).
  { vm_compute. reflexivity. }
  rewrite E1, E2 in H. exact (proj1 H).
Defined.

(** * Further properties of the aggregation *)

(** ** Where the function raises *)

(** X1: the function raises a TypeError exactly when some session of the
    input, wherever it stands, has no [startTime], or one that does not
    parse to a date with a weekday, or a type name that is the name of a
    property every object inherits; no report is produced for the other
    sessions in that case, and in every other case a report is returned. *)
Theorem X1_raises_exactly_on_undated (parseDate : string -> option Date.t)
    (ws : list Workout.t) :
  (processAnalytics parseDate ws = Throw TypeError <->
   exists w, w ∈ ws /\
     (Workout.startTime w = None \/
      (exists text, Workout.startTime w = Some text /\
         (parseDate text = None \/
          exists dt, parseDate text = Some dt /\ (7 <= Date.getDay dt)%nat)) \/
      inherited (typeNameOf w) = true)) /\
  (processAnalytics parseDate ws <> Throw TypeError ->
   exists r, processAnalytics parseDate ws = Return r).
Proof.
  assert (Hbad : forall w, ~ valid parseDate w <->
            (Workout.startTime w = None \/
             (exists text, Workout.startTime w = Some text /\
                (parseDate text = None \/
                 exists dt, parseDate text = Some dt /\ (7 <= Date.getDay dt)%nat)) \/
             inherited (typeNameOf w) = true)).
  { intros w. unfold valid, dated, dateOf.
    destruct (inherited (typeNameOf w)); [naive_solver|].
    destruct (Workout.startTime w) as [text|]; simpl; [|naive_solver].
    destruct (parseDate text) as [dt|] eqn:E.
    - split.
      + intros Hn. right. left. exists text. split; [done|]. right. exists dt.
        split; [done|]. destruct (decide (7 <= Date.getDay dt)%nat); [done|].
        exfalso. apply Hn. split; [lia | done].
      + intros [?|[(t & [= <-] & [?|(dt' & ? & ?)])|?]] [? _]; try congruence.
        assert (dt' = dt) as -> by congruence. lia.
    - split; [|tauto]. intros _. right. left. exists text. by split; [|left]. }
  split; [split|].
  - intros Ht.
    destruct (Forall_Exists_dec (valid parseDate) (fun w => ~ valid parseDate w)
                (valid_dec parseDate) ws) as [Hv|Hn].
    + assert (E : processAnalytics parseDate ws = Return (reportOf parseDate ws))
        by (by apply processAnalytics_Return).
      congruence.
    + apply Exists_exists in Hn as (w & Hw & Hbw). exists w. split; [done|].
      by apply Hbad.
  - intros (w & Hw & Hbw). apply processAnalytics_Throw.
    intros Hv. rewrite Forall_forall in Hv. apply (proj2 (Hbad w) Hbw). by apply Hv.
  - intros Hn. destruct (processAnalytics parseDate ws) as [r|[]]; [by exists r | done].
Qed.

(** ** Sums over the groupings *)

Lemma sumN_app l1 l2 : sumN (l1 ++ l2) = sumN l1 + sumN l2.
Proof.
  induction l1 as [|x l1 IH]; simpl.
  - unfold sumN at 2. simpl. lia.
  - rewrite !sumN_cons, IH. lia.
Qed.

Lemma sumN_set {K V} `{EqDecision K} (f : V -> N) (d : list (K * V)) k v :
  sumN (f <$> (Obj.set k v d).*2) + default 0 (f <$> Obj.get k d)
  = sumN (f <$> d.*2) + f v.
Proof.
  induction d as [|[k0 v0] d IH]; csimpl.
  - rewrite !sumN_cons. unfold sumN. simpl. lia.
  - case_decide; subst; csimpl.
    + rewrite !sumN_cons. lia.
    + rewrite !sumN_cons. lia.
Qed.

(** A measure that every element adds to, through the bucket of its key,
    sums over all buckets to the sum of the contributions. *)
Lemma sumN_groupFold {K V W} `{EqDecision K} (key : W -> K) (new : W -> V)
    (upd : V -> W -> V) (f : V -> N) (g : W -> N) (ws : list W) :
  (forall w, f (new w) = 0) ->
  (forall v w, f (upd v w) = f v + g w) ->
  sumN (f <$> (foldl (groupStep key new upd) [] ws).*2) = sumN (g <$> ws).
Proof.
  intros Hnew Hupd. induction ws as [|w ws IH] using rev_ind; [done|].
  rewrite foldl_app, fmap_app, sumN_app. simpl. unfold groupStep at 1.
  pose proof (sumN_set f (foldl (groupStep key new upd) [] ws) (key w)
                (upd (default (new w) (Obj.get (key w)
                   (foldl (groupStep key new upd) [] ws))) w)) as Hs.
  rewrite Hupd in Hs. rewrite IH in Hs.
  destruct (Obj.get (key w) (foldl (groupStep key new upd) [] ws)) as [v|]; simpl in Hs.
  - rewrite sumN_cons. unfold sumN at 3. simpl. lia.
  - rewrite Hnew in Hs. rewrite sumN_cons. unfold sumN at 3. simpl. lia.
Qed.

(** Reading the values of a dictionary through its keys. *)
Lemma fmap_get_keys {V B} (f : V -> B) (z : V) (d : list (string * V)) :
  NoDup d.*1 ->
  (fun k => f (default z (Obj.get k d))) <$> d.*1 = f <$> d.*2.
Proof.
  intros Hnd.
  assert (H : forall l, (forall e, e ∈ l -> e ∈ d) ->
            (fun k => f (default z (Obj.get k d))) <$> l.*1 = f <$> l.*2).
  { induction l as [|[k v] l IH]; intros Hl; csimpl; [done|].
    rewrite IH by (intros; apply Hl; by right).
    rewrite (elem_get d k v Hnd) by (apply Hl; left). done. }
  by apply H.
Qed.

Lemma sumN_const_one {A} (l : list A) : sumN ((fun _ => 1) <$> l) = N.of_nat (length l).
Proof.
  induction l as [|x l IH]; [done|]. csimpl. rewrite sumN_cons, IH. lia.
Qed.

(** Counting the elements whose key is one of a duplicate-free list of keys,
    key by key. *)
Lemma count_by_keys {A} (key : A -> option nat) (L : list nat) (l : list A) :
  NoDup L ->
  sumN ((fun k => N.of_nat (length (filter (fun x => key x = Some k) l))) <$> L)
  = N.of_nat (length (filter (fun x => key x ∈ Some <$> L) l)).
Proof.
  intros Hnd. induction l as [|x l IH].
  - replace ((fun k => N.of_nat (length (filter (fun x => key x = Some k) (@nil A)))) <$> L)
      with ((fun _ : nat => 0) <$> L) by (by apply list_fmap_ext).
    simpl. clear. induction L as [|k L IH]; [done|]. csimpl. rewrite sumN_cons. lia.
  - rewrite filter_cons.
    assert (Hstep : sumN ((fun k => N.of_nat (length (filter (fun x => key x = Some k) (x :: l)))) <$> L)
                    = sumN ((fun k => N.of_nat (length (filter (fun x => key x = Some k) l))) <$> L)
                      + (if decide (key x ∈ Some <$> L) then 1 else 0)).
    { clear IH. induction L as [|k L IHL]; csimpl.
      - unfold sumN. simpl. lia.
      - apply NoDup_cons in Hnd as [Hk HndL]. rewrite !sumN_cons, IHL by done.
        rewrite filter_cons.
        destruct (decide (key x = Some k)) as [Hx|Hx].
        + rewrite (decide_True (P := key x ∈ Some k :: (Some <$> L)))
            by (rewrite Hx; left).
          rewrite decide_False.
          * simpl length. lia.
          * rewrite Hx. intros (k' & [= <-] & Hk')%list_elem_of_fmap. done.
        + destruct (decide (key x ∈ Some <$> L)) as [He|He].
          * rewrite decide_True by (by right). lia.
          * rewrite decide_False; [lia|].
            intros [?|?]%elem_of_cons; done. }
    rewrite Hstep, IH. case_decide; simpl length; lia.
Qed.

Lemma fmap_name_keys {V E} (name : E -> string) (f : V -> E) (d : list (string * V)) :
  Forall (fun e => name (f e.2) = e.1) d -> (name ∘ f) <$> d.*2 = d.*1.
Proof.
  induction 1 as [|[k v] d Hk Hd IH]; [done|]. simpl in Hk.
  rewrite !fmap_cons. simpl. f_equal; [exact Hk | exact IH].
Qed.

Section Partitions.
Context (parseDate : string -> option Date.t).

Lemma byType_names ws :
  TypeStat.name <$> typeStats (accOf parseDate ws) ≡ₚ (Acc.byType (accOf parseDate ws)).*1.
Proof.
  unfold typeStats. rewrite sort_Permutation, values_Permutation.
  rewrite <- list_fmap_compose.
  rewrite (fmap_name_keys TypeStat.name); [done|].
  destruct (byType_wf parseDate ws) as [_ Hname].
  eapply Forall_impl; [exact Hname|]. by intros [k b].
Qed.

Lemma byType_sums ws (f : TypeStat.t -> N) (fb : TypeBucket.t -> N) (g : Workout.t -> N) :
  (forall uu b, f (typeStat uu b) = fb b) ->
  (forall w, fb (TypeBucket.mk (typeNameOf w) (colorOf w) 0 0 0 []) = 0) ->
  (forall t w, fb (TypeBucket.mk (TypeBucket.name t) (TypeBucket.color t)
                     (TypeBucket.classes t + 1) (TypeBucket.totalBooked t + bookedOf w)
                     (TypeBucket.totalCapacity t + spaceOf w)
                     (TypeBucket.bookings t ++ [bookingRate (bookedOf w) (spaceOf w)]))
               = fb t + g w) ->
  sumN (f <$> typeStats (accOf parseDate ws)) = sumN (g <$> ws).
Proof.
  intros Hf Hnew Hupd. unfold typeStats.
  rewrite (sumN_Permutation _ _
             (fmap_Permutation f _ _ (sort_Permutation _ _))).
  rewrite (sumN_Permutation _ _
             (fmap_Permutation f _ _
                (fmap_Permutation _ _ _ (values_Permutation _)))).
  rewrite <- list_fmap_compose.
  rewrite (list_fmap_ext _ fb) by (intros; unfold compose; apply Hf).
  simpl Acc.byType. unfold freshType, countType.
  by apply sumN_groupFold.
Qed.

Lemma bucket_sums (key : Workout.t -> string) ws
    (fb : Bucket.t -> N) (g : Workout.t -> N) :
  fb (Bucket.mk 0 0 0) = 0 ->
  (forall b w, fb (Bucket.mk (Bucket.classes b + 1) (Bucket.totalBooked b + bookedOf w)
                     (Bucket.totalCapacity b + spaceOf w)) = fb b + g w) ->
  sumN (fb <$> (foldl (fun d w => addBucket inherited (key w) (bookedOf w) (spaceOf w) d)
                      [] ws).*2)
  = sumN (g <$> filter (fun w => inherited (key w) = false) ws).
Proof.
  intros Hnew Hupd. rewrite addBucket_fold. by apply sumN_groupFold.
Qed.

Lemma dailyTrend_sums ws (f : TrendPoint.t -> N) (fb : Bucket.t -> N) (g : Workout.t -> N) :
  (forall b d, f (trendPointOf b d) = fb b) ->
  fb (Bucket.mk 0 0 0) = 0 ->
  (forall b w, fb (Bucket.mk (Bucket.classes b + 1) (Bucket.totalBooked b + bookedOf w)
                     (Bucket.totalCapacity b + spaceOf w)) = fb b + g w) ->
  Forall (valid parseDate) ws ->
  sumN (f <$> Report.dailyTrend (reportOf parseDate ws))
  = sumN (g <$> filter dateListed ws).
Proof.
  intros Hf Hnew Hupd Hv. unfold reportOf, Report.dailyTrend.
  rewrite <- list_fmap_compose.
  rewrite (list_fmap_ext _ (fun k => fb (default (Bucket.mk 0 0 0)
                                           (Obj.get k (Acc.byDate (accOf parseDate ws))))))
    by (intros; unfold compose; apply Hf).
  assert (Hnd : NoDup (Acc.byDate (accOf parseDate ws)).*1).
  { simpl. rewrite addBucket_fold. apply NoDup_groupFold. }
  rewrite (sumN_Permutation _ _
             (fmap_Permutation _ _ _
                (transitivity (sort_Permutation _ _) (keys_Permutation _)))).
  rewrite (fmap_get_keys fb) by done.
  simpl Acc.byDate. rewrite (bucket_sums theDate ws fb g) by done.
  f_equal. f_equal.
  apply (filter_valid_ext _ _ (valid parseDate) ws Hv).
  intros w [Hw _]. unfold dated, dateOf in Hw. unfold dateListed, theDate, dateStrOf.
  by destruct (Workout.startTime w).
Qed.

End Partitions.

(** X2: [byType] has exactly one entry for each distinct type name of the
    input (a missing or empty name counting as "Unknown"); each entry counts
    the sessions of its type and sums their booked counts and capacities;
    and the entries together account for every session once: their classes,
    totalBooked and totalCapacity add up to the figures of the summary. *)
Theorem X2_types_partition (parseDate : string -> option Date.t)
    (ws : list Workout.t) (r : Report.t) :
  processAnalytics parseDate ws = Return r ->
  NoDup (TypeStat.name <$> Report.byType r) /\
  (forall k, k ∈ TypeStat.name <$> Report.byType r <->
             exists w, w ∈ ws /\ typeNameOf w = k) /\
  Forall (fun e =>
            let g := filter (fun w => typeNameOf w = TypeStat.name e) ws in
            TypeStat.classes e = N.of_nat (length g) /\
            TypeStat.totalBooked e = sumN (bookedOf <$> g) /\
            TypeStat.totalCapacity e = sumN (spaceOf <$> g))
         (Report.byType r) /\
  sumN (TypeStat.classes <$> Report.byType r) = Summary.totalClasses (Report.summary r) /\
  sumN (TypeStat.totalBooked <$> Report.byType r) = Summary.totalBooked (Report.summary r) /\
  sumN (TypeStat.totalCapacity <$> Report.byType r)
    = Summary.totalCapacity (Report.summary r).
Proof.
  intros [Hv ->]%processAnalytics_Return.
  change (Report.byType (reportOf parseDate ws)) with (typeStats (accOf parseDate ws)).
  destruct (byType_wf parseDate ws) as [Hnd _].
  split_and!.
  - by rewrite byType_names.
  - intros k. rewrite byType_names. simpl Acc.byType.
    apply elem_of_keys_groupFold.
  - apply Forall_forall. intros e He.
    apply elem_of_typeStats in He as (b & Hb & ->).
    remember (TypeStat.name (typeStat (Acc.uniqueUsersByType (accOf parseDate ws)) b))
      as k eqn:Hk.
    rewrite byType_closed in Hb. unfold groupOf in Hb. cbv zeta.
    destruct (filter (fun w => typeNameOf w = k) ws) as [|w0 g] eqn:E; [done|].
    by injection Hb as <-.
  - rewrite (byType_sums parseDate ws _ TypeBucket.classes (fun _ => 1)); try done.
    apply sumN_const_one.
  - by rewrite (byType_sums parseDate ws _ TypeBucket.totalBooked bookedOf).
  - by rewrite (byType_sums parseDate ws _ TypeBucket.totalCapacity spaceOf).
Qed.

Lemma X2_types_partition_witness :
  processAnalytics localDate demo = Return (reportOf localDate demo) /\
  sumN (TypeStat.classes <$> Report.byType (reportOf localDate demo))
    = Summary.totalClasses (Report.summary (reportOf localDate demo)) /\
  TypeStat.classes <$> Report.byType (reportOf localDate demo) = [2; 1].
Proof.
  assert (H : processAnalytics localDate demo = Return (reportOf localDate demo)).
  { vm_compute. reflexivity. }
  split; [exact H|].
  split; [exact (proj1 (proj2 (proj2 (proj2 (X2_types_partition localDate demo _ H)))))|].
  vm_compute. reflexivity.
Defined.

(** X3: the entry of weekday i in [byDay] counts the sessions whose start
    time falls on that weekday, and the seven entries together count every
    session exactly once. *)
Theorem X3_weekdays_partition (parseDate : string -> option Date.t)
    (ws : list Workout.t) (r : Report.t) :
  processAnalytics parseDate ws = Return r ->
  (forall i e, Report.byDay r !! i = Some e ->
     DayStat.classes e
       = N.of_nat (length (filter (fun w => dayOf parseDate w = Some i) ws))) /\
  sumN (DayStat.classes <$> Report.byDay r) = Summary.totalClasses (Report.summary r).
Proof.
  intros [Hv ->]%processAnalytics_Return.
  assert (Hcls : DayStat.classes <$> Report.byDay (reportOf parseDate ws)
                 = (fun i => N.of_nat (length (filter (fun w => dayOf parseDate w = Some i) ws)))
                     <$> seq 0 7).
  { transitivity ((fun i => N.of_nat (length (default []
                     (Acc.byDayOfWeek (accOf parseDate ws) !! i)))) <$> seq 0 7);
      [reflexivity|].
    apply list_fmap_ext. intros _ i Hi%list_elem_of_lookup_2.
    apply elem_of_seq in Hi. rewrite byDayOfWeek_closed by (done || lia).
    simpl. by rewrite length_fmap. }
  split.
  - intros i e Hie. unfold reportOf, Report.byDay in Hie.
    apply list_lookup_imap_Some in Hie as (name & Hname & ->).
    assert (Hi : (i < 7)%nat) by (by apply lookup_lt_Some in Hname).
    rewrite byDayOfWeek_closed by done. simpl. by rewrite length_fmap.
  - rewrite Hcls, count_by_keys by apply NoDup_seq.
    rewrite filter_all; [done|].
    eapply Forall_impl; [exact Hv|]. intros w [Hw _]. unfold dated in Hw. unfold dayOf.
    destruct (dateOf parseDate w) as [dt|]; [|done]. cbn [fmap option_fmap option_map].
    apply (list_elem_of_fmap_2 Some), elem_of_seq. lia.
Qed.

Lemma X3_weekdays_partition_witness :
  processAnalytics localDate demo = Return (reportOf localDate demo) /\
  sumN (DayStat.classes <$> Report.byDay (reportOf localDate demo))
    = Summary.totalClasses (Report.summary (reportOf localDate demo)).
Proof.
  assert (H : processAnalytics localDate demo = Return (reportOf localDate demo)).
  { vm_compute. reflexivity. }
  exact (conj H (proj2 (X3_weekdays_partition localDate demo _ H))).
Defined.

(** X4: the entry of hour h in [byHour] counts the sessions starting in
    that hour; sessions starting before 5 or after 22 appear in no entry, so
    the entries together count exactly the sessions inside the displayed
    window, which can be fewer than [summary.totalClasses]. *)
Theorem X4_hours_window (parseDate : string -> option Date.t)
    (ws : list Workout.t) (r : Report.t) :
  processAnalytics parseDate ws = Return r ->
  Forall (fun e =>
            HourStat.classes e
              = N.of_nat (length (filter (fun w => hourOf parseDate w = Some (HourStat.hour e)) ws)))
         (Report.byHour r) /\
  sumN (HourStat.classes <$> Report.byHour r)
    = N.of_nat (length (filter (fun w => hourOf parseDate w ∈ Some <$> seq 5 18) ws)) /\
  (forall w, hourOf parseDate w ∈ Some <$> seq 5 18 <->
             exists h, hourOf parseDate w = Some h /\ displayedHour h) /\
  sumN (HourStat.classes <$> Report.byHour r) <= Summary.totalClasses (Report.summary r).
Proof.
  intros [Hv ->]%processAnalytics_Return.
  assert (Hcls : forall h, HourStat.classes (hourStat (Acc.byHour (accOf parseDate ws)) h)
                 = N.of_nat (length (filter (fun w => hourOf parseDate w = Some h) ws))).
  { intros h.
    pose proof (addBucket_get (valid parseDate) (theHour parseDate) (hourOf parseDate)
                  (valid_theHour parseDate) ws h Hv) as Hb.
    unfold hourStat, from_option, id in *. simpl Acc.byHour. by rewrite Hb. }
  assert (Hsum : sumN (HourStat.classes <$> Report.byHour (reportOf parseDate ws))
                 = N.of_nat (length (filter (fun w => hourOf parseDate w ∈ Some <$> seq 5 18) ws))).
  { unfold reportOf, Report.byHour, hourStats. rewrite <- list_fmap_compose.
    rewrite (list_fmap_ext _ (fun h => N.of_nat (length (filter
               (fun w => hourOf parseDate w = Some h) ws))))
      by (intros; unfold compose; apply Hcls).
    apply count_by_keys, NoDup_seq. }
  split_and!.
  - unfold reportOf, Report.byHour, hourStats. apply Forall_fmap, Forall_forall.
    intros h _. unfold compose. rewrite Hcls. done.
  - exact Hsum.
  - intros w. rewrite list_elem_of_fmap. unfold displayedHour.
    setoid_rewrite elem_of_seq. split.
    + intros (h & -> & Hh). exists h. split; [done|lia].
    + intros (h & -> & Hh). exists h. split; [done|lia].
  - rewrite Hsum.
    change (Summary.totalClasses (Report.summary (reportOf parseDate ws)))
      with (N.of_nat (length ws)).
    pose proof (length_filter
      (fun w => hourOf parseDate w ∈ Some <$> seq 5 18) ws). lia.
Qed.

Lemma X4_hours_window_witness :
  processAnalytics localDate [yogaClass; session "Night" 8 3 "2024-01-15 23:15:00" [] []]
    = Return (reportOf localDate
                [yogaClass; session "Night" 8 3 "2024-01-15 23:15:00" [] []]) /\
  sumN (HourStat.classes <$> Report.byHour (reportOf localDate
          [yogaClass; session "Night" 8 3 "2024-01-15 23:15:00" [] []])) = 1 /\
  Summary.totalClasses (Report.summary (reportOf localDate
          [yogaClass; session "Night" 8 3 "2024-01-15 23:15:00" [] []])) = 2.
Proof.
  assert (H : processAnalytics localDate
                [yogaClass; session "Night" 8 3 "2024-01-15 23:15:00" [] []]
              = Return (reportOf localDate
                [yogaClass; session "Night" 8 3 "2024-01-15 23:15:00" [] []])).
  { vm_compute. reflexivity. }
  split; [exact H|].
  destruct (X4_hours_window localDate _ _ H) as (_ & Hs & _ & _).
  split; [rewrite Hs; vm_compute; reflexivity | vm_compute; reflexivity].
Defined.

(** A session whose start time begins with the name of an inherited
    property, when the runtime takes the text for a date, is counted in the
    summary and in no entry of [dailyTrend]. *)
Example daily_trend_skips_inherited_key :
  exists r,
    processAnalytics anyDate [session "Spin" 10 6 "constructor 2024" [] []] = Return r /\
    Summary.totalClasses (Report.summary r) = 1 /\ Report.dailyTrend r = [].
Proof. eexists. split; [vm_compute; reflexivity | split; reflexivity]. Qed.

(** X5: the entries of [dailyTrend] account once for every session whose
    date key (the text of its start time before the first space) is not the
    name of an inherited property: their classes, totalBooked and
    totalCapacity are the number, the booked counts and the capacities of
    those sessions; when no date key is such a name, as with the
    fixed-width timestamps, they add up to the figures of the summary. *)
Theorem X5_daily_trend_totals (parseDate : string -> option Date.t)
    (ws : list Workout.t) (r : Report.t) :
  processAnalytics parseDate ws = Return r ->
  (sumN (TrendPoint.classes <$> Report.dailyTrend r)
     = N.of_nat (length (filter dateListed ws)) /\
   sumN (TrendPoint.totalBooked <$> Report.dailyTrend r)
     = sumN (bookedOf <$> filter dateListed ws) /\
   sumN (TrendPoint.totalCapacity <$> Report.dailyTrend r)
     = sumN (spaceOf <$> filter dateListed ws)) /\
  (Forall (fun w => forall text, Workout.startTime w = Some text ->
                                 inherited (split_head text) = false) ws ->
   sumN (TrendPoint.classes <$> Report.dailyTrend r)
     = Summary.totalClasses (Report.summary r) /\
   sumN (TrendPoint.totalBooked <$> Report.dailyTrend r)
     = Summary.totalBooked (Report.summary r) /\
   sumN (TrendPoint.totalCapacity <$> Report.dailyTrend r)
     = Summary.totalCapacity (Report.summary r)).
Proof.
  intros [Hv ->]%processAnalytics_Return.
  assert (Hsums :
    sumN (TrendPoint.classes <$> Report.dailyTrend (reportOf parseDate ws))
      = N.of_nat (length (filter dateListed ws)) /\
    sumN (TrendPoint.totalBooked <$> Report.dailyTrend (reportOf parseDate ws))
      = sumN (bookedOf <$> filter dateListed ws) /\
    sumN (TrendPoint.totalCapacity <$> Report.dailyTrend (reportOf parseDate ws))
      = sumN (spaceOf <$> filter dateListed ws)).
  { split_and!.
    - rewrite (dailyTrend_sums parseDate ws _ Bucket.classes (fun _ => 1)); try done.
      apply sumN_const_one.
    - by rewrite (dailyTrend_sums parseDate ws _ Bucket.totalBooked bookedOf).
    - by rewrite (dailyTrend_sums parseDate ws _ Bucket.totalCapacity spaceOf). }
  split; [exact Hsums|].
  intros Hall. destruct Hsums as (H1 & H2 & H3). rewrite H1, H2, H3.
  assert (Hf : filter dateListed ws = ws).
  { apply filter_all. rewrite Forall_forall in Hall, Hv |- *. intros w Hw.
    destruct (Hv w Hw) as [Hd _]. specialize (Hall w Hw).
    unfold dated, dateOf in Hd. unfold dateListed, dateStrOf.
    destruct (Workout.startTime w) as [text|]; [|done]. simpl. by apply Hall. }
  rewrite Hf. done.
Qed.

Lemma X5_daily_trend_totals_witness :
  processAnalytics localDate demo = Return (reportOf localDate demo) /\
  Forall (fun w => forall text, Workout.startTime w = Some text ->
                                inherited (split_head text) = false) demo /\
  sumN (TrendPoint.totalBooked <$> Report.dailyTrend (reportOf localDate demo))
    = Summary.totalBooked (Report.summary (reportOf localDate demo)) /\
  sumN (TrendPoint.totalBooked <$> Report.dailyTrend (reportOf localDate demo)) = 18.
Proof.
  assert (H : processAnalytics localDate demo = Return (reportOf localDate demo)).
  { vm_compute. reflexivity. }
  assert (Hall : Forall (fun w => forall text, Workout.startTime w = Some text ->
                                 inherited (split_head text) = false) demo).
  { repeat constructor; intros text [= <-]; reflexivity. }
  split; [exact H|]. split; [exact Hall|].
  split; [exact (proj1 (proj2 (proj2 (X5_daily_trend_totals localDate demo _ H) Hall)))|].
  vm_compute. reflexivity.
Defined.
(** ** Averages *)

(** X6: every average of the report ([avgPerClass] of the summary and
    [avgAttendance] of the entries) is the number literal 0 when no session
    is counted and otherwise a text with one decimal, never "NaN" or
    "Infinity": the booked total of the sessions the entry stands for
    divided by their number and rounded to a nearest tenth (0.1 for 3
    bookings in 20 sessions, whose stored quotient lies just below 0.15);
    entries of [byType] and [byInstructor] always count at least one
    session, so their average is never the literal 0. *)
Theorem X6_averages (parseDate : string -> option Date.t)
    (ws : list Workout.t) (r : Report.t) :
  processAnalytics parseDate ws = Return r ->
  avgSpec (sumN (bookedOf <$> ws)) (N.of_nat (length ws))
          (Summary.avgPerClass (Report.summary r)) /\
  Forall (fun e =>
            let g := filter (fun w => typeNameOf w = TypeStat.name e) ws in
            g <> [] /\
            avgSpec (sumN (bookedOf <$> g)) (N.of_nat (length g)) (TypeStat.avgAttendance e) /\
            TypeStat.avgAttendance e <> Lit0)
         (Report.byType r) /\
  Forall (fun e =>
            let g := filter (fun w => dayOf parseDate w = Some (DayStat.dayIndex e)) ws in
            avgSpec (sumN (bookedOf <$> g)) (N.of_nat (length g)) (DayStat.avgAttendance e))
         (Report.byDay r) /\
  Forall (fun e =>
            let g := filter (fun w => hourOf parseDate w = Some (HourStat.hour e)) ws in
            avgSpec (sumN (bookedOf <$> g)) (N.of_nat (length g)) (HourStat.avgAttendance e))
         (Report.byHour r) /\
  Forall (fun e =>
            let n := InstructorStat.name e in
            0 < sumN (staffCount n <$> ws) /\
            avgSpec (sumN ((fun w => staffCount n w * bookedOf w) <$> ws))
                    (sumN (staffCount n <$> ws)) (InstructorStat.avgAttendance e) /\
            InstructorStat.avgAttendance e <> Lit0)
         (Report.byInstructor r) /\
  (forall scale x den t t',
     0 < den -> nearestTenth scale x den t -> nearestTenth scale x den t' ->
     t = t' \/ ((t' = t + 1 \/ t = t' + 1) /\ 2 * scale * x = den * (t + t'))) /\
  render (avgOf 3 20) = "0.1" /\ render (avgOf 18 3) = "6.0" /\ render (avgOf 18 0) = "0".
Proof.
  intros [Hv ->]%processAnalytics_Return.
  assert (Hnz : forall x den, 0 < den -> avgOf x den <> Lit0).
  { intros x den Hden Heq. destruct (avgOf_spec x den) as (_ & _ & Hs).
    destruct (Hs Hden) as (t & Ht & _). congruence. }
  split_and!.
  - apply avgOf_spec.
  - apply Forall_forall. intros e He.
    apply elem_of_typeStats in He as (b & Hb & ->).
    remember (TypeStat.name (typeStat (Acc.uniqueUsersByType (accOf parseDate ws)) b))
      as k eqn:Hk.
    rewrite byType_closed in Hb. unfold groupOf in Hb. cbv zeta.
    destruct (filter (fun w => typeNameOf w = k) ws) as [|w0 g]; [done|]. injection Hb as <-.
    cbn [typeStat TypeStat.classes TypeStat.avgAttendance TypeStat.totalBooked
         TypeBucket.classes TypeBucket.totalBooked].
    assert (Hpos : 0 < N.of_nat (length (w0 :: g))) by (simpl; lia).
    split_and!; [done | apply avgOf_spec | by apply Hnz].
  - apply Forall_forall. intros e He.
    apply list_elem_of_lookup in He as [i Hie].
    unfold reportOf, Report.byDay in Hie.
    apply list_lookup_imap_Some in Hie as (name & Hname & ->).
    assert (Hi : (i < 7)%nat) by (by apply lookup_lt_Some in Hname).
    rewrite byDayOfWeek_closed by done. unfold dayStatOf. simpl.
    rewrite <- !list_fmap_compose, length_fmap.
    apply avgOf_spec.
  - unfold reportOf, Report.byHour, hourStats. apply Forall_fmap, Forall_forall.
    intros h _. unfold compose.
    pose proof (addBucket_get (valid parseDate) (theHour parseDate) (hourOf parseDate)
                  (valid_theHour parseDate) ws h Hv) as Hb.
    unfold hourStat. simpl Acc.byHour. unfold from_option, id in Hb.
    cbn [HourStat.hour HourStat.classes HourStat.avgAttendance].
    change (match Obj.get h ?d with Some data => data | None => Bucket.mk 0 0 0 end)
      with (default (Bucket.mk 0 0 0) (Obj.get h d)).
    unfold default, from_option, id. rewrite Hb. simpl. apply avgOf_spec.
  - apply Forall_forall. intros e He.
    apply elem_of_instructorStats in He as (b & Hb & ->).
    pose proof (byInstructor_listed parseDate ws _ _ Hb) as Hn.
    destruct (byInstructor_totals parseDate ws _ Hn) as (H1 & H2 & _).
    rewrite Hb in H1, H2. simpl in H1, H2.
    pose proof (byInstructor_pos parseDate ws) as Hpos.
    rewrite Forall_forall in Hpos. apply get_Some_elem in Hb. apply Hpos in Hb.
    simpl in Hb. cbv zeta.
    cbn [instructorStat InstructorStat.avgAttendance InstructorStat.name] in *.
    rewrite <- H1, <- H2.
    split_and!; [done | apply avgOf_spec | by apply Hnz].
  - apply nearestTenth_unique.
  - vm_compute. reflexivity.
  - vm_compute. reflexivity.
  - reflexivity.
Qed.

Lemma X6_averages_witness :
  processAnalytics localDate demo = Return (reportOf localDate demo) /\
  avgSpec 18 3 (Summary.avgPerClass (Report.summary (reportOf localDate demo))) /\
  render (Summary.avgPerClass (Report.summary (reportOf localDate demo))) = "6.0".
Proof.
  assert (H : processAnalytics localDate demo = Return (reportOf localDate demo)).
  { vm_compute. reflexivity. }
  split; [exact H|].
  split; [exact (proj1 (X6_averages localDate demo _ H)) | vm_compute; reflexivity].
Defined.

(** ** Participants per class type *)

Lemma size_union_le (X Y : gset Z) : (size (X ∪ Y) <= size X + size Y)%nat.
Proof.
  rewrite size_union_alt.
  assert (size (Y ∖ X) <= size Y)%nat by (apply subseteq_size; set_solver). lia.
Qed.

Lemma size_covered (S : string -> gset Z) (L : list string) (X : gset Z) :
  (forall u, u ∈ X -> exists k, k ∈ L /\ u ∈ S k) ->
  N.of_nat (size X) <= sumN ((fun k => N.of_nat (size (S k))) <$> L).
Proof.
  revert X. induction L as [|k L IH]; intros X HX.
  - assert (X = ∅) as ->.
    { apply leibniz_equiv. intros u. split; [|set_solver].
      intros (k & Hk & _)%HX. by apply elem_of_nil in Hk. }
    by rewrite size_empty.
  - csimpl. rewrite sumN_cons.
    assert (HXk : X ⊆ S k ∪ (X ∖ S k)).
    { intros u Hu. destruct (decide (u ∈ S k)); set_solver. }
    apply subseteq_size in HXk.
    pose proof (size_union_le (S k) (X ∖ S k)) as Hle.
    assert (Hrest : N.of_nat (size (X ∖ S k))
                    <= sumN ((fun k => N.of_nat (size (S k))) <$> L)).
    { apply IH. intros u [Hu Hnk]%elem_of_difference.
      destruct (HX u Hu) as (k' & [->|Hk']%elem_of_cons & Hk's); [done|eauto]. }
    lia.
Qed.

Lemma elem_of_userIds_bind (ws : list Workout.t) (u : Z) :
  u ∈ ws ≫= userIdsOf <-> exists w, w ∈ ws /\ u ∈ userIdsOf w.
Proof.
  rewrite list_elem_of_bind. naive_solver.
Qed.

(** X7: the [uniqueParticipants] of a class-type entry is the number of
    distinct participants of the sessions of that type, the participant of
    a booking being the first of its [user_id], its [userId] and its
    [user.id] that is present and not 0; it never exceeds the figure of the
    summary, and the figures of all types together are at least the figure
    of the summary (a participant of two types is counted under both). *)
Theorem X7_participants_per_type (parseDate : string -> option Date.t)
    (ws : list Workout.t) (r : Report.t) :
  processAnalytics parseDate ws = Return r ->
  Forall (fun e =>
            (exists ids : list Z,
               NoDup ids /\
               (forall u, u ∈ ids <->
                  exists w bs b,
                    w ∈ ws /\ typeNameOf w = TypeStat.name e /\
                    Workout.bookings w = Some bs /\ b ∈ bs /\ u <> 0%Z /\
                    (Booking.user_id b = Some u \/
                     (falsy (Booking.user_id b) /\ Booking.userId b = Some u) \/
                     (falsy (Booking.user_id b) /\ falsy (Booking.userId b) /\
                      exists usr, Booking.user b = Some usr /\ User.id usr = Some u))) /\
               TypeStat.uniqueParticipants e = N.of_nat (length ids)) /\
            TypeStat.uniqueParticipants e <= Summary.uniqueParticipants (Report.summary r))
         (Report.byType r) /\
  Summary.uniqueParticipants (Report.summary r)
    <= sumN (TypeStat.uniqueParticipants <$> Report.byType r).
Proof.
  intros [Hv ->]%processAnalytics_Return.
  change (Report.byType (reportOf parseDate ws)) with (typeStats (accOf parseDate ws)).
  change (Summary.uniqueParticipants (Report.summary (reportOf parseDate ws)))
    with (N.of_nat (size (list_to_set (ws ≫= userIdsOf) : gset Z))).
  assert (Hone : forall b k,
            Obj.get k (Acc.byType (accOf parseDate ws)) = Some b ->
            TypeStat.uniqueParticipants
              (typeStat (Acc.uniqueUsersByType (accOf parseDate ws)) b)
            = N.of_nat (size (list_to_set (groupOf typeNameOf k ws ≫= userIdsOf) : gset Z))).
  { intros b k Hb. rewrite byType_closed in Hb.
    pose proof (usersByType_closed parseDate ws k) as Hu.
    destruct (groupOf typeNameOf k ws) as [|w0 g]; [done|]. injection Hb as <-.
    unfold typeStat. cbn [TypeStat.uniqueParticipants TypeBucket.name].
    by rewrite Hu. }
  split.
  - apply Forall_forall. intros e He.
    apply elem_of_typeStats in He as (b & Hb & ->).
    remember (TypeStat.name (typeStat (Acc.uniqueUsersByType (accOf parseDate ws)) b))
      as k eqn:Hk.
    rewrite (Hone b k Hb). unfold groupOf. split.
    + exists (elements (list_to_set (filter (fun w => typeNameOf w = k) ws ≫= userIdsOf)
                        : gset Z)).
      split_and!; [apply NoDup_elements | | reflexivity].
      intros u. rewrite elem_of_elements, elem_of_list_to_set, elem_of_userIds.
      unfold participates, participantOf. split.
      * intros (w & bs & b' & [Hk' Hw]%list_elem_of_filter & Hbs & Hb' & Hu0 & Hu).
        by exists w, bs, b'.
      * intros (w & bs & b' & Hw & Hk' & Hbs & Hb' & Hu0 & Hu).
        exists w, bs, b'. split; [by apply list_elem_of_filter | done].
    + assert (Hsub : (list_to_set (filter (fun w => typeNameOf w = k) ws ≫= userIdsOf)
                      : gset Z) ⊆ list_to_set (ws ≫= userIdsOf)).
      { intros u. rewrite !elem_of_list_to_set, !elem_of_userIds_bind.
        intros (w & [_ Hw]%list_elem_of_filter & Hu). eauto. }
      apply subseteq_size in Hsub. lia.
  - destruct (byType_wf parseDate ws) as [Hnd Hname].
    unfold typeStats.
    rewrite (sumN_Permutation _ _
               (fmap_Permutation _ _ _ (sort_Permutation _ _))).
    rewrite (sumN_Permutation _ _
               (fmap_Permutation _ _ _
                  (fmap_Permutation _ _ _ (values_Permutation _)))).
    rewrite <- list_fmap_compose.
    rewrite <- (fmap_get_keys _ (TypeBucket.mk EmptyString EmptyString 0 0 0 [])) by done.
    rewrite (list_fmap_ext _
               (fun k => N.of_nat (size (list_to_set (groupOf typeNameOf k ws ≫= userIdsOf)
                                          : gset Z)))).
    2:{ intros i k Hk%list_elem_of_lookup_2.
        destruct (Obj.get k (Acc.byType (accOf parseDate ws))) as [b|] eqn:E.
        - unfold compose. simpl default. by apply Hone.
        - by apply get_None in E. }
    apply (size_covered
             (fun k => list_to_set (groupOf typeNameOf k ws ≫= userIdsOf))).
    intros u. rewrite elem_of_list_to_set, elem_of_userIds_bind.
    intros (w & Hw & Hu). exists (typeNameOf w). split.
    + simpl Acc.byType. apply elem_of_keys_groupFold. eauto.
    + rewrite elem_of_list_to_set, elem_of_userIds_bind. exists w.
      split; [|done]. by apply list_elem_of_filter.
Qed.

(** In the sample, participants 7 and 8 book Spin and participant 7 books
    Yoga: the two types count 2 and 1, the summary 2. *)
Lemma X7_participants_per_type_witness :
  processAnalytics localDate demo = Return (reportOf localDate demo) /\
  TypeStat.uniqueParticipants <$> Report.byType (reportOf localDate demo) = [2; 1] /\
  Summary.uniqueParticipants (Report.summary (reportOf localDate demo)) = 2 /\
  Summary.uniqueParticipants (Report.summary (reportOf localDate demo))
    <= sumN (TypeStat.uniqueParticipants <$> Report.byType (reportOf localDate demo)).
Proof.
  assert (H : processAnalytics localDate demo = Return (reportOf localDate demo)).
  { vm_compute. reflexivity. }
  split; [exact H|]. split; [vm_compute; reflexivity|]. split; [vm_compute; reflexivity|].
  exact (proj2 (X7_participants_per_type localDate demo _ H)).
Defined.

(** ** Instructor assignments and session counts *)

Lemma addStaff_listed booked space d s :
  Forall (fun e : string * InstructorBucket.t => inherited e.1 = false) d ->
  Forall (fun e : string * InstructorBucket.t => inherited e.1 = false)
         (addStaff booked space d s).
Proof.
  intros Hd. unfold addStaff, Obj.lookup.
  destruct (Obj.get (staffName s) d) eqn:E;
    [|destruct (inherited (staffName s)) eqn:Hn; [done|]];
    apply Forall_forall; intros e [->|He]%elem_of_set;
    rewrite Forall_forall in Hd; try (by apply Hd); simpl.
  - apply get_Some_elem in E. by apply Hd in E.
  - done.
Qed.

Lemma sumN_addStaff (f : InstructorBucket.t -> N) (c : N) booked space d s :
  (forall n i, f (InstructorBucket.mk n 0 0 0 i) = 0) ->
  (forall b, f (InstructorBucket.mk (InstructorBucket.name b) (InstructorBucket.classes b + 1)
                  (InstructorBucket.totalBooked b + booked)
                  (InstructorBucket.totalCapacity b + space)
                  (InstructorBucket.imagekey b)) = f b + c) ->
  Forall (fun e : string * InstructorBucket.t => inherited e.1 = false) d ->
  sumN (f <$> (addStaff booked space d s).*2)
  = sumN (f <$> d.*2) + (if decide (listed s) then c else 0).
Proof.
  intros Hnew Hupd Hd. unfold addStaff, Obj.lookup, countStaff.
  pose proof (sumN_set f d (staffName s)
    (let i := match Obj.get (staffName s) d with
              | Some i => i
              | None => InstructorBucket.mk (staffName s) 0 0 0 (Staff.imagekey s)
              end in
     InstructorBucket.mk (InstructorBucket.name i) (InstructorBucket.classes i + 1)
       (InstructorBucket.totalBooked i + booked)
       (InstructorBucket.totalCapacity i + space)
       (InstructorBucket.imagekey i))) as Hs.
  cbv zeta in Hs.
  destruct (decide (listed s)) as [Hl|Hl]; unfold listed in Hl.
  - rewrite Hl. destruct (Obj.get (staffName s) d) as [b|] eqn:E;
      rewrite Hupd in Hs; cbn [default from_option fmap option_fmap option_map id] in Hs.
    + lia.
    + rewrite Hnew in Hs. simpl in Hs |- *. lia.
  - apply not_false_is_true in Hl. rewrite Hl.
    destruct (Obj.get (staffName s) d) as [b|] eqn:E; [|lia].
    apply get_Some_elem in E. rewrite Forall_forall in Hd. apply Hd in E. simpl in E.
    congruence.
Qed.

Lemma sumN_addStaff_loop (f : InstructorBucket.t -> N) (c : N) booked space l d :
  (forall n i, f (InstructorBucket.mk n 0 0 0 i) = 0) ->
  (forall b, f (InstructorBucket.mk (InstructorBucket.name b) (InstructorBucket.classes b + 1)
                  (InstructorBucket.totalBooked b + booked)
                  (InstructorBucket.totalCapacity b + space)
                  (InstructorBucket.imagekey b)) = f b + c) ->
  Forall (fun e : string * InstructorBucket.t => inherited e.1 = false) d ->
  Forall (fun e : string * InstructorBucket.t => inherited e.1 = false)
         (foldl (addStaff booked space) d l) /\
  sumN (f <$> (foldl (addStaff booked space) d l).*2)
  = sumN (f <$> d.*2) + N.of_nat (length (filter listed l)) * c.
Proof.
  intros Hnew Hupd. revert d. induction l as [|s l IH]; intros d Hd.
  - simpl. split; [done | lia].
  - simpl foldl. destruct (IH (addStaff booked space d s)) as [H1 H2];
      [by apply addStaff_listed|].
    split; [exact H1|]. rewrite H2, (sumN_addStaff f c) by done.
    rewrite filter_cons. destruct (decide (listed s)); simpl length; lia.
Qed.

Lemma sumN_byInstructor (parseDate : string -> option Date.t)
    (f : InstructorBucket.t -> N) (c : Workout.t -> N) ws :
  (forall n i, f (InstructorBucket.mk n 0 0 0 i) = 0) ->
  (forall w b, f (InstructorBucket.mk (InstructorBucket.name b) (InstructorBucket.classes b + 1)
                  (InstructorBucket.totalBooked b + bookedOf w)
                  (InstructorBucket.totalCapacity b + spaceOf w)
                  (InstructorBucket.imagekey b)) = f b + c w) ->
  Forall (fun e : string * InstructorBucket.t => inherited e.1 = false)
         (Acc.byInstructor (accOf parseDate ws)) /\
  sumN (f <$> (Acc.byInstructor (accOf parseDate ws)).*2)
  = sumN ((fun w => listedStaff w * c w) <$> ws).
Proof.
  intros Hnew Hupd. simpl Acc.byInstructor.
  induction ws as [|w ws [IHl IH]] using rev_ind; [split; [constructor | done]|].
  rewrite foldl_app, fmap_app, sumN_app. simpl foldl.
  destruct (sumN_addStaff_loop f (c w) (bookedOf w) (spaceOf w) (staffsOf w)
              (foldl addStaffs [] ws) Hnew (Hupd w) IHl) as [H1 H2].
  split; [exact H1|].
  unfold addStaffs at 1. rewrite H2, IH.
  rewrite fmap_cons, fmap_nil, sumN_cons. unfold sumN at 3. simpl foldl.
  unfold listedStaff. lia.
Qed.

(** An instructor whose display name is the name of an inherited property
    is not counted: two instructors are assigned, one is listed. *)
Example inherited_instructor_is_not_counted :
  exists r,
    processAnalytics localDate
      [session "Spin" 10 6 "2024-01-15 18:00:00"
         [Staff.mk (Some "constructor") None None; staff "Ann" "Lee"] []] = Return r /\
    sumN (InstructorStat.classes <$> Report.byInstructor r) = 1.
Proof. eexists. split; [vm_compute; reflexivity | reflexivity]. Qed.

(** X8: every instructor of every session whose display name is not the
    name of an inherited property is counted once: the [classes] of the
    [byInstructor] entries add up to the number of such instructor
    assignments of the input (the sum over the sessions of the number of
    such instructors), and their [totalBooked] and [totalCapacity] add up to
    the booked counts and capacities of the sessions, each taken once per
    such instructor of the session; when no instructor goes by such a name,
    these are all the instructor assignments. *)
Theorem X8_instructor_assignments (parseDate : string -> option Date.t)
    (ws : list Workout.t) (r : Report.t) :
  processAnalytics parseDate ws = Return r ->
  (sumN (InstructorStat.classes <$> Report.byInstructor r)
     = sumN ((fun w => N.of_nat (length (filter (fun s => inherited (staffName s) = false)
                                                (staffsOf w)))) <$> ws) /\
   sumN (InstructorStat.totalBooked <$> Report.byInstructor r)
     = sumN ((fun w => N.of_nat (length (filter (fun s => inherited (staffName s) = false)
                                                (staffsOf w))) * bookedOf w) <$> ws) /\
   sumN (InstructorStat.totalCapacity <$> Report.byInstructor r)
     = sumN ((fun w => N.of_nat (length (filter (fun s => inherited (staffName s) = false)
                                                (staffsOf w))) * spaceOf w) <$> ws)) /\
  (Forall (fun w => Forall (fun s => inherited (staffName s) = false) (staffsOf w)) ws ->
   sumN (InstructorStat.classes <$> Report.byInstructor r)
     = sumN ((fun w => N.of_nat (length (staffsOf w))) <$> ws) /\
   sumN (InstructorStat.totalBooked <$> Report.byInstructor r)
     = sumN ((fun w => N.of_nat (length (staffsOf w)) * bookedOf w) <$> ws) /\
   sumN (InstructorStat.totalCapacity <$> Report.byInstructor r)
     = sumN ((fun w => N.of_nat (length (staffsOf w)) * spaceOf w) <$> ws)).
Proof.
  intros [Hv ->]%processAnalytics_Return.
  change (Report.byInstructor (reportOf parseDate ws))
    with (instructorStats (accOf parseDate ws)).
  assert (Hsum : forall (f : InstructorStat.t -> N),
            sumN (f <$> instructorStats (accOf parseDate ws))
            = sumN ((f ∘ instructorStat) <$> (Acc.byInstructor (accOf parseDate ws)).*2)).
  { intros f. unfold instructorStats.
    rewrite (sumN_Permutation _ _
               (fmap_Permutation f _ _ (sort_Permutation _ _))).
    rewrite (sumN_Permutation _ _
               (fmap_Permutation f _ _
                  (fmap_Permutation _ _ _ (values_Permutation _)))).
    by rewrite <- list_fmap_compose. }
  rewrite !Hsum.
  assert (Hthree :
    sumN ((InstructorStat.classes ∘ instructorStat)
            <$> (Acc.byInstructor (accOf parseDate ws)).*2)
      = sumN ((fun w => listedStaff w) <$> ws) /\
    sumN ((InstructorStat.totalBooked ∘ instructorStat)
            <$> (Acc.byInstructor (accOf parseDate ws)).*2)
      = sumN ((fun w => listedStaff w * bookedOf w) <$> ws) /\
    sumN ((InstructorStat.totalCapacity ∘ instructorStat)
            <$> (Acc.byInstructor (accOf parseDate ws)).*2)
      = sumN ((fun w => listedStaff w * spaceOf w) <$> ws)).
  { split_and!.
    - destruct (sumN_byInstructor parseDate (InstructorStat.classes ∘ instructorStat)
                  (fun _ => 1) ws) as [_ ->]; [done | done |].
      f_equal. apply list_fmap_ext. intros. lia.
    - by destruct (sumN_byInstructor parseDate (InstructorStat.totalBooked ∘ instructorStat)
                     bookedOf ws) as [_ ->].
    - by destruct (sumN_byInstructor parseDate (InstructorStat.totalCapacity ∘ instructorStat)
                     spaceOf ws) as [_ ->]. }
  split; [exact Hthree|].
  intros Hall. destruct Hthree as (H1 & H2 & H3). rewrite H1, H2, H3.
  assert (Hl : forall w, w ∈ ws -> listedStaff w = N.of_nat (length (staffsOf w))).
  { intros w Hw. unfold listedStaff. rewrite Forall_forall in Hall.
    by rewrite (filter_all listed) by (by apply Hall). }
  split_and!; f_equal; apply list_fmap_ext; intros i w Hw%list_elem_of_lookup_2;
    by rewrite Hl.
Qed.

Lemma X8_instructor_assignments_witness :
  processAnalytics localDate demo = Return (reportOf localDate demo) /\
  Forall (fun w => Forall (fun s => inherited (staffName s) = false) (staffsOf w)) demo /\
  sumN (InstructorStat.classes <$> Report.byInstructor (reportOf localDate demo))
    = sumN ((fun w => N.of_nat (length (staffsOf w))) <$> demo) /\
  sumN (InstructorStat.classes <$> Report.byInstructor (reportOf localDate demo)) = 3.
Proof.
  assert (H : processAnalytics localDate demo = Return (reportOf localDate demo)).
  { vm_compute. reflexivity. }
  assert (Hall : Forall (fun w => Forall (fun s => inherited (staffName s) = false)
                                         (staffsOf w)) demo).
  { repeat constructor. }
  split; [exact H|]. split; [exact Hall|].
  split; [exact (proj1 (proj2 (X8_instructor_assignments localDate demo _ H) Hall))|].
  vm_compute. reflexivity.
Defined.

(** ** The order of entries with equal attendance rate *)

Lemma filter_insert {A} (after : A -> A -> bool) (P : A -> Prop)
    `{forall x, Decision (P x)} x l :
  (forall a b, P a -> P b -> after a b = false) ->
  filter P (insert after x l) = filter P (x :: l).
Proof.
  intros Htie. induction l as [|y l IH]; [done|]. simpl.
  destruct (after x y) eqn:E; [|done].
  rewrite (filter_cons _ y), IH, !filter_cons.
  destruct (decide (P x)) as [Hx|Hx]; [|done].
  destruct (decide (P y)) as [Hy|Hy]; [|done].
  rewrite (Htie x y Hx Hy) in E. discriminate.
Qed.

(** Sorting is stable: it keeps the order of the elements it does not
    tell apart. *)
Lemma filter_sort {A} (after : A -> A -> bool) (P : A -> Prop)
    `{forall x, Decision (P x)} l :
  (forall a b, P a -> P b -> after a b = false) ->
  filter P (sort after l) = filter P l.
Proof.
  intros Htie. induction l as [|x l IH]; [done|]. simpl.
  rewrite filter_insert by done. by rewrite !filter_cons, IH.
Qed.

Lemma filter_mono_sublist {A} (P : A -> Prop) `{forall x, Decision (P x)} l1 l2 :
  l1 `sublist_of` l2 -> filter P l1 `sublist_of` filter P l2.
Proof.
  induction 1 as [|x l1 l2 Hl IH|x l1 l2 Hl IH]; [done| |].
  - rewrite !filter_cons. destruct (decide (P x)); [by constructor|done].
  - rewrite filter_cons. destruct (decide (P x)); [by constructor|done].
Qed.

Lemma lookup_sublist {A} (l : list A) i j a b :
  (i < j)%nat -> l !! i = Some a -> l !! j = Some b -> [a; b] `sublist_of` l.
Proof.
  intros Hij Ha Hb.
  rewrite <- (take_drop_middle l i a Ha).
  apply sublist_inserts_l. constructor.
  apply singleton_sublist_l. apply list_elem_of_lookup.
  exists (j - S i)%nat. rewrite lookup_drop. rewrite <- Hb. f_equal. lia.
Qed.

Lemma keys_order {V} (d : list (string * V)) k1 k2 :
  array_index k1 = None -> array_index k2 = None ->
  [k1; k2] `sublist_of` Obj.keys d -> [k1; k2] `sublist_of` d.*1.
Proof.
  intros H1 H2 Hs.
  apply (filter_mono_sublist (fun k => array_index k = None)) in Hs.
  rewrite !filter_cons, filter_nil in Hs.
  rewrite !decide_True in Hs by done.
  unfold Obj.keys, Obj.entries in Hs. rewrite fmap_app, filter_app in Hs.
  rewrite (filter_none (fun k => array_index k = None)) in Hs.
  - simpl in Hs. etransitivity; [exact Hs|]. etransitivity; [apply sublist_filter|].
    apply fmap_sublist, sublist_filter.
  - apply Forall_forall. intros k (e & -> & He)%list_elem_of_fmap.
    rewrite sort_Permutation in He. apply list_elem_of_filter in He as [[n Hn] _].
    congruence.
Qed.

Lemma ranked_ties {V E} (name : E -> string) (rate : E -> N) (f : V -> E)
    (d : list (string * V)) i j e1 e2 :
  Forall (fun e => name (f e.2) = e.1) d ->
  (i < j)%nat ->
  sort (fun x y => rate x <? rate y) (f <$> Obj.values d) !! i = Some e1 ->
  sort (fun x y => rate x <? rate y) (f <$> Obj.values d) !! j = Some e2 ->
  rate e1 = rate e2 ->
  array_index (name e1) = None -> array_index (name e2) = None ->
  [name e1; name e2] `sublist_of` d.*1.
Proof.
  intros Hname Hij H1 H2 Hr Hx1 Hx2.
  pose proof (lookup_sublist _ _ _ _ _ Hij H1 H2) as Hs.
  apply (filter_mono_sublist (fun e => rate e = rate e1)) in Hs.
  rewrite !filter_cons, filter_nil in Hs.
  rewrite !decide_True in Hs by done.
  rewrite filter_sort in Hs by (intros a b -> ->; apply N.ltb_irrefl).
  apply keys_order; [done..|].
  assert (Hk : name <$> (f <$> Obj.values d) = Obj.keys d).
  { unfold Obj.values, Obj.keys. rewrite <- list_fmap_compose.
    apply (fmap_name_keys name f).
    apply Forall_forall. intros e He. rewrite entries_Permutation in He.
    rewrite Forall_forall in Hname. by apply Hname. }
  rewrite <- Hk. change [name e1; name e2] with (name <$> [e1; e2]).
  apply fmap_sublist. etransitivity; [exact Hs|]. apply sublist_filter.
Qed.

Lemma elem_of_foldl_addKey acc l k :
  k ∈ foldl addKey acc l <-> k ∈ acc \/ k ∈ l.
Proof.
  revert acc. induction l as [|x l IH]; intros acc; simpl.
  - rewrite elem_of_nil. tauto.
  - rewrite IH, elem_of_cons. unfold addKey. case_decide.
    + split; [tauto|]. intros [?|[->|?]]; tauto.
    + rewrite elem_of_app, list_elem_of_singleton. tauto.
Qed.

Lemma firstSeen_snoc l x : firstSeen (l ++ [x]) = addKey (firstSeen l) x.
Proof. unfold firstSeen. by rewrite foldl_app. Qed.

(** In the list of first occurrences, an element stands before another
    only if it occurs before the other one's first occurrence. *)
Lemma firstSeen_order l k1 k2 :
  [k1; k2] `sublist_of` firstSeen l ->
  exists p, (p <= length l)%nat /\ k1 ∈ take p l /\ k2 ∉ take p l.
Proof.
  induction l as [|x l IH] using rev_ind.
  - intros Hs%sublist_nil_r. discriminate.
  - rewrite firstSeen_snoc. unfold addKey. rewrite length_app. simpl.
    assert (Hold : [k1; k2] `sublist_of` firstSeen l ->
              exists p, (p <= length l + 1)%nat /\ k1 ∈ take p (l ++ [x])
                        /\ k2 ∉ take p (l ++ [x])).
    { intros (p & Hp & Hin & Hout)%IH. exists p.
      rewrite take_app_le by done. split; [lia|done]. }
    case_decide as Hx; [done|].
    intros (l1 & l2 & Heq & Hl1 & Hl2)%sublist_app_r.
    destruct l2 as [|y l2].
    + rewrite app_nil_r in Heq. subst l1. by apply Hold.
    + assert (l2 = [] /\ y = x) as [-> ->].
      { inversion Hl2 as [|? ? ? Hn|? ? ? Hn]; subst.
        - apply sublist_nil_r in Hn. by subst.
        - by apply sublist_nil_r in Hn. }
      destruct l1 as [|a [|b l1]]; simplify_eq/=;
        [|by destruct l1].
      exists (length l). rewrite take_app_length. split; [lia|].
      apply singleton_sublist_l in Hl1.
      unfold firstSeen in Hl1, Hx. rewrite elem_of_foldl_addKey in Hl1, Hx.
      rewrite elem_of_nil in Hl1, Hx. tauto.
Qed.

Lemma keys_groupFold {V W} (key : W -> string) (new : W -> V) (upd : V -> W -> V) ws :
  (foldl (groupStep key new upd) [] ws).*1 = firstSeen (key <$> ws).
Proof.
  induction ws as [|w ws IH] using rev_ind; [done|].
  rewrite foldl_app, fmap_app. simpl. rewrite firstSeen_snoc, <- IH.
  unfold groupStep at 1. rewrite keys_set. unfold addKey.
  destruct (Obj.get (key w) (foldl (groupStep key new upd) [] ws)) eqn:E.
  - rewrite decide_True; [done|].
    apply get_Some_elem in E. apply list_elem_of_fmap. by exists (key w, v).
  - apply get_None in E. by rewrite decide_False.
Qed.

Lemma keys_addStaff_loop booked space l (d : list (string * InstructorBucket.t)) :
  (foldl (addStaff booked space) d l).*1
  = foldl addKey d.*1 (filter (fun n => inherited n = false) (staffName <$> l)).
Proof.
  revert d. induction l as [|s l IHl]; intros d; [done|].
  change (staffName <$> s :: l) with (staffName s :: (staffName <$> l)).
  simpl foldl. rewrite IHl, filter_cons. unfold addStaff, Obj.lookup.
  destruct (Obj.get (staffName s) d) eqn:E.
  - rewrite keys_set, E.
    assert (Hin : staffName s ∈ d.*1).
    { apply get_Some_elem in E. apply list_elem_of_fmap. by eexists (staffName s, _). }
    assert (Hk : addKey d.*1 (staffName s) = d.*1)
      by (unfold addKey; by rewrite decide_True).
    case_decide; [|done]. simpl foldl. by rewrite Hk.
  - destruct (inherited (staffName s)) eqn:Hn.
    + by rewrite decide_False by done.
    + rewrite decide_True by done. simpl foldl. rewrite keys_set, E.
      assert (Hk : addKey d.*1 (staffName s) = d.*1 ++ [staffName s]).
      { unfold addKey. apply get_None in E. by rewrite decide_False. }
      by rewrite Hk.
Qed.

Lemma keys_byInstructor (parseDate : string -> option Date.t) ws :
  (Acc.byInstructor (accOf parseDate ws)).*1
  = firstSeen (filter (fun n => inherited n = false) (staffName <$> (ws ≫= staffsOf))).
Proof.
  simpl Acc.byInstructor. unfold firstSeen.
  induction ws as [|w ws IH] using rev_ind; [done|].
  rewrite foldl_app, bind_app, fmap_app, filter_app, foldl_app, <- IH. simpl.
  rewrite app_nil_r. unfold addStaffs at 1. apply keys_addStaff_loop.
Qed.

Lemma take_filter {A} (P : A -> Prop) `{forall x, Decision (P x)} (l : list A) (p' : nat) :
  exists p, filter P (take p l) = take p' (filter P l).
Proof.
  revert p'. induction l as [|x l IH]; intros p'.
  - exists 0%nat. by destruct p'.
  - destruct p' as [|p']; [by exists 0%nat|].
    rewrite filter_cons. destruct (decide (P x)) as [Hx|Hx].
    + destruct (IH p') as [p Hp]. exists (S p). simpl.
      by rewrite filter_cons, decide_True, Hp.
    + destruct (IH (S p')) as [p Hp]. exists (S p). simpl.
      by rewrite filter_cons, decide_False.
Qed.

(** X9: entries of [byType], and of [byInstructor], whose attendance rates
    are equal keep the order in which their names first occur in the input
    (names that are array indices apart, which an object lists first): if
    one such entry stands before another, its name has occurred in the input
    before the first occurrence of the other's. *)
Theorem X9_ties_keep_first_seen_order (parseDate : string -> option Date.t)
    (ws : list Workout.t) (r : Report.t) :
  processAnalytics parseDate ws = Return r ->
  (forall i j e1 e2, (i < j)%nat ->
     Report.byType r !! i = Some e1 -> Report.byType r !! j = Some e2 ->
     parseFloat10 (TypeStat.attendanceRate e1) = parseFloat10 (TypeStat.attendanceRate e2) ->
     array_index (TypeStat.name e1) = None -> array_index (TypeStat.name e2) = None ->
     exists p, TypeStat.name e1 ∈ take p (typeNameOf <$> ws) /\
               TypeStat.name e2 ∉ take p (typeNameOf <$> ws)) /\
  (forall i j e1 e2, (i < j)%nat ->
     Report.byInstructor r !! i = Some e1 -> Report.byInstructor r !! j = Some e2 ->
     parseFloat10 (InstructorStat.attendanceRate e1)
       = parseFloat10 (InstructorStat.attendanceRate e2) ->
     array_index (InstructorStat.name e1) = None ->
     array_index (InstructorStat.name e2) = None ->
     exists p, InstructorStat.name e1 ∈ take p (staffName <$> (ws ≫= staffsOf)) /\
               InstructorStat.name e2 ∉ take p (staffName <$> (ws ≫= staffsOf))).
Proof.
  intros [Hv ->]%processAnalytics_Return. split.
  - intros i j e1 e2 Hij H1 H2 Hr Hx1 Hx2.
    change (Report.byType (reportOf parseDate ws))
      with (typeStats (accOf parseDate ws)) in H1, H2.
    rewrite typeStats_ranked in H1, H2.
    destruct (byType_wf parseDate ws) as [_ Hname].
    pose proof (ranked_ties TypeStat.name (parseFloat10 ∘ TypeStat.attendanceRate)
                  (typeStat (Acc.uniqueUsersByType (accOf parseDate ws)))
                  (Acc.byType (accOf parseDate ws)) i j e1 e2) as Hs.
    simpl Acc.byType in Hs.
    rewrite keys_groupFold in Hs.
    destruct (firstSeen_order (typeNameOf <$> ws) (TypeStat.name e1) (TypeStat.name e2))
      as (p & _ & Hp); [|by exists p].
    by apply Hs.
  - intros i j e1 e2 Hij H1 H2 Hr Hx1 Hx2.
    assert (Hn2 : inherited (InstructorStat.name e2) = false).
    { apply list_elem_of_lookup_2 in H2.
      change (Report.byInstructor (reportOf parseDate ws))
        with (instructorStats (accOf parseDate ws)) in H2.
      apply elem_of_instructorStats in H2 as (b & Hb & _).
      by apply (byInstructor_listed parseDate ws _ b). }
    change (Report.byInstructor (reportOf parseDate ws))
      with (instructorStats (accOf parseDate ws)) in H1, H2.
    rewrite instructorStats_ranked in H1, H2.
    destruct (byInstructor_wf parseDate ws) as [_ Hname].
    pose proof (ranked_ties InstructorStat.name
                  (parseFloat10 ∘ InstructorStat.attendanceRate) instructorStat
                  (Acc.byInstructor (accOf parseDate ws)) i j e1 e2) as Hs.
    rewrite keys_byInstructor in Hs.
    destruct (firstSeen_order
                (filter (fun n => inherited n = false) (staffName <$> (ws ≫= staffsOf)))
                (InstructorStat.name e1) (InstructorStat.name e2))
      as (p' & _ & Hin & Hout); [by apply Hs|].
    destruct (take_filter (fun n => inherited n = false)
                (staffName <$> (ws ≫= staffsOf)) p') as [p Hp].
    rewrite <- Hp in Hin, Hout. exists p. split.
    + by apply list_elem_of_filter in Hin as [_ ?].
    + intros Hk. apply Hout. by apply list_elem_of_filter.
Qed.

Lemma X9_ties_keep_first_seen_order_witness :
  processAnalytics localDate tied = Return (reportOf localDate tied) /\
  TypeStat.name <$> Report.byType (reportOf localDate tied) = ["Yoga"; "Aqua"] /\
  exists p, "Yoga" ∈ take p (typeNameOf <$> tied) /\ "Aqua" ∉ take p (typeNameOf <$> tied).
Proof.
  assert (H : processAnalytics localDate tied = Return (reportOf localDate tied)).
  { vm_compute. reflexivity. }
  split; [exact H|]. split; [vm_compute; reflexivity|].
  destruct (X9_ties_keep_first_seen_order localDate tied _ H) as [Ht _].
  assert (Hl : exists e1 e2,
             Report.byType (reportOf localDate tied) = [e1; e2] /\
             parseFloat10 (TypeStat.attendanceRate e1)
               = parseFloat10 (TypeStat.attendanceRate e2) /\
             TypeStat.name e1 = "Yoga" /\ TypeStat.name e2 = "Aqua").
  { vm_compute. eexists _, _. split; [reflexivity|]. split; [reflexivity|].
    split; reflexivity. }
  destruct Hl as (e1 & e2 & Hl & Hr & Hn1 & Hn2).
  rewrite <- Hn1, <- Hn2.
  apply (Ht 0%nat 1%nat e1 e2); [lia | by rewrite Hl | by rewrite Hl | exact Hr | |].
  - rewrite Hn1. reflexivity.
  - rewrite Hn2. reflexivity.
Defined.

(** ** Names, colours and images *)

Lemma str_or_nonempty a b : b <> EmptyString -> str_or a b <> EmptyString.
Proof.
  intros Hb. unfold str_or. destruct a as [s|]; [|done].
  destruct (String.eqb_spec s EmptyString); done.
Qed.

Lemma trimStart_startsClean s : startsClean (trimStart s).
Proof.
  induction s as [|c s IH]; simpl; [done|].
  destruct (is_space c) eqn:E; [done|]. simpl. exact E.
Qed.

Lemma trimEnd_endsClean s : endsClean (trimEnd s).
Proof.
  induction s as [|c s IH]; simpl; [done|].
  destruct (trimEnd s) as [|c' t].
  - destruct (is_space c) eqn:E; simpl; done.
  - exact IH.
Qed.

Lemma trimEnd_startsClean s : startsClean s -> startsClean (trimEnd s).
Proof.
  destruct s as [|c s]; simpl; [done|]. intros Hc.
  destruct (trimEnd s); [by rewrite Hc|done].
Qed.

Lemma staffName_clean s :
  staffName s <> EmptyString /\ startsClean (staffName s) /\ endsClean (staffName s).
Proof.
  unfold staffName. cbv zeta.
  set (full := (str_or (Staff.firstname s) EmptyString ++ " "
                ++ str_or (Staff.lastname s) EmptyString)%string).
  split; [by apply str_or_nonempty|].
  unfold str_or. destruct (String.eqb_spec (trim full) EmptyString) as [_|_].
  - split; reflexivity.
  - unfold trim. split.
    + apply trimEnd_startsClean, trimStart_startsClean.
    + apply trimEnd_endsClean.
Qed.

Lemma imagekey_loop booked space l d n :
  inherited n = false ->
  InstructorBucket.imagekey <$> Obj.get n (foldl (addStaff booked space) d l)
  = match Obj.get n d with
    | Some b => Some (InstructorBucket.imagekey b)
    | None => Staff.imagekey <$> head (filter (fun s => staffName s = n) l)
    end.
Proof.
  intros Hinh. revert d. induction l as [|s l IH]; intros d.
  - simpl. by destruct (Obj.get n d).
  - simpl foldl. rewrite IH. unfold addStaff, Obj.lookup. rewrite filter_cons.
    destruct (decide (n = staffName s)) as [->|Hn].
    + rewrite decide_True by done. rewrite Hinh.
      destruct (Obj.get (staffName s) d); by rewrite get_set, decide_True.
    + rewrite decide_False by congruence.
      destruct (Obj.get (staffName s) d);
        [|destruct (inherited (staffName s)); [done|]]; by rewrite get_set, decide_False.
Qed.

Lemma imagekey_closed (parseDate : string -> option Date.t) ws n :
  inherited n = false ->
  InstructorBucket.imagekey <$> Obj.get n (Acc.byInstructor (accOf parseDate ws))
  = Staff.imagekey <$> head (filter (fun s => staffName s = n) (ws ≫= staffsOf)).
Proof.
  intros Hinh.
  simpl Acc.byInstructor. induction ws as [|w ws IH] using rev_ind; [done|].
  rewrite foldl_app, bind_app, filter_app, head_app. simpl foldl.
  unfold addStaffs at 1. rewrite imagekey_loop by done. simpl mbind. rewrite app_nil_r.
  destruct (Obj.get n (foldl addStaffs [] ws)) as [b|] eqn:E.
  - simpl in IH. destruct (head (filter _ (ws ≫= staffsOf))); [|done].
    simpl in IH. by injection IH as ->.
  - simpl in IH. by destruct (head (filter _ (ws ≫= staffsOf))).
Qed.

(** X10: the name of every [byInstructor] entry is the display name of some
    instructor of the input, is never empty and has no white space at either
    end (a blank name shows as "Unknown"); the name and the colour of every
    [byType] entry are never empty. *)
Theorem X10_names_are_clean (parseDate : string -> option Date.t)
    (ws : list Workout.t) (r : Report.t) :
  processAnalytics parseDate ws = Return r ->
  Forall (fun e => InstructorStat.name e ∈ staffName <$> (ws ≫= staffsOf) /\
                   InstructorStat.name e <> EmptyString /\
                   startsClean (InstructorStat.name e) /\
                   endsClean (InstructorStat.name e))
         (Report.byInstructor r) /\
  Forall (fun e => TypeStat.name e <> EmptyString /\ TypeStat.color e <> EmptyString)
         (Report.byType r).
Proof.
  intros [Hv ->]%processAnalytics_Return. split.
  - apply Forall_forall. intros e He.
    apply elem_of_instructorStats in He as (b & Hb & ->).
    apply get_Some_elem in Hb.
    assert (Hin : InstructorStat.name (instructorStat b) ∈ staffName <$> (ws ≫= staffsOf)).
    { assert (Hk : InstructorStat.name (instructorStat b)
                   ∈ (Acc.byInstructor (accOf parseDate ws)).*1).
      { apply list_elem_of_fmap. eexists. split; [|exact Hb]. done. }
      rewrite keys_byInstructor in Hk. unfold firstSeen in Hk.
      apply elem_of_foldl_addKey in Hk as [Hk|Hk]; [by apply elem_of_nil in Hk|].
      by apply list_elem_of_filter in Hk as [_ ?]. }
    split; [done|].
    apply list_elem_of_fmap in Hin as (s & -> & _). apply staffName_clean.
  - apply Forall_forall. intros e He.
    apply elem_of_typeStats in He as (b & Hb & ->).
    remember (TypeStat.name (typeStat (Acc.uniqueUsersByType (accOf parseDate ws)) b))
      as k eqn:Hk.
    rewrite byType_closed in Hb.
    destruct (groupOf typeNameOf k ws) as [|w0 g] eqn:E; [done|]. injection Hb as <-.
    assert (Hw : w0 ∈ groupOf typeNameOf k ws) by (rewrite E; left).
    apply list_elem_of_filter in Hw as [Hw _]. simpl. split.
    + rewrite <- Hw. by apply str_or_nonempty.
    + by apply str_or_nonempty.
Qed.

Lemma X10_names_are_clean_witness :
  processAnalytics localDate padded = Return (reportOf localDate padded) /\
  InstructorStat.name <$> Report.byInstructor (reportOf localDate padded)
    = ["Ann"; "Unknown"] /\
  Forall (fun e => InstructorStat.name e <> EmptyString)
    (Report.byInstructor (reportOf localDate padded)).
Proof.
  assert (H : processAnalytics localDate padded = Return (reportOf localDate padded)).
  { vm_compute. reflexivity. }
  split; [exact H|]. split; [vm_compute; reflexivity|].
  eapply Forall_impl; [exact (proj1 (X10_names_are_clean localDate _ _ H))|].
  intros e He. apply He.
Defined.

(** X11: the first occurrence decides what is fixed when an entry is
    created: the colour of a [byType] entry is the colour of the first
    session of its type (the default "#667eea" if that session has none), and
    the image key of a [byInstructor] entry is that of the first instructor
    record with its display name, in input order; later sessions and records
    never change them. *)
Theorem X11_first_occurrence_wins (parseDate : string -> option Date.t)
    (ws : list Workout.t) (r : Report.t) :
  processAnalytics parseDate ws = Return r ->
  Forall (fun e =>
            Some (TypeStat.color e)
            = colorOf <$> head (filter (fun w => typeNameOf w = TypeStat.name e) ws))
         (Report.byType r) /\
  Forall (fun e =>
            Some (InstructorStat.imagekey e)
            = Staff.imagekey <$>
                head (filter (fun s => staffName s = InstructorStat.name e) (ws ≫= staffsOf)))
         (Report.byInstructor r).
Proof.
  intros [Hv ->]%processAnalytics_Return. split.
  - apply Forall_forall. intros e He.
    apply elem_of_typeStats in He as (b & Hb & ->).
    remember (TypeStat.name (typeStat (Acc.uniqueUsersByType (accOf parseDate ws)) b))
      as k eqn:Hk.
    rewrite byType_closed in Hb. unfold groupOf in Hb.
    destruct (filter (fun w => typeNameOf w = k) ws) as [|w0 g]; [done|].
    by injection Hb as <-.
  - apply Forall_forall. intros e He.
    apply elem_of_instructorStats in He as (b & Hb & ->).
    rewrite <- (imagekey_closed parseDate) by (by apply (byInstructor_listed parseDate ws _ b)).
    by rewrite Hb.
Qed.

Lemma X11_first_occurrence_wins_witness :
  processAnalytics localDate recoloured = Return (reportOf localDate recoloured) /\
  TypeStat.color <$> Report.byType (reportOf localDate recoloured) = ["#ff0000"] /\
  Forall (fun e =>
            Some (TypeStat.color e)
            = colorOf <$> head (filter (fun w => typeNameOf w = TypeStat.name e) recoloured))
         (Report.byType (reportOf localDate recoloured)).
Proof.
  assert (H : processAnalytics localDate recoloured
              = Return (reportOf localDate recoloured)).
  { vm_compute. reflexivity. }
  split; [exact H|]. split; [vm_compute; reflexivity|].
  exact (proj1 (X11_first_occurrence_wins localDate _ _ H)).
Defined.

(** * Requests with retry *)

Section RetryFacts.
Import Fetch.
Context {J : Type}.
Context (server : nat -> response J) (url apiKey : string) (maxRetries : nat).

Lemma failed_inr (r : response J) : failed r <-> exists m, attemptOnce r = inr m.
Proof.
  unfold failed. destruct (attemptOnce r); split; try done; eauto. by intros [? ?].
Qed.

Lemma requests_step a m t :
  requests (Request url apiKey :: Log a maxRetries m :: Sleep (N.of_nat a * 2000) :: t)
  = S (requests t).
Proof. reflexivity. Qed.

Lemma sleeps_step a m t :
  sleeps (Request url apiKey :: Log a maxRetries m :: Sleep (N.of_nat a * 2000) :: t)
  = N.of_nat a * 2000 :: sleeps t.
Proof. reflexivity. Qed.

Lemma attempts_success left a k body :
  (a + left = maxRetries + 1)%nat -> (a <= k <= maxRetries)%nat ->
  (forall i, (a <= i < k)%nat -> failed (server i)) ->
  attemptOnce (server k) = inl body ->
  exists t, attempts server url apiKey maxRetries left a = (t, Resolved body) /\
            requests t = (k - a + 1)%nat /\
            sleeps t = (fun i => N.of_nat i * 2000) <$> seq a (k - a).
Proof.
  revert a. induction left as [|left IH]; intros a Hl Hk Hfail Hok; [lia|].
  simpl. destruct (decide (a = k)) as [->|Hne].
  - rewrite Hok. eexists. split; [done|]. replace (k - k)%nat with 0%nat by lia. done.
  - assert (Hf : failed (server a)) by (apply Hfail; lia).
    apply failed_inr in Hf as [m Hm]. rewrite Hm.
    destruct (Nat.eqb_spec a maxRetries) as [->|_]; [lia|].
    destruct (IH (S a)) as (t & Ht & Hr & Hs); [lia|lia|intros; apply Hfail; lia|done|].
    rewrite Ht. eexists. split; [done|]. split.
    + rewrite requests_step. lia.
    + rewrite sleeps_step, Hs.
      replace (k - a)%nat with (S (k - S a)) by lia. done.
Qed.

Lemma attempts_exhausted left a :
  (a + left = maxRetries + 1)%nat -> (1 <= left)%nat ->
  (forall i, (a <= i <= maxRetries)%nat -> failed (server i)) ->
  exists t m, attempts server url apiKey maxRetries left a = (t, Rejected m) /\
              attemptOnce (server maxRetries) = inr m /\
              requests t = left /\
              sleeps t = (fun i => N.of_nat i * 2000) <$> seq a (left - 1).
Proof.
  revert a. induction left as [|left IH]; intros a Hl Hpos Hfail; [lia|].
  cbn [attempts]. assert (Hf : failed (server a)) by (apply Hfail; lia).
  apply failed_inr in Hf as [m Hm]. rewrite Hm.
  destruct (Nat.eqb_spec a maxRetries) as [->|Hne].
  - assert (left = 0)%nat as -> by lia. exists [Request url apiKey; Log maxRetries maxRetries m], m.
    done.
  - destruct (IH (S a)) as (t & m' & Ht & Hlast & Hr & Hs); [lia|lia|intros; apply Hfail; lia|].
    rewrite Ht. eexists _, m'. split; [done|]. split; [done|]. split.
    + rewrite requests_step. lia.
    + rewrite sleeps_step, Hs.
      replace (S left - 1)%nat with (S (left - 1)) by lia. done.
Qed.

Lemma attempts_inv left a t r :
  (a + left = maxRetries + 1)%nat ->
  attempts server url apiKey maxRetries left a = (t, r) ->
  match r with
  | Resolved body =>
      exists k, (a <= k <= maxRetries)%nat /\ attemptOnce (server k) = inl body /\
                forall i, (a <= i < k)%nat -> failed (server i)
  | Rejected m =>
      (a <= maxRetries)%nat /\ attemptOnce (server maxRetries) = inr m /\
      forall i, (a <= i <= maxRetries)%nat -> failed (server i)
  | ResolvedUndefined => left = 0%nat
  end.
Proof.
  revert a t r. induction left as [|left IH]; intros a t r Hl; simpl.
  - by intros [= <- <-].
  - destruct (attemptOnce (server a)) as [body|m] eqn:E.
    + intros [= <- <-]. exists a. split; [lia|]. split; [done|]. intros; lia.
    + destruct (Nat.eqb_spec a maxRetries) as [->|Hne].
      * intros [= <- <-]. split; [lia|]. split; [done|].
        intros i Hi. assert (i = maxRetries) as -> by lia. apply failed_inr. eauto.
      * destruct (attempts server url apiKey maxRetries left (S a)) as [t' r'] eqn:Ht.
        intros [= <- <-]. apply IH in Ht; [|lia].
        assert (Ha : failed (server a)) by (apply failed_inr; eauto).
        destruct r' as [body| |m'].
        -- destruct Ht as (k & Hk & Hok & Hf). exists k. split; [lia|]. split; [done|].
           intros i Hi. destruct (decide (i = a)) as [->|]; [done|apply Hf; lia].
        -- lia.
        -- destruct Ht as (Hk & Hlast & Hf). split; [lia|]. split; [done|].
           intros i Hi. destruct (decide (i = a)) as [->|]; [done|apply Hf; lia].
Qed.

Lemma sum_backoff n :
  sumN ((fun i => N.of_nat i * 2000) <$> seq 1 n) = 1000 * N.of_nat n * (N.of_nat n + 1).
Proof.
  induction n as [|n IH]; [done|].
  rewrite seq_S, fmap_app, sumN_app, IH.
  rewrite fmap_cons, fmap_nil, sumN_cons. unfold sumN at 1. simpl foldl.
  replace (1 + n)%nat with (S n) by lia. lia.
Qed.

End RetryFacts.

(** X12: the call returns the body of the first request that succeeds,
    sends no request after it, and has paused 2000 ms times the attempt
    number after each failed attempt before it: k requests and
    1000 k (k - 1) ms of pauses when attempt k is the first to succeed. *)
Theorem X12_first_success_is_returned {J : Type} (server : nat -> Fetch.response J)
    (url apiKey : string) (maxRetries k : nat) (body : J) :
  (1 <= k <= maxRetries)%nat ->
  (forall i, (1 <= i < k)%nat -> Fetch.failed (server i)) ->
  Fetch.attemptOnce (server k) = inl body ->
  exists t, Fetch.fetchZoeziApi server url apiKey maxRetries = (t, Fetch.Resolved body) /\
            Fetch.requests t = k /\
            Fetch.sleeps t = (fun i => N.of_nat i * 2000) <$> seq 1 (k - 1) /\
            sumN (Fetch.sleeps t) = 1000 * N.of_nat k * N.of_nat (k - 1).
Proof.
  intros Hk Hfail Hok.
  destruct (attempts_success server url apiKey maxRetries maxRetries 1 k body)
    as (t & Ht & Hr & Hs); [lia|lia|done|done|].
  exists t. split; [done|]. split; [lia|]. split; [done|].
  rewrite Hs, sum_backoff. lia.
Qed.

Lemma X12_first_success_is_returned_witness :
  exists t,
    Fetch.fetchZoeziApi
      (fun i => if (i <? 3)%nat then Fetch.Http false 503 (inl 0%nat)
                else Fetch.Http true 200 (inl 7%nat))
      "https://gym.example/api" "key" 3 = (t, Fetch.Resolved 7%nat) /\
    Fetch.requests t = 3%nat /\
    Fetch.sleeps t = (fun i => N.of_nat i * 2000) <$> seq 1 (3 - 1) /\
    sumN (Fetch.sleeps t) = 1000 * N.of_nat 3 * N.of_nat (3 - 1).
Proof.
  apply X12_first_success_is_returned.
  - lia.
  - intros i Hi. assert (i = 1 \/ i = 2)%nat as [-> | ->] by lia; exact I.
  - reflexivity.
Defined.

(** X13: the call fails exactly when it makes at least one attempt and
    every attempt fails; it then raises the error of the last attempt,
    after [maxRetries] requests and 1000 n (n - 1) ms of pauses (6000 ms for
    the default of three attempts), without pausing after the last failure.
    With [maxRetries] 0 it sends nothing and returns undefined; a returned
    body always comes from a request that succeeded after only failures. *)
Theorem X13_retries_are_bounded {J : Type} (server : nat -> Fetch.response J)
    (url apiKey : string) (maxRetries : nat) :
  let (t, r) := Fetch.fetchZoeziApi server url apiKey maxRetries in
  (Fetch.requests t <= maxRetries)%nat /\
  match r with
  | Fetch.Rejected m =>
      (1 <= maxRetries)%nat /\
      (forall i, (1 <= i <= maxRetries)%nat -> Fetch.failed (server i)) /\
      Fetch.attemptOnce (server maxRetries) = inr m /\
      Fetch.requests t = maxRetries /\
      Fetch.sleeps t = (fun i => N.of_nat i * 2000) <$> seq 1 (maxRetries - 1) /\
      sumN (Fetch.sleeps t) = 1000 * N.of_nat maxRetries * N.of_nat (maxRetries - 1)
  | Fetch.ResolvedUndefined => maxRetries = 0%nat /\ t = []
  | Fetch.Resolved body =>
      exists k, (1 <= k <= maxRetries)%nat /\ Fetch.attemptOnce (server k) = inl body /\
                (forall i, (1 <= i < k)%nat -> Fetch.failed (server i)) /\
                Fetch.requests t = k
  end.
Proof.
  destruct (Fetch.fetchZoeziApi server url apiKey maxRetries) as [t r] eqn:E.
  pose proof (attempts_inv server url apiKey maxRetries maxRetries 1 t r) as Hinv.
  unfold Fetch.fetchZoeziApi in E. specialize (Hinv ltac:(lia) E).
  destruct r as [body| |m].
  - destruct Hinv as (k & Hk & Hok & Hf).
    destruct (attempts_success server url apiKey maxRetries maxRetries 1 k body)
      as (t' & Ht & Hr & Hs); [lia|lia|done|done|].
    assert (t' = t) as -> by congruence.
    split; [lia|]. exists k. split_and!; [lia|lia|done|done|lia].
  - subst maxRetries. simpl in E. injection E as <-. done.
  - destruct Hinv as (Hk & Hlast & Hf).
    destruct (attempts_exhausted server url apiKey maxRetries maxRetries 1)
      as (t' & m' & Ht & Hm & Hr & Hs); [lia|lia|done|].
    assert (t' = t) as -> by congruence.
    split; [lia|]. split_and!; try done.
    rewrite Hs, sum_backoff. lia.
Qed.

(** * Embed tokens *)

Section TokenFacts.
Import Token.

Lemma split_dots_nonempty s : split_dots s <> [].
Proof.
  destruct s as [|c s]; simpl; [done|].
  destruct (Ascii.eqb c "."); [done|]. by destruct (split_dots s).
Qed.

Lemma split_dots_dotless s : dotless s = true -> split_dots s = [s].
Proof.
  induction s as [|c s IH]; simpl; [done|].
  destruct (Ascii.eqb c "."); simpl; [done|]. intros Hs. by rewrite IH.
Qed.

Lemma split_dots_app a b :
  dotless a = true -> split_dots (a ++ "." ++ b)%string = a :: split_dots b.
Proof.
  induction a as [|c a IH]; simpl; [done|].
  destruct (Ascii.eqb c "."); simpl; [done|]. intros Ha. by rewrite IH.
Qed.

Lemma join_dots_cons c p ps : join_dots (String c p :: ps) = String c (join_dots (p :: ps)).
Proof. by destruct ps. Qed.

Lemma join_split_dots s : join_dots (split_dots s) = s.
Proof.
  induction s as [|c s IH]; simpl; [done|].
  pose proof (split_dots_nonempty s) as Hne.
  destruct (Ascii.eqb_spec c ".") as [->|Hc].
  - destruct (split_dots s) as [|p ps]; [done|].
    change (join_dots (EmptyString :: p :: ps)) with ("." ++ join_dots (p :: ps))%string.
    by rewrite IH.
  - destruct (split_dots s) as [|p ps]; [done|].
    by rewrite join_dots_cons, IH.
Qed.

Lemma split_dots_parts s : Forall (fun p => dotless p = true) (split_dots s).
Proof.
  induction s as [|c s IH]; simpl; [by constructor|].
  destruct (Ascii.eqb c ".") eqn:E; [by constructor|].
  pose proof (split_dots_nonempty s) as Hne.
  destruct (split_dots s) as [|p ps]; [done|].
  apply Forall_cons in IH as [Hp Hps]. constructor; [|done]. simpl. by rewrite E, Hp.
Qed.

Lemma length_split_dots s : length (split_dots s) = S (dots s).
Proof.
  induction s as [|c s IH]; simpl; [done|].
  destruct (Ascii.eqb c "."); simpl; [by rewrite IH|].
  pose proof (split_dots_nonempty s) as Hne.
  destruct (split_dots s) as [|p ps]; [done|]. simpl in IH |- *. lia.
Qed.

Lemma equal_bytes_spec a b : equal_bytes a b = true <-> a = b.
Proof.
  revert b. induction a as [|x a IH]; intros [|y b]; simpl; try done.
  rewrite andb_true_iff, IH. split.
  - intros [Hxy ->]. apply Byte.byte_dec_bl in Hxy. by subst.
  - intros [= -> ->]. split; [by apply Byte.byte_dec_lb|done].
Qed.

Lemma timingSafeEqual_true a b : timingSafeEqual a b = Some true <-> a = b.
Proof.
  unfold timingSafeEqual. destruct (Nat.eqb_spec (length a) (length b)) as [Hl|Hl].
  - rewrite <- equal_bytes_spec. split; congruence.
  - split; [done|]. intros ->. done.
Qed.

Context (hmacSha256 : string -> string -> string).
Context (toBase64url fromBase64url : string -> string).
Context (bytes : string -> list Byte.byte).
Context (parseInt : string -> option Z).
Context (EMBED_SECRET : string).

Lemma verify_Valid now token clubId :
  verifyEmbedToken hmacSha256 fromBase64url bytes parseInt EMBED_SECRET now (Some token)
    = Valid clubId ->
  EMBED_SECRET <> EmptyString /\
  exists p0 p1 sig,
    token = (p0 ++ "." ++ p1 ++ "." ++ sig)%string /\
    dotless p0 = true /\ dotless p1 = true /\ dotless sig = true /\
    clubId = fromBase64url p0 /\
    bytes sig = bytes (hmacSha256 EMBED_SECRET (clubId ++ "." ++ fromBase64url p1)%string) /\
    forall t, parseInt (fromBase64url p1) = Some t -> (Z.of_N now - t <= maxAge)%Z.
Proof.
  unfold verifyEmbedToken.
  destruct (String.eqb_spec EMBED_SECRET EmptyString) as [|Hs]; [done|].
  destruct (String.eqb_spec token EmptyString) as [|Ht]; [done|].
  pose proof (join_split_dots token) as Hj.
  pose proof (split_dots_parts token) as Hp.
  destruct (split_dots token) as [|p0 [|p1 [|sig [|? ?]]]]; try done.
  cbv zeta.
  destruct (timingSafeEqual _ _) as [[|]|] eqn:E; try done.
  apply timingSafeEqual_true in E.
  apply Forall_cons in Hp as [H0 Hp]. apply Forall_cons in Hp as [H1 Hp].
  apply Forall_cons in Hp as [H2 _].
  intros Hv. split; [done|]. exists p0, p1, sig.
  assert (Hc : clubId = fromBase64url p0).
  { destruct (parseInt (fromBase64url p1)) as [t|]; [|congruence].
    destruct (maxAge <? Z.of_N now - t)%Z; congruence. }
  subst clubId. split_and!; try done.
  intros t Hpt. rewrite Hpt in Hv.
  destruct (Z.ltb_spec maxAge (Z.of_N now - t)); [done|lia].
Qed.

End TokenFacts.

(** X14: a token generated for a club at time t verifies, at any later
    time within one year (365 days of milliseconds), to exactly that club,
    and is rejected as expired after that; this holds for any base64url
    codec that decodes what it encodes and, like the HMAC digest, produces no
    dot, and with [parseInt] reading back the decimal timestamp. *)
Theorem X14_token_round_trip
    (hmacSha256 : string -> string -> string)
    (toBase64url fromBase64url : string -> string)
    (bytes : string -> list Byte.byte) (parseInt : string -> option Z)
    (EMBED_SECRET clubId : string) (t now : N) :
  EMBED_SECRET <> EmptyString ->
  fromBase64url (toBase64url clubId) = clubId ->
  fromBase64url (toBase64url (show t)) = show t ->
  Token.dotless (toBase64url clubId) = true ->
  Token.dotless (toBase64url (show t)) = true ->
  Token.dotless (hmacSha256 EMBED_SECRET (clubId ++ "." ++ show t)%string) = true ->
  parseInt (show t) = Some (Z.of_N t) ->
  exists token,
    Token.generateEmbedToken hmacSha256 toBase64url EMBED_SECRET t clubId = Some token /\
    Token.verifyEmbedToken hmacSha256 fromBase64url bytes parseInt EMBED_SECRET now (Some token)
    = if (Token.maxAge <? Z.of_N now - Z.of_N t)%Z then Token.Invalid "Token expired"
      else Token.Valid clubId.
Proof.
  intros Hs Hd1 Hd2 Hn1 Hn2 Hn3 Hp.
  unfold Token.generateEmbedToken, Token.verifyEmbedToken.
  destruct (String.eqb_spec EMBED_SECRET EmptyString) as [|_]; [done|].
  cbv zeta. eexists. split; [done|].
  destruct (String.eqb_spec (toBase64url clubId ++ "." ++ toBase64url (show t) ++ "."
              ++ hmacSha256 EMBED_SECRET (clubId ++ "." ++ show t))%string EmptyString)
    as [He|_].
  { by destruct (toBase64url clubId). }
  rewrite split_dots_app by done. rewrite split_dots_app by done.
  rewrite split_dots_dotless by done.
  rewrite Hd1, Hd2, Hp.
  assert (Heq : Token.timingSafeEqual
                  (bytes (hmacSha256 EMBED_SECRET (clubId ++ "." ++ show t)%string))
                  (bytes (hmacSha256 EMBED_SECRET (clubId ++ "." ++ show t)%string))
                = Some true) by (by apply timingSafeEqual_true).
  by rewrite Heq.
Qed.

Lemma X14_token_round_trip_witness :
  exists token,
    Token.generateEmbedToken (fun _ _ => "c2ln") (fun s => s) "secret" 1700000000000 "42"
      = Some token /\
    Token.verifyEmbedToken (fun _ _ => "c2ln") (fun s => s) list_byte_of_string
      (fun _ => Some 1700000000000%Z) "secret" 1700000360000 (Some token)
    = if (Token.maxAge <? Z.of_N 1700000360000 - Z.of_N 1700000000000)%Z
      then Token.Invalid "Token expired" else Token.Valid "42".
Proof.
  apply (X14_token_round_trip (fun _ _ => "c2ln") (fun s => s) (fun s => s)
           list_byte_of_string (fun _ => Some 1700000000000%Z) "secret" "42"
           1700000000000 1700000360000); try (vm_compute; reflexivity).
  vm_compute. discriminate.
Defined.

(** X15: whatever is accepted carries a matching signature: if a token
    verifies to a club (or [hasValidEmbedToken] accepts it), then the secret
    is configured, the token has exactly three dot-separated parts, the club
    is the decoding of the first, the third has the same bytes as the HMAC,
    under the secret, of the club and the decoded second part joined by a
    dot, and a second part that reads as a number is at most one year old. *)
Theorem X15_accepted_tokens_are_signed
    (hmacSha256 : string -> string -> string)
    (fromBase64url : string -> string)
    (bytes : string -> list Byte.byte) (parseInt : string -> option Z)
    (EMBED_SECRET : string) (now : N) (token : option string) :
  Token.hasValidEmbedToken hmacSha256 fromBase64url bytes parseInt EMBED_SECRET now token
    = true ->
  EMBED_SECRET <> EmptyString /\
  exists tok p0 p1 sig,
    token = Some tok /\
    Token.verifyEmbedToken hmacSha256 fromBase64url bytes parseInt EMBED_SECRET now token
      = Token.Valid (fromBase64url p0) /\
    tok = (p0 ++ "." ++ p1 ++ "." ++ sig)%string /\
    Token.dotless p0 = true /\ Token.dotless p1 = true /\ Token.dotless sig = true /\
    bytes sig
      = bytes (hmacSha256 EMBED_SECRET (fromBase64url p0 ++ "." ++ fromBase64url p1)%string) /\
    forall t, parseInt (fromBase64url p1) = Some t -> (Z.of_N now - t <= Token.maxAge)%Z.
Proof.
  unfold Token.hasValidEmbedToken. destruct token as [tok|]; [|done].
  destruct (String.eqb tok EmptyString); [done|].
  destruct (Token.verifyEmbedToken _ _ _ _ _ _ _) as [c|e] eqn:E; [|done].
  intros _. apply verify_Valid in E as Hv.
  destruct Hv as (Hs & p0 & p1 & sig & -> & H0 & H1 & H2 & -> & Hsig & Hage).
  split; [done|]. eexists _, p0, p1, sig. split_and!; done.
Qed.

Lemma X15_accepted_tokens_are_signed_witness :
  exists tok p0 p1 sig,
    Some "42.1700000000000.c2ln" = Some tok /\
    Token.verifyEmbedToken (fun _ _ => "c2ln") (fun s => s) list_byte_of_string
      (fun _ => Some 1700000000000%Z) "secret" 1700000360000 (Some "42.1700000000000.c2ln")
      = Token.Valid p0 /\
    tok = (p0 ++ "." ++ p1 ++ "." ++ sig)%string /\
    Token.dotless p0 = true /\ Token.dotless p1 = true /\ Token.dotless sig = true /\
    list_byte_of_string sig = list_byte_of_string "c2ln" /\
    forall t, Some 1700000000000%Z = Some t -> (Z.of_N 1700000360000 - t <= Token.maxAge)%Z.
Proof.
  apply (X15_accepted_tokens_are_signed (fun _ _ => "c2ln") (fun s => s)
           list_byte_of_string (fun _ => Some 1700000000000%Z) "secret" 1700000360000
           (Some "42.1700000000000.c2ln")).
  vm_compute. reflexivity.
Defined.

(** X16: how the other tokens are rejected, once the secret is configured:
    a non-empty token is reported as "Invalid token format" exactly when it
    does not contain exactly two dots; with two dots, a signature part whose
    byte length differs from that of the expected signature is reported as
    "Token decode failed" (the comparison raises), and one of the same
    length but different bytes as "Invalid signature". *)
Theorem X16_rejections
    (hmacSha256 : string -> string -> string)
    (fromBase64url : string -> string)
    (bytes : string -> list Byte.byte) (parseInt : string -> option Z)
    (EMBED_SECRET : string) (now : N) (token : string) :
  EMBED_SECRET <> EmptyString -> token <> EmptyString ->
  let verdict :=
    Token.verifyEmbedToken hmacSha256 fromBase64url bytes parseInt EMBED_SECRET now
      (Some token) in
  (verdict = Token.Invalid "Invalid token format" <-> Token.dots token <> 2%nat) /\
  (forall p0 p1 sig, Token.split_dots token = [p0; p1; sig] ->
     let expected :=
       hmacSha256 EMBED_SECRET (fromBase64url p0 ++ "." ++ fromBase64url p1)%string in
     (verdict = Token.Invalid "Token decode failed"
        <-> length (bytes sig) <> length (bytes expected)) /\
     (verdict = Token.Invalid "Invalid signature"
        <-> length (bytes sig) = length (bytes expected) /\ bytes sig <> bytes expected)).
Proof.
  intros Hs Ht. cbv zeta. unfold Token.verifyEmbedToken.
  destruct (String.eqb_spec EMBED_SECRET EmptyString) as [|_]; [done|].
  destruct (String.eqb_spec token EmptyString) as [|_]; [done|].
  pose proof (length_split_dots token) as Hl.
  destruct (Token.split_dots token) as [|p0 [|p1 [|sig [|? ?]]]] eqn:E; simpl in Hl.
  - done.
  - split; [split; [lia|done]|]. intros; done.
  - split; [split; [lia|done]|]. intros; done.
  - split.
    + split; [|lia]. unfold Token.timingSafeEqual.
      destruct (_ =? _)%nat; [|done].
      destruct (Token.equal_bytes _ _); [|done].
      destruct (parseInt _) as [t|]; [|done].
      by destruct (Token.maxAge <? _)%Z.
    + intros ? ? ? [= <- <- <-]. unfold Token.timingSafeEqual.
      destruct (Nat.eqb_spec (length (bytes sig))
                  (length (bytes (hmacSha256 EMBED_SECRET
                     (fromBase64url p0 ++ "." ++ fromBase64url p1)%string))))
        as [Hlen|Hlen].
      * destruct (Token.equal_bytes (bytes sig) _) eqn:Heq.
        -- apply equal_bytes_spec in Heq.
           split; (split; [|tauto]).
           ++ destruct (parseInt _) as [t|]; [|done]. by destruct (Token.maxAge <? _)%Z.
           ++ destruct (parseInt _) as [t|]; [|done]. by destruct (Token.maxAge <? _)%Z.
        -- assert (Hne : bytes sig <> bytes (hmacSha256 EMBED_SECRET
                     (fromBase64url p0 ++ "." ++ fromBase64url p1)%string)).
           { intros Heq'. apply equal_bytes_spec in Heq'. congruence. }
           split; [split; [done|tauto]|]. split; [done|]. done.
      * split; [done|]. split; [done|]. tauto.
  - split; [split; [lia|done]|]. intros; done.
Qed.

Lemma X16_rejections_witness :
  (Token.verifyEmbedToken (fun _ _ => "c2ln") (fun s => s) list_byte_of_string
     (fun _ => Some 1700000000000%Z) "secret" 1700000360000 (Some "42.1700000000000")
   = Token.Invalid "Invalid token format" <-> Token.dots "42.1700000000000" <> 2%nat) /\
  Token.verifyEmbedToken (fun _ _ => "c2ln") (fun s => s) list_byte_of_string
     (fun _ => Some 1700000000000%Z) "secret" 1700000360000 (Some "42.1700000000000")
   = Token.Invalid "Invalid token format".
Proof.
  pose proof (X16_rejections (fun _ _ => "c2ln") (fun s => s) list_byte_of_string
                (fun _ => Some 1700000000000%Z) "secret" 1700000360000 "42.1700000000000")
    as H.
  split.
  - apply H; vm_compute; discriminate.
  - vm_compute. reflexivity.
Defined.

(** * The body of the analytics responses *)

Lemma filter_fmap_two {A B C D} (f : A -> B) (g : A -> C) (P : B -> Prop) (Q : C -> Prop)
    `{forall x, Decision (P x)} `{forall x, Decision (Q x)}
    (h1 : B -> D) (h2 : C -> D) (l : list A) :
  (forall x, P (f x) <-> Q (g x)) -> (forall x, h1 (f x) = h2 (g x)) ->
  h1 <$> filter P (f <$> l) = h2 <$> filter Q (g <$> l).
Proof.
  intros HPQ Hh. induction l as [|x l IH]; [done|].
  rewrite !fmap_cons, !filter_cons.
  destruct (decide (P (f x))) as [Hp|Hp].
  - rewrite decide_True by (by apply HPQ). rewrite !fmap_cons. by rewrite Hh, IH.
  - rewrite decide_False by (by rewrite <- HPQ). done.
Qed.

Lemma head_fmap {A B} (f : A -> B) (l : list A) : head (f <$> l) = f <$> head l.
Proof. by destruct l. Qed.

Section BodyFacts.
Context (siteMap : gmap Z (option string)) (cardMap : gmap Z Z).

Lemma raw_typeName w :
  RawWorkout.typeName (rawWorkoutOf siteMap cardMap w) = typeNameOf (workoutView w).
Proof. reflexivity. Qed.

Lemma raw_userIds w :
  BookingDetail.userId <$> RawWorkout.bookingDetails (rawWorkoutOf siteMap cardMap w)
  = userIdsOf (workoutView w).
Proof.
  unfold rawWorkoutOf, bookingDetailsOf, userIdsOf, bookingsOf, workoutView. simpl.
  destruct (ApiWorkout.bookings w) as [bs|]; [|done]. simpl.
  induction bs as [|b bs IH]; [done|]. csimpl. rewrite <- IH. clear IH.
  unfold userIdOf, bookingView. simpl.
  destruct (id_or (id_or (ApiBooking.user_id b) (ApiBooking.userId b))
              (ApiBooking.user b ≫= User.id)) as [u|]; simpl; [|done].
  by destruct (Z.eqb u 0).
Qed.

Lemma raw_staffNames w :
  RawStaff.name <$> RawWorkout.staffs (rawWorkoutOf siteMap cardMap w)
  = staffName <$> staffsOf (workoutView w).
Proof.
  unfold rawWorkoutOf, staffsOf, workoutView. simpl. by rewrite <- list_fmap_compose.
Qed.

Lemma raw_userIds_bind (l : list ApiWorkout.t) :
  (rawWorkoutOf siteMap cardMap <$> l)
    ≫= (fun x => BookingDetail.userId <$> RawWorkout.bookingDetails x)
  = (workoutView <$> l) ≫= userIdsOf.
Proof.
  induction l as [|w l IH]; [done|].
  rewrite !fmap_cons, !bind_cons, IH. f_equal. apply raw_userIds.
Qed.

End BodyFacts.

Lemma analyticsBody_Return parseDate club fromDate toDate workouts sites types cards a :
  analyticsBody parseDate club fromDate toDate workouts sites types cards = Return a ->
  Forall (valid parseDate) (workoutView <$> workouts) /\
  Analytics.report a = reportOf parseDate (workoutView <$> workouts) /\
  Analytics.rawWorkouts a
    = rawWorkoutOf (siteMapOf sites) (trainingCardToTypeMapOf cards) <$> workouts.
Proof.
  unfold analyticsBody. cbv zeta.
  destruct (processAnalytics parseDate (workoutView <$> workouts)) as [r|e] eqn:E; [|done].
  simpl. intros [= <-]. apply processAnalytics_Return in E as [Hv ->]. done.
Qed.

(** X17: the raw sessions sent along with the report carry the values the
    report was computed from: there is one per session, their booked counts
    and capacities add up to the totals of the summary, the distinct user
    identifiers of their booking details are the unique participants, their
    type names are the names of the [byType] entries, their instructor
    names, those that are names of inherited properties excepted, are the
    names of the [byInstructor] entries, and each [byType] entry counts,
    sums and takes its colour from the raw sessions of its name. *)
Theorem X17_raw_sessions_match_the_report (parseDate : string -> option Date.t)
    (club : Club.t) (fromDate toDate : string) (workouts : list ApiWorkout.t)
    (sites : option (list (option Site.t)))
    (trainingCardTypes : option (list (option CardType.t)))
    (trainingCards : option (list (option Card.t))) (a : Analytics.t) :
  analyticsBody parseDate club fromDate toDate workouts sites trainingCardTypes trainingCards
    = Return a ->
  let raws := Analytics.rawWorkouts a in
  let r := Analytics.report a in
  N.of_nat (length raws) = Summary.totalClasses (Report.summary r) /\
  sumN (RawWorkout.numBooked <$> raws) = Summary.totalBooked (Report.summary r) /\
  sumN (RawWorkout.space <$> raws) = Summary.totalCapacity (Report.summary r) /\
  N.of_nat (size (list_to_set
     (raws ≫= fun x => BookingDetail.userId <$> RawWorkout.bookingDetails x) : gset Z))
    = Summary.uniqueParticipants (Report.summary r) /\
  (forall k, k ∈ TypeStat.name <$> Report.byType r <-> k ∈ RawWorkout.typeName <$> raws) /\
  (forall n, n ∈ InstructorStat.name <$> Report.byInstructor r <->
             n ∈ (raws ≫= fun x => RawStaff.name <$> RawWorkout.staffs x) /\
             inherited n = false) /\
  Forall (fun e =>
            let g := filter (fun x => RawWorkout.typeName x = TypeStat.name e) raws in
            TypeStat.classes e = N.of_nat (length g) /\
            TypeStat.totalBooked e = sumN (RawWorkout.numBooked <$> g) /\
            TypeStat.totalCapacity e = sumN (RawWorkout.space <$> g) /\
            Some (TypeStat.color e) = RawWorkout.typeColor <$> head g)
         (Report.byType r).
Proof.
  intros (Hv & Hr & Hraw)%analyticsBody_Return. cbv zeta. rewrite Hr, Hraw. clear Hr Hraw.
  set (ws := workoutView <$> workouts) in *.
  set (raw := rawWorkoutOf (siteMapOf sites) (trainingCardToTypeMapOf trainingCards)).
  split_and!.
  - rewrite length_fmap. unfold ws. simpl. by rewrite length_fmap.
  - change (Summary.totalBooked (Report.summary (reportOf parseDate ws)))
      with (sumN (bookedOf <$> ws)).
    unfold ws. by rewrite <- !list_fmap_compose.
  - change (Summary.totalCapacity (Report.summary (reportOf parseDate ws)))
      with (sumN (spaceOf <$> ws)).
    unfold ws. by rewrite <- !list_fmap_compose.
  - change (Summary.uniqueParticipants (Report.summary (reportOf parseDate ws)))
      with (N.of_nat (size (list_to_set (ws ≫= userIdsOf) : gset Z))).
    unfold raw, ws. by rewrite raw_userIds_bind.
  - intros k.
    change (Report.byType (reportOf parseDate ws)) with (typeStats (accOf parseDate ws)).
    rewrite byType_names. simpl Acc.byType.
    rewrite elem_of_keys_groupFold. unfold ws. split.
    + intros (w' & Hw' & <-). apply list_elem_of_fmap in Hw' as (w & -> & Hw).
      apply list_elem_of_fmap. exists (raw w). split; [done|]. by apply list_elem_of_fmap_2.
    + intros (x & -> & Hx)%list_elem_of_fmap.
      apply list_elem_of_fmap in Hx as (w & -> & Hw).
      exists (workoutView w). split; [by apply list_elem_of_fmap_2|done].
  - intros n.
    assert (Hin : n ∈ InstructorStat.name <$> Report.byInstructor (reportOf parseDate ws)
                  <-> n ∈ staffName <$> (ws ≫= staffsOf) /\ inherited n = false).
    { change (Report.byInstructor (reportOf parseDate ws))
        with (instructorStats (accOf parseDate ws)).
      destruct (byInstructor_wf parseDate ws) as [_ Hname].
      unfold instructorStats. rewrite sort_Permutation, values_Permutation.
      rewrite <- list_fmap_compose.
      rewrite (fmap_name_keys InstructorStat.name instructorStat)
        by (eapply Forall_impl; [exact Hname|]; by intros [? ?]).
      rewrite keys_byInstructor. unfold firstSeen.
      rewrite elem_of_foldl_addKey, elem_of_nil, list_elem_of_filter. tauto. }
    rewrite Hin. unfold ws.
    assert (Hnames : n ∈ staffName <$> ((workoutView <$> workouts) ≫= staffsOf) <->
                     n ∈ (raw <$> workouts) ≫= fun x => RawStaff.name <$> RawWorkout.staffs x);
      [|by rewrite Hnames].
    split.
    + intros (s & -> & Hs)%list_elem_of_fmap.
      apply list_elem_of_bind in Hs as (w' & Hs & Hw').
      apply list_elem_of_fmap in Hw' as (w & -> & Hw).
      apply list_elem_of_bind. exists (raw w). split; [|by apply list_elem_of_fmap_2].
      unfold raw. rewrite raw_staffNames. by apply list_elem_of_fmap_2.
    + intros (x & Hn & Hx)%list_elem_of_bind.
      apply list_elem_of_fmap in Hx as (w & -> & Hw).
      unfold raw in Hn. rewrite raw_staffNames in Hn.
      apply list_elem_of_fmap in Hn as (s & -> & Hs).
      apply list_elem_of_fmap_2, list_elem_of_bind. exists (workoutView w).
      split; [done|]. by apply list_elem_of_fmap_2.
  - apply Forall_forall. intros e He.
    change (Report.byType (reportOf parseDate ws)) with (typeStats (accOf parseDate ws)) in He.
    apply elem_of_typeStats in He as (b & Hb & ->).
    remember (TypeStat.name (typeStat (Acc.uniqueUsersByType (accOf parseDate ws)) b))
      as k eqn:Hk.
    rewrite byType_closed in Hb. unfold groupOf in Hb. cbv zeta.
    assert (Hsame : forall {D} (h1 : RawWorkout.t -> D) (h2 : Workout.t -> D),
              (forall w, h1 (raw w) = h2 (workoutView w)) ->
              h1 <$> filter (fun x => RawWorkout.typeName x = k) (raw <$> workouts)
              = h2 <$> filter (fun w => typeNameOf w = k) ws).
    { intros D h1 h2 Hh. by apply filter_fmap_two. }
    assert (Hlen : length (filter (fun x => RawWorkout.typeName x = k) (raw <$> workouts))
                   = length (filter (fun w => typeNameOf w = k) ws)).
    { rewrite <- (length_fmap (fun _ => tt)), <- (length_fmap (fun _ => tt) (filter _ ws)).
      f_equal. by apply Hsame. }
    rewrite Hlen, (Hsame _ RawWorkout.numBooked bookedOf) by done.
    rewrite (Hsame _ RawWorkout.space spaceOf) by done.
    rewrite <- head_fmap, (Hsame _ RawWorkout.typeColor colorOf), head_fmap by done.
    destruct (filter (fun w => typeNameOf w = k) ws) as [|w0 g]; [done|].
    by injection Hb as <-.
Qed.

Lemma X17_raw_sessions_match_the_report_witness :
  exists a,
    analyticsBody localDate (Club.mk (Some "42") (Some "Gym") (Some "gym.example"))
      "2024-01-15" "2024-01-16" fetched fetchedSites None fetchedCards = Return a /\
    sumN (RawWorkout.numBooked <$> Analytics.rawWorkouts a)
      = Summary.totalBooked (Report.summary (Analytics.report a)) /\
    RawWorkout.siteName <$> Analytics.rawWorkouts a = [Some "Harbour"; None].
Proof.
  eexists. split; [vm_compute; reflexivity|].
  split; [|vm_compute; reflexivity].
  refine (proj1 (proj2 (X17_raw_sessions_match_the_report localDate
            (Club.mk (Some "42") (Some "Gym") (Some "gym.example"))
            "2024-01-15" "2024-01-16" fetched fetchedSites None fetchedCards _ _))).
  vm_compute. reflexivity.
Defined.

(** ** The lookup tables of the response *)

Lemma truthy_id_Some (a : option Z) :
  truthy_id a = true <-> exists z, a = Some z /\ z <> 0%Z.
Proof.
  unfold truthy_id. destruct a as [z|].
  - destruct (Z.eqb_spec z 0); simpl; split; try done.
    + intros (z' & [= <-] & Hz). done.
    + intros _. eauto.
  - split; [done|]. by intros (? & ? & ?).
Qed.

Lemma siteMapOf_lookup (sites : list (option Site.t)) (k : Z) :
  k <> 0%Z ->
  siteMapOf (Some sites) !! k = Site.name <$> lastSiteWith k sites.
Proof.
  intros Hk. unfold siteMapOf, lastSiteWith. simpl default.
  induction sites as [|s sites IH] using rev_ind; [done|].
  rewrite foldl_app, omap_app. simpl foldl.
  destruct s as [s|]; [|simpl; by rewrite app_nil_r].
  destruct (truthy_id (Site.id s)) eqn:E.
  - apply truthy_id_Some in E as (z & Hz & Hnz). rewrite Hz. simpl default.
    csimpl. rewrite Hz. destruct (decide (Some z = Some k)) as [[= ->]|Hne].
    + rewrite lookup_insert_eq. by rewrite last_snoc.
    + rewrite lookup_insert_ne by congruence. by rewrite app_nil_r.
  - csimpl. destruct (decide (Site.id s = Some k)) as [Hs|_]; [|by rewrite app_nil_r].
    rewrite Hs in E. simpl in E. destruct (Z.eqb_spec k 0); done.
Qed.

Lemma siteMapOf_zero (sites : option (list (option Site.t))) : siteMapOf sites !! 0%Z = None.
Proof.
  unfold siteMapOf. induction (default [] sites) as [|s l IH] using rev_ind; [done|].
  rewrite foldl_app. simpl. destruct s as [s|]; [|done].
  destruct (truthy_id (Site.id s)) eqn:E; [|done].
  apply truthy_id_Some in E as (z & -> & Hz). simpl. by rewrite lookup_insert_ne.
Qed.

Lemma cardMapOf_lookup (cards : list (option Card.t)) (k : Z) :
  k <> 0%Z ->
  trainingCardToTypeMapOf (Some cards) !! k
  = (fun c => default 0%Z (Card.type_id c)) <$> lastCardWith k cards.
Proof.
  intros Hk. unfold trainingCardToTypeMapOf, lastCardWith. simpl default.
  induction cards as [|c cards IH] using rev_ind; [done|].
  rewrite foldl_app, omap_app. simpl foldl.
  destruct c as [c|]; [|simpl; by rewrite app_nil_r].
  destruct (truthy_id (Card.id c)) eqn:E; simpl andb.
  - apply truthy_id_Some in E as (z & Hz & Hnz). rewrite Hz. simpl default.
    csimpl. rewrite Hz. destruct (truthy_id (Card.type_id c)) eqn:Et.
    + destruct (decide (Some z = Some k)) as [[= ->]|Hne].
      * rewrite lookup_insert_eq. by rewrite last_snoc.
      * rewrite lookup_insert_ne by congruence. by rewrite app_nil_r.
    + destruct (decide (Some z = Some k)); by rewrite app_nil_r.
  - csimpl. destruct (decide (Card.id c = Some k)) as [Hs|_]; [|by rewrite app_nil_r].
    rewrite Hs in E. simpl in E. destruct (Z.eqb_spec k 0); done.
Qed.

Lemma or_text_Some a b n :
  or_text (or_text a b) None = Some n ->
  n <> EmptyString /\ (a = Some n \/ b = Some n).
Proof.
  unfold or_text. destruct a as [s|].
  - destruct (String.eqb_spec s EmptyString) as [->|Hs].
    + destruct b as [t|]; [|done].
      destruct (String.eqb_spec t EmptyString); [done|]. intros [= <-]. eauto.
    + destruct (String.eqb_spec s EmptyString); [done|]. intros [= <-]. eauto.
  - destruct b as [t|]; [|done].
    destruct (String.eqb_spec t EmptyString); [done|]. intros [= <-]. eauto.
Qed.

(** X18: the site name and the card type attached to a raw session come
    from the last fetched record with the identifier: a [siteName] is never
    empty and is the name of the last site whose identifier is the session's
    [site_id] or [siteId]; when the last site with the session's [site_id]
    has a non-empty name, that name is shown; and a [trainingCardTypeId] of a
    booking detail is the type of the last usable card carrying the
    identifier of the card of some booking of the session. *)
Theorem X18_lookups_take_the_last_record (parseDate : string -> option Date.t)
    (club : Club.t) (fromDate toDate : string) (workouts : list ApiWorkout.t)
    (sites : list (option Site.t))
    (trainingCardTypes : option (list (option CardType.t)))
    (cards : list (option Card.t)) (a : Analytics.t) :
  analyticsBody parseDate club fromDate toDate workouts (Some sites) trainingCardTypes
    (Some cards) = Return a ->
  forall i w x, workouts !! i = Some w -> Analytics.rawWorkouts a !! i = Some x ->
    (forall n, RawWorkout.siteName x = Some n ->
       n <> EmptyString /\
       exists k s, (ApiWorkout.site_id w = Some k \/ ApiWorkout.siteId w = Some k) /\
                   k <> 0%Z /\ lastSiteWith k sites = Some s /\ Site.name s = Some n) /\
    (forall k s n, ApiWorkout.site_id w = Some k -> k <> 0%Z ->
       lastSiteWith k sites = Some s -> Site.name s = Some n -> n <> EmptyString ->
       RawWorkout.siteName x = Some n) /\
    (forall d t, d ∈ RawWorkout.bookingDetails x ->
       BookingDetail.trainingCardTypeId d = Some t ->
       t <> 0%Z /\
       exists b k c, b ∈ default [] (ApiWorkout.bookings w) /\
                     ApiBooking.trainingcard b = Some k /\ k <> 0%Z /\
                     lastCardWith k cards = Some c /\ Card.type_id c = Some t).
Proof.
  intros (_ & _ & Hraw)%analyticsBody_Return i w x Hw Hx.
  rewrite Hraw, list_lookup_fmap, Hw in Hx. injection Hx as <-.
  assert (Hname : forall ko n, mjoin (at_id (siteMapOf (Some sites)) ko) = Some n ->
            exists k s, ko = Some k /\ k <> 0%Z /\ lastSiteWith k sites = Some s
                        /\ Site.name s = Some n).
  { intros [k|] n; [|done]. simpl. destruct (decide (k = 0%Z)) as [->|Hk].
    - by rewrite siteMapOf_zero.
    - rewrite siteMapOf_lookup by done.
      destruct (lastSiteWith k sites) as [s|] eqn:El; [|done]. simpl. intros Hn.
      exists k, s. done. }
  split_and!.
  - intros n Hn. cbn [rawWorkoutOf RawWorkout.siteName] in Hn.
    apply or_text_Some in Hn as [Hne [Hn|Hn]]; split; try done.
    + apply Hname in Hn as (k & s & ? & ? & ? & ?). exists k, s. eauto.
    + apply Hname in Hn as (k & s & ? & ? & ? & ?). exists k, s. eauto.
  - intros k s n Hk Hnz Hs Hn Hne. cbn [rawWorkoutOf RawWorkout.siteName].
    rewrite Hk. simpl. rewrite siteMapOf_lookup, Hs by done. simpl. rewrite Hn.
    assert (E : String.eqb n EmptyString = false) by (by apply String.eqb_neq).
    unfold or_text. by rewrite !E.
  - intros d t Hd Ht. cbn [rawWorkoutOf RawWorkout.bookingDetails] in Hd.
    unfold bookingDetailsOf in Hd.
    apply list_elem_of_omap in Hd as (b & Hb & Hbd).
    destruct (truthy_id (id_or _ _)); [|done]. injection Hbd as <-.
    cbn [BookingDetail.trainingCardTypeId] in Ht.
    destruct (truthy_id (ApiBooking.trainingcard b)) eqn:Ec; [|done].
    apply truthy_id_Some in Ec as (k & Hk & Hnz).
    rewrite Hk in Ht. simpl in Ht. rewrite cardMapOf_lookup in Ht by done.
    destruct (lastCardWith k cards) as [c|] eqn:El; [|done]. simpl in Ht.
    pose proof El as Hin. unfold lastCardWith in Hin.
    apply last_Some_elem_of, list_elem_of_omap in Hin as ([c'|] & _ & Hc); [|done].
    destruct (decide (Card.id c' = Some k)); [|done].
    destruct (truthy_id (Card.type_id c')) eqn:Et; [|done]. injection Hc as ->.
    apply truthy_id_Some in Et as (t' & Ht' & Hnt).
    rewrite Ht' in Ht. simpl in Ht. unfold id_or, truthy_id in Ht.
    destruct (Z.eqb_spec t' 0); [done|]. injection Ht as <-.
    split; [done|]. exists b, k, c. done.
Qed.

Lemma X18_lookups_take_the_last_record_witness :
  exists a x w,
    analyticsBody localDate (Club.mk (Some "42") (Some "Gym") (Some "gym.example"))
      "2024-01-15" "2024-01-16" fetched fetchedSites None fetchedCards = Return a /\
    Analytics.rawWorkouts a !! 0%nat = Some x /\
    fetched !! 0%nat = Some w /\
    RawWorkout.siteName x = Some "Harbour" /\
    "Harbour" <> EmptyString /\
    exists k s, (ApiWorkout.site_id w = Some k \/ ApiWorkout.siteId w = Some k) /\
                k <> 0%Z /\
                lastSiteWith k (default [] fetchedSites) = Some s /\
                Site.name s = Some "Harbour".
Proof.
  eexists _, _, _. split; [vm_compute; reflexivity|]. split; [vm_compute; reflexivity|].
  split; [vm_compute; reflexivity|]. split; [vm_compute; reflexivity|].
  refine (proj1 (X18_lookups_take_the_last_record localDate
            (Club.mk (Some "42") (Some "Gym") (Some "gym.example"))
            "2024-01-15" "2024-01-16" fetched (default [] fetchedSites) None
            (default [] fetchedCards) _ _ 0%nat _ _ _ _) "Harbour" _);
    vm_compute; reflexivity.
Defined.

(** * Bounds and additivity of the report *)

Lemma sumN_le {A} (f g : A -> N) (l : list A) :
  Forall (fun x => f x <= g x) l -> sumN (f <$> l) <= sumN (g <$> l).
Proof.
  induction 1 as [|x l Hx Hl IH]; [done|]. rewrite !fmap_cons, !sumN_cons. lia.
Qed.

Lemma Forall_filter_1 {A} (P Q : A -> Prop) `{forall x, Decision (Q x)} (l : list A) :
  Forall P l -> Forall P (filter Q l).
Proof.
  rewrite !Forall_forall. intros Hl x [_ Hx]%list_elem_of_filter. by apply Hl.
Qed.

Lemma count_disjoint {A} (P Q : A -> Prop) `{forall x, Decision (P x)}
    `{forall x, Decision (Q x)} (l : list A) :
  (forall x, P x -> Q x -> False) ->
  (length (filter P l) + length (filter Q l) <= length l)%nat.
Proof.
  intros Hd. induction l as [|x l IH]; [done|]. rewrite !filter_cons.
  destruct (decide (P x)) as [Hp|Hp], (decide (Q x)) as [Hq|Hq]; simpl; try lia.
  destruct (Hd x Hp Hq).
Qed.

(** X19: a session is never counted both as fully booked and as empty, so
    [fullyBookedClasses + emptyClasses] is at most [totalClasses] and the two
    corresponding rates are at most 100.0; and when no session has more
    bookings than capacity, no attendance rate anywhere in the report exceeds
    100.0. *)
Theorem X19_rates_at_most_100 (parseDate : string -> option Date.t)
    (ws : list Workout.t) (r : Report.t) :
  processAnalytics parseDate ws = Return r ->
  Summary.fullyBookedClasses (Report.summary r) + Summary.emptyClasses (Report.summary r)
    <= Summary.totalClasses (Report.summary r) /\
  parseFloat10 (Summary.fullyBookedRate (Report.summary r)) <= 1000 /\
  parseFloat10 (Summary.emptyRate (Report.summary r)) <= 1000 /\
  (Forall (fun w => bookedOf w <= spaceOf w) ws ->
   parseFloat10 (Summary.overallAttendanceRate (Report.summary r)) <= 1000 /\
   Forall (fun e => parseFloat10 (TypeStat.attendanceRate e) <= 1000) (Report.byType r) /\
   Forall (fun e => parseFloat10 (DayStat.attendanceRate e) <= 1000) (Report.byDay r) /\
   Forall (fun e => parseFloat10 (HourStat.attendanceRate e) <= 1000) (Report.byHour r) /\
   Forall (fun e => parseFloat10 (InstructorStat.attendanceRate e) <= 1000)
     (Report.byInstructor r) /\
   Forall (fun e => parseFloat10 (TrendPoint.attendanceRate e) <= 1000)
     (Report.dailyTrend r)).
Proof.
  intros [Hv ->]%processAnalytics_Return.
  assert (Hcount : (length (filter fullyBooked ws) + length (filter isEmpty ws)
                    <= length ws)%nat).
  { apply count_disjoint. unfold fullyBooked, isEmpty. intros w [? ?] ?. lia. }
  assert (Hf : (length (filter fullyBooked ws) <= length ws)%nat) by apply length_filter.
  assert (He : (length (filter isEmpty ws) <= length ws)%nat) by apply length_filter.
  split_and!.
  - simpl. unfold countN. lia.
  - simpl. apply rateOf_le. unfold countN. lia.
  - simpl. apply rateOf_le. unfold countN. lia.
  - intros Hb.
    assert (Hsub : forall (P : Workout.t -> Prop) `{forall x, Decision (P x)},
              sumN (bookedOf <$> filter P ws) <= sumN (spaceOf <$> filter P ws)).
    { intros P ?. apply sumN_le. by apply Forall_filter_1. }
    split_and!.
    + simpl. apply rateOf_le. by apply sumN_le.
    + apply Forall_forall. intros e He'.
      apply elem_of_typeStats in He' as (b & Hbk & ->).
      remember (TypeStat.name (typeStat (Acc.uniqueUsersByType (accOf parseDate ws)) b))
        as k eqn:Hk.
      rewrite byType_closed in Hbk. unfold groupOf in Hbk.
      pose proof (Hsub (fun w => typeNameOf w = k) _) as Hle.
      destruct (filter (fun w => typeNameOf w = k) ws) as [|w0 g]; [done|].
      injection Hbk as <-. simpl. by apply rateOf_le.
    + apply Forall_forall. intros e He'.
      apply list_elem_of_lookup in He' as [i Hie].
      unfold reportOf, Report.byDay in Hie.
      apply list_lookup_imap_Some in Hie as (name & Hname & ->).
      assert (Hi : (i < 7)%nat) by (by apply lookup_lt_Some in Hname).
      rewrite byDayOfWeek_closed by done. unfold dayStatOf. simpl.
      rewrite <- !list_fmap_compose. apply rateOf_le. apply Hsub.
    + unfold reportOf, Report.byHour, hourStats. apply Forall_fmap, Forall_forall.
      intros h _. unfold compose.
      pose proof (addBucket_get (valid parseDate) (theHour parseDate) (hourOf parseDate)
                    (valid_theHour parseDate) ws h Hv) as Hbk.
      unfold hourStat. simpl Acc.byHour. unfold from_option, id in Hbk.
      cbn [HourStat.attendanceRate].
      change (match Obj.get h ?d with Some data => data | None => Bucket.mk 0 0 0 end)
        with (default (Bucket.mk 0 0 0) (Obj.get h d)).
      unfold default, from_option, id. rewrite Hbk. simpl. apply rateOf_le. apply Hsub.
    + apply Forall_forall. intros e He'.
      apply elem_of_instructorStats in He' as (b & Hbk & ->).
      destruct (byInstructor_totals parseDate ws
                  (InstructorStat.name (instructorStat b))
                  (byInstructor_listed parseDate ws _ _ Hbk)) as (_ & H2 & H3).
      rewrite Hbk in H2, H3. simpl in H2, H3.
      cbn [instructorStat InstructorStat.attendanceRate]. rewrite H2, H3.
      apply rateOf_le. apply sumN_le.
      eapply Forall_impl; [exact Hb|]. intros w Hw. cbv beta in Hw |- *.
      by apply N.mul_le_mono_l.
    + unfold reportOf, Report.dailyTrend. apply Forall_fmap, Forall_forall.
      intros d _. unfold compose. rewrite byDate_get by done.
      pose proof (Hsub (fun w => dateStrOf w = Some d) _) as Hle.
      destruct (inherited d); [simpl; lia|].
      destruct (filter (fun w => dateStrOf w = Some d) ws) as [|w0 g].
      * simpl. lia.
      * simpl default. cbn [trendPointOf TrendPoint.attendanceRate Bucket.totalBooked
                            Bucket.totalCapacity]. by apply rateOf_le.
Qed.

Lemma X19_rates_at_most_100_witness :
  processAnalytics localDate demo = Return (reportOf localDate demo) /\
  Forall (fun w => bookedOf w <= spaceOf w) demo /\
  parseFloat10 (Summary.overallAttendanceRate (Report.summary (reportOf localDate demo)))
    <= 1000.
Proof.
  assert (H : processAnalytics localDate demo = Return (reportOf localDate demo)).
  { vm_compute. reflexivity. }
  assert (Hb : Forall (fun w => bookedOf w <= spaceOf w) demo).
  { repeat constructor; vm_compute; discriminate. }
  split; [exact H|]. split; [exact Hb|].
  exact (proj1 (proj2 (proj2 (proj2 (X19_rates_at_most_100 localDate demo _ H))) Hb)).
Defined.

(** X20: the report of two batches of sessions taken together exists when
    the reports of both exist, and its counts are the sums of theirs: the
    totals, the fully booked and the empty sessions of the summary, and the
    classes of every weekday and of every hour; the unique participants of
    the whole are at least those of either batch and at most those of both
    added up. *)
Theorem X20_batches_add_up (parseDate : string -> option Date.t)
    (ws1 ws2 : list Workout.t) (r1 r2 : Report.t) :
  processAnalytics parseDate ws1 = Return r1 ->
  processAnalytics parseDate ws2 = Return r2 ->
  exists r, processAnalytics parseDate (ws1 ++ ws2) = Return r /\
    Summary.totalClasses (Report.summary r)
      = Summary.totalClasses (Report.summary r1) + Summary.totalClasses (Report.summary r2) /\
    Summary.totalBooked (Report.summary r)
      = Summary.totalBooked (Report.summary r1) + Summary.totalBooked (Report.summary r2) /\
    Summary.totalCapacity (Report.summary r)
      = Summary.totalCapacity (Report.summary r1)
        + Summary.totalCapacity (Report.summary r2) /\
    Summary.fullyBookedClasses (Report.summary r)
      = Summary.fullyBookedClasses (Report.summary r1)
        + Summary.fullyBookedClasses (Report.summary r2) /\
    Summary.emptyClasses (Report.summary r)
      = Summary.emptyClasses (Report.summary r1) + Summary.emptyClasses (Report.summary r2) /\
    Summary.uniqueParticipants (Report.summary r1)
      <= Summary.uniqueParticipants (Report.summary r) /\
    Summary.uniqueParticipants (Report.summary r2)
      <= Summary.uniqueParticipants (Report.summary r) /\
    Summary.uniqueParticipants (Report.summary r)
      <= Summary.uniqueParticipants (Report.summary r1)
         + Summary.uniqueParticipants (Report.summary r2) /\
    DayStat.classes <$> Report.byDay r
      = zip_with N.add (DayStat.classes <$> Report.byDay r1)
                       (DayStat.classes <$> Report.byDay r2) /\
    HourStat.classes <$> Report.byHour r
      = zip_with N.add (HourStat.classes <$> Report.byHour r1)
                       (HourStat.classes <$> Report.byHour r2).
Proof.
  intros [Hv1 ->]%processAnalytics_Return [Hv2 ->]%processAnalytics_Return.
  assert (Hv : Forall (valid parseDate) (ws1 ++ ws2)) by (by apply Forall_app).
  exists (reportOf parseDate (ws1 ++ ws2)).
  split; [by apply processAnalytics_Return|].
  assert (Hset : (list_to_set ((ws1 ++ ws2) ≫= userIdsOf) : gset Z)
                 = list_to_set (ws1 ≫= userIdsOf) ∪ list_to_set (ws2 ≫= userIdsOf)).
  { by rewrite bind_app, list_to_set_app_L. }
  assert (Hday : forall ws, Forall (valid parseDate) ws ->
            DayStat.classes <$> Report.byDay (reportOf parseDate ws)
            = (fun i => N.of_nat (length (filter (fun w => dayOf parseDate w = Some i) ws)))
                <$> seq 0 7).
  { intros ws Hws.
    transitivity ((fun i => N.of_nat (length (default []
                     (Acc.byDayOfWeek (accOf parseDate ws) !! i)))) <$> seq 0 7);
      [reflexivity|].
    apply list_fmap_ext. intros _ i Hi%list_elem_of_lookup_2.
    apply elem_of_seq in Hi. rewrite byDayOfWeek_closed by (done || lia).
    simpl. by rewrite length_fmap. }
  assert (Hhour : forall ws, Forall (valid parseDate) ws ->
            HourStat.classes <$> Report.byHour (reportOf parseDate ws)
            = (fun h => N.of_nat (length (filter (fun w => hourOf parseDate w = Some h) ws)))
                <$> seq 5 18).
  { intros ws Hws. unfold reportOf, Report.byHour, hourStats.
    rewrite <- list_fmap_compose. apply list_fmap_ext. intros _ h _. unfold compose.
    pose proof (addBucket_get (valid parseDate) (theHour parseDate) (hourOf parseDate)
                  (valid_theHour parseDate) ws h Hws) as Hb.
    unfold hourStat, from_option, id in *. simpl Acc.byHour. by rewrite Hb. }
  assert (Hzip : forall (f g : nat -> N) (l : list nat),
            (fun i => f i + g i) <$> l = zip_with N.add (f <$> l) (g <$> l)).
  { intros f g l. induction l as [|x l IH]; [done|]. csimpl. by rewrite IH. }
  split_and!.
  - simpl. rewrite length_app. lia.
  - simpl. by rewrite fmap_app, sumN_app.
  - simpl. by rewrite fmap_app, sumN_app.
  - simpl. unfold countN. rewrite filter_app, length_app. lia.
  - simpl. unfold countN. rewrite filter_app, length_app. lia.
  - change (N.of_nat (size (list_to_set (ws1 ≫= userIdsOf) : gset Z))
            <= N.of_nat (size (list_to_set ((ws1 ++ ws2) ≫= userIdsOf) : gset Z))).
    rewrite Hset.
    assert (Hs : (size (list_to_set (ws1 ≫= userIdsOf) : gset Z)
                  <= size (list_to_set (ws1 ≫= userIdsOf) ∪ list_to_set (ws2 ≫= userIdsOf)
                           : gset Z))%nat) by (apply subseteq_size; set_solver).
    lia.
  - change (N.of_nat (size (list_to_set (ws2 ≫= userIdsOf) : gset Z))
            <= N.of_nat (size (list_to_set ((ws1 ++ ws2) ≫= userIdsOf) : gset Z))).
    rewrite Hset.
    assert (Hs : (size (list_to_set (ws2 ≫= userIdsOf) : gset Z)
                  <= size (list_to_set (ws1 ≫= userIdsOf) ∪ list_to_set (ws2 ≫= userIdsOf)
                           : gset Z))%nat) by (apply subseteq_size; set_solver).
    lia.
  - change (N.of_nat (size (list_to_set ((ws1 ++ ws2) ≫= userIdsOf) : gset Z))
            <= N.of_nat (size (list_to_set (ws1 ≫= userIdsOf) : gset Z))
               + N.of_nat (size (list_to_set (ws2 ≫= userIdsOf) : gset Z))).
    rewrite Hset.
    pose proof (size_union_le (list_to_set (ws1 ≫= userIdsOf))
                  (list_to_set (ws2 ≫= userIdsOf))). lia.
  - rewrite !Hday by done. rewrite <- Hzip. apply list_fmap_ext. intros _ i _.
    rewrite filter_app, length_app. lia.
  - rewrite !Hhour by done. rewrite <- Hzip. apply list_fmap_ext. intros _ h _.
    rewrite filter_app, length_app. lia.
Qed.

Lemma X20_batches_add_up_witness :
  exists r, processAnalytics localDate (demo ++ tied) = Return r /\
    Summary.totalBooked (Report.summary r)
      = Summary.totalBooked (Report.summary (reportOf localDate demo))
        + Summary.totalBooked (Report.summary (reportOf localDate tied)).
Proof.
  destruct (X20_batches_add_up localDate demo tied
              (reportOf localDate demo) (reportOf localDate tied))
    as (r & Hr & _ & Hb & _); [vm_compute; reflexivity..|].
  exists r. by split.
Defined.
